(** * ai-news-agent: caching keys, query building, fetching, enrichment and ranking

    A shallow embedding of the Python sources

      - [analysis/llm_analyzer.py]      (cache keys, LLM-backed enrichment),
      - [processing/preference_processor.py] (preferences to query parameters),
      - [fetchers/newsapi_client.py]    (cache key, request normalisation, fetch),
      - [recommendations/engine.py]     (scoring, ranking, top-N selection),

    together with the properties the specification states about them.

    Conventions of the embedding.
      - A Python [str] is the [string] of its UTF-8 bytes; concatenation,
        equality, substring search and code-point ordering of [str] coincide
        with the byte-level operations on valid UTF-8.
      - Python [int] is [Z].  The scores of the engine are finite sums of
        [1.0], [2.0] and [0.5], which binary floating point represents
        exactly; such a float is modelled by the rational [Q] it denotes.
      - A Python [dict] is an association list in insertion order with
        unique keys ([Dict.get], [Dict.set]).
      - Article dictionaries are mutable objects shared between the caller
        and the engine: they live in a [heap] and lists hold references.
      - A raised exception is a value of the sum type [result]. *)

From Stdlib Require Import ZArith QArith Lqa Ascii String DecimalString Sorting.Sorted.
From Stdlib Require OrderedTypeEx DecimalPos DecimalZ.
From stdpp Require Import base option list strings gmap sorting.

#[local] Set Warnings "-register-all".

Local Open Scope string_scope.
Local Open Scope Z_scope.

(** ** Python strings *)

Module Str.

Definition bytes_of (s : string) : list Z :=
  map (fun c => Z.of_N (N_of_ascii c)) (list_ascii_of_string s).

(** [str(n)] for an [int]: decimal digits, with a leading minus sign for
    negative numbers. *)
Definition of_int (z : Z) : string := NilZero.string_of_int (Z.to_int z).

(** [sep.join(parts)] *)
Fixpoint join (sep : string) (parts : list string) : string :=
  match parts with
  | [] => EmptyString
  | [p] => p
  | p :: rest => p ++ sep ++ join sep rest
  end.

(** [needle in hay] *)
Fixpoint contains (needle hay : string) : bool :=
  String.prefix needle hay ||
  match hay with
  | EmptyString => false
  | String _ hay' => contains needle hay'
  end.

(** The ASCII part of [str.lower]: bytes of [A-Z] are mapped to [a-z], all
    other bytes are kept.  It agrees with [str.lower] on ASCII text. *)
Definition lower_ascii (c : ascii) : ascii :=
  let n := nat_of_ascii c in
  if ((65 <=? n) && (n <=? 90))%nat then ascii_of_nat (n + 32) else c.

Fixpoint ascii_lower (s : string) : string :=
  match s with
  | EmptyString => EmptyString
  | String c s' => String (lower_ascii c) (ascii_lower s')
  end.

(** The ASCII part of [str.strip]: the characters Python's [str.isspace]
    accepts below 128 are tab, line feed, vertical tab, form feed, carriage
    return, the separators 28 to 31 and the space. *)
Definition is_space (c : ascii) : bool :=
  let n := nat_of_ascii c in
  (((9 <=? n) && (n <=? 13)) || ((28 <=? n) && (n <=? 32)))%nat.

Fixpoint lstrip (s : string) : string :=
  match s with
  | EmptyString => EmptyString
  | String c s' => if is_space c then lstrip s' else s
  end.

Fixpoint rstrip (s : string) : string :=
  match s with
  | EmptyString => EmptyString
  | String c s' =>
      match rstrip s' with
      | EmptyString => if is_space c then EmptyString else String c EmptyString
      | r => String c r
      end
  end.

Definition ascii_strip (s : string) : string := rstrip (lstrip s).

End Str.

(** ** SHA-256 ([hashlib.sha256(...).hexdigest()])

    The digest of FIPS 180-4 on 32-bit words kept in [Z], with the
    wrap-around of every addition written out. *)

Module Sha256.

Definition wrap (x : Z) : Z := x mod 2 ^ 32.
Definition add32 (x y : Z) : Z := wrap (x + y).
Definition rotr (n x : Z) : Z :=
  Z.lor (Z.shiftr x n) (wrap (Z.shiftl x (32 - n))).
Definition not32 (x : Z) : Z := Z.lxor x (2 ^ 32 - 1).

Definition ch (x y z : Z) : Z := Z.lxor (Z.land x y) (Z.land (not32 x) z).
Definition maj (x y z : Z) : Z :=
  Z.lxor (Z.lxor (Z.land x y) (Z.land x z)) (Z.land y z).
Definition bsig0 (x : Z) : Z := Z.lxor (Z.lxor (rotr 2 x) (rotr 13 x)) (rotr 22 x).
Definition bsig1 (x : Z) : Z := Z.lxor (Z.lxor (rotr 6 x) (rotr 11 x)) (rotr 25 x).
Definition ssig0 (x : Z) : Z := Z.lxor (Z.lxor (rotr 7 x) (rotr 18 x)) (Z.shiftr x 3).
Definition ssig1 (x : Z) : Z := Z.lxor (Z.lxor (rotr 17 x) (rotr 19 x)) (Z.shiftr x 10).

Definition round_constants : list Z :=
  [ 1116352408; 1899447441; 3049323471; 3921009573; 961987163; 1508970993;
    2453635748; 2870763221; 3624381080; 310598401; 607225278; 1426881987;
    1925078388; 2162078206; 2614888103; 3248222580; 3835390401; 4022224774;
    264347078; 604807628; 770255983; 1249150122; 1555081692; 1996064986;
    2554220882; 2821834349; 2952996808; 3210313671; 3336571891; 3584528711;
    113926993; 338241895; 666307205; 773529912; 1294757372; 1396182291;
    1695183700; 1986661051; 2177026350; 2456956037; 2730485921; 2820302411;
    3259730800; 3345764771; 3516065817; 3600352804; 4094571909; 275423344;
    430227734; 506948616; 659060556; 883997877; 958139571; 1322822218;
    1537002063; 1747873779; 1955562222; 2024104815; 2227730452; 2361852424;
    2428436474; 2756734187; 3204031479; 3329325298 ].

Definition initial_hash : list Z :=
  [ 1779033703; 3144134277; 1013904242; 2773480762;
    1359893119; 2600822924; 528734635; 1541459225 ].

(** Padding: a [0x80] byte, zero bytes up to 56 modulo 64, then the bit
    length as a 64-bit big-endian number. *)
Definition be_bytes (count : nat) (x : Z) : list Z :=
  map (fun i => Z.land (Z.shiftr x (8 * Z.of_nat i)) 255) (rev (seq 0 count)).

Definition pad (msg : list Z) : list Z :=
  let len := Z.of_nat (length msg) in
  msg ++ [128] ++ repeat 0 (Z.to_nat ((55 - len) mod 64)) ++ be_bytes 8 (8 * len).

Fixpoint words_of (bs : list Z) : list Z :=
  match bs with
  | b0 :: b1 :: b2 :: b3 :: rest =>
      (Z.shiftl b0 24 + Z.shiftl b1 16 + Z.shiftl b2 8 + b3) :: words_of rest
  | _ => []
  end.

(** The message schedule, most recent word first. *)
Fixpoint schedule (fuel : nat) (recent : list Z) : list Z :=
  match fuel with
  | O => recent
  | S fuel' =>
      let w := add32 (add32 (ssig1 (nth 1 recent 0)) (nth 6 recent 0))
                     (add32 (ssig0 (nth 14 recent 0)) (nth 15 recent 0)) in
      schedule fuel' (w :: recent)
  end.

Definition round (st : list Z) (kw : Z * Z) : list Z :=
  match st with
  | [a; b; c; d; e; f; g; h] =>
      let t1 := add32 (add32 (add32 h (bsig1 e)) (add32 (ch e f g) kw.1)) kw.2 in
      let t2 := add32 (bsig0 a) (maj a b c) in
      [add32 t1 t2; a; b; c; add32 d t1; e; f; g]
  | _ => st
  end.

Definition compress (h : list Z) (block : list Z) : list Z :=
  let w := rev (schedule 48 (rev block)) in
  let st := fold_left round (combine round_constants w) h in
  map (fun p : Z * Z => add32 p.1 p.2) (combine h st).

Fixpoint blocks (fuel : nat) (ws : list Z) : list (list Z) :=
  match fuel, ws with
  | S fuel', _ :: _ => firstn 16 ws :: blocks fuel' (skipn 16 ws)
  | _, _ => []
  end.

Definition digest (msg : list Z) : list Z :=
  let ws := words_of (pad msg) in
  fold_left compress (blocks (length ws) ws) initial_hash.

Definition hex_digit (d : Z) : ascii :=
  ascii_of_nat (Z.to_nat (if d <? 10 then 48 + d else 87 + d)).

Definition hex_word (x : Z) : string :=
  string_of_list_ascii
    (map (fun i => hex_digit (Z.land (Z.shiftr x (4 * Z.of_nat i)) 15))
         (rev (seq 0 8))).

Definition hexdigest (s : string) : string :=
  String.concat EmptyString (map hex_word (digest (Str.bytes_of s))).

End Sha256.

(** ** Python values, dictionaries, exceptions *)

Inductive value : Type :=
| VNone
| VStr (s : string)
| VInt (z : Z)
| VFloat (q : Q)
| VList (l : list value)
| VDict (d : list (string * value)).

(** Truth value of an object, as tested by [if v] and [or]. *)
Definition truthy (v : value) : bool :=
  match v with
  | VNone => false
  | VStr s => negb (String.eqb s EmptyString)
  | VInt z => negb (z =? 0)
  | VFloat q => negb (Qeq_bool q 0)
  | VList l => match l with [] => false | _ => true end
  | VDict d => match d with [] => false | _ => true end
  end.

Inductive exn : Type :=
| AttributeError
| TypeError
| ValueError.

Inductive result (A : Type) : Type :=
| Ok (a : A)
| Raise (e : exn).
Arguments Ok {A} a.
Arguments Raise {A} e.

#[global] Instance result_bind : MBind result := fun A B k r =>
  match r with
  | Ok a => k a
  | Raise e => Raise e
  end.

#[global] Instance result_fmap : FMap result := fun A B f r =>
  match r with
  | Ok a => Ok (f a)
  | Raise e => Raise e
  end.

Module Dict.
Section Ops.
Context {V : Type}.

(** [d.get(k)], [None] when the key is absent. *)
Fixpoint get (d : list (string * V)) (k : string) : option V :=
  match d with
  | [] => None
  | (k', v) :: d' => if String.eqb k' k then Some v else get d' k
  end.

(** [d.get(k, default)] *)
Definition get_default (d : list (string * V)) (k : string) (dflt : V) : V :=
  match get d k with
  | Some v => v
  | None => dflt
  end.

(** [d[k] = v]: an existing key keeps its position, a new key is
    appended. *)
Fixpoint set (d : list (string * V)) (k : string) (v : V) : list (string * V) :=
  match d with
  | [] => [(k, v)]
  | (k', v') :: d' =>
      if String.eqb k' k then (k, v) :: d' else (k', v') :: set d' k v
  end.

Definition keys (d : list (string * V)) : list string := map fst d.

(** The invariant of a Python dictionary: no key occurs twice. *)
Definition wf (d : list (string * V)) : Prop := NoDup (keys d).
End Ops.
End Dict.

Abbreviation dict V := (list (string * V)).

(** ** [sorted]

    [sorted(xs, key=k)] is a stable sort that compares keys with [<] only.
    With [reverse=True] the list is reversed, sorted, and reversed again,
    which keeps elements with equal keys in their original order. *)

Section Sorted.
Context {A K : Type} (lt : K -> K -> bool) (key : A -> K).

Fixpoint insert_sorted (x : A) (l : list A) : list A :=
  match l with
  | [] => [x]
  | y :: l' =>
      if lt (key y) (key x) then y :: insert_sorted x l' else x :: y :: l'
  end.

Definition sort_stable (l : list A) : list A := foldr insert_sorted [] l.

Definition sorted (reverse : bool) (l : list A) : list A :=
  if reverse then rev (sort_stable (rev l)) else sort_stable l.
End Sorted.

Definition Qltb (a b : Q) : bool := negb (Qle_bool b a).

(** ** Memoisation ([cachetools.cached] over a [TTLCache])

    A cache and the requests sent to the external boundary so far.  The cache
    is observed inside one time-to-live window and below its capacity, where
    an entry is visible exactly when it was stored. *)

Record world (R : Type) : Type := {
  cache : gmap string value;
  requests : list R
}.
Arguments cache {R} w.
Arguments requests {R} w.

Definition empty_world {R : Type} : world R := {| cache := ∅; requests := [] |}.

Definition send {R : Type} (r : R) (w : world R) : world R :=
  {| cache := cache w; requests := requests w ++ [r] |}.

Definition store {R : Type} (key : string) (v : value) (w : world R) : world R :=
  {| cache := <[key := v]> (cache w); requests := requests w |}.

(** [@cached(cache, key)]: a stored result is returned without running the
    body; otherwise the body runs and its result (also [None]) is stored.  An
    exception of the body stores nothing and reaches the caller. *)
Definition cached {R : Type} (key : string)
    (body : world R -> result value * world R) (w : world R)
    : result value * world R :=
  match cache w !! key with
  | Some v => (Ok v, w)
  | None =>
      match body w with
      | (Ok v, w') => (Ok v, store key v w')
      | (Raise e, w') => (Raise e, w')
      end
  end.

(** ** [analysis/llm_analyzer.py] *)

Definition newline : string := String (ascii_of_nat 10) EmptyString.

(** [s.split(sep)] for a one-character separator. *)
Fixpoint split (sep : ascii) (s : string) : list string :=
  match s with
  | EmptyString => [EmptyString]
  | String c s' =>
      if Ascii.eqb c sep then EmptyString :: split sep s'
      else match split sep s' with
           | w :: ws => String c w :: ws
           | [] => [String c EmptyString]
           end
  end.

Definition generate_cache_key (func_name text : string) : string :=
  func_name ++ ":" ++ Sha256.hexdigest text.

(** What [client.chat.completions.create] does: it returns a response whose
    [choices] carry a message content each (possibly [None]), or it raises. *)
Inductive llm_reply : Type :=
| Choices (contents : list (option string))
| OpenAIError
| OtherError.

(** [self.client] is [None] when no usable key was configured; otherwise it
    answers a prompt sent with a token budget. *)
Record LlmAnalyzer : Type := {
  client : option (string -> Z -> llm_reply)
}.

Definition default_categories : list string :=
  ["technology"; "business"; "sports"; "entertainment"; "health"; "science"; "world"].

Definition sentiment_labels : list string := ["positive"; "negative"; "neutral"].

Definition nonempty (s : string) : bool := negb (String.eqb s EmptyString).

Definition mem_string (s : string) (l : list string) : bool :=
  existsb (String.eqb s) l.

(** The [key=] functions of the four decorators. *)
Definition extract_keywords_key (text : string) (num_keywords : Z) : string :=
  generate_cache_key "extract_keywords" (text ++ Str.of_int num_keywords).

Definition generate_summary_key (text : string) (max_length : Z) : string :=
  generate_cache_key "generate_summary" (text ++ Str.of_int max_length).

Definition analyze_sentiment_key (text : string) : string :=
  generate_cache_key "analyze_sentiment" text.

Definition categorize_article_key (text : string) (categories : list string) : string :=
  generate_cache_key "categorize_article"
    (text ++ Str.join EmptyString (sorted String.ltb id false categories)).

Section Analyzer.
(** [str.lower] and [str.strip] of the interpreter. *)
Variables lower strip : string -> string.
Variable self : LlmAnalyzer.

Abbreviation llm_world := (world (string * Z)).

Definition _make_llm_call (prompt : string) (max_tokens : Z)
    (w : llm_world) : option string * llm_world :=
  match client self with
  | None => (None, w)
  | Some create =>
      let w' := send (prompt, max_tokens) w in
      match create prompt max_tokens with
      | Choices (Some content :: _) => (Some (strip content), w')
      | Choices (None :: _) => (None, w')
      | Choices [] => (None, w')
      | OpenAIError => (None, w')
      | OtherError => (None, w')
      end
  end.

Definition extract_keywords_body (text : string) (num_keywords : Z)
    (w : llm_world) : result value * llm_world :=
  match client self with
  | None => (Ok VNone, w)
  | Some _ =>
      let prompt :=
        "Extract the " ++ Str.of_int num_keywords ++
        " most important keywords from the following news article text. Return them as a comma-separated list:"
        ++ newline ++ newline ++ text in
      let '(result, w') := _make_llm_call prompt 50 w in
      match result with
      | Some r =>
          if nonempty r
          then (Ok (VList (map VStr (List.filter nonempty
                                       (map strip (split "," r))))), w')
          else (Ok (VList []), w')
      | None => (Ok (VList []), w')
      end
  end.

Definition extract_keywords (text : string) (num_keywords : Z) :=
  cached (extract_keywords_key text num_keywords)
         (extract_keywords_body text num_keywords).

Definition generate_summary_body (text : string) (max_length : Z)
    (w : llm_world) : result value * llm_world :=
  match client self with
  | None => (Ok VNone, w)
  | Some _ =>
      let prompt :=
        "Summarize the following news article text in about " ++
        Str.of_int max_length ++ " words:" ++ newline ++ newline ++ text in
      let '(summary, w') := _make_llm_call prompt (max_length + 50) w in
      match summary with
      | Some s => (Ok (VStr s), w')
      | None => (Ok VNone, w')
      end
  end.

Definition generate_summary (text : string) (max_length : Z) :=
  cached (generate_summary_key text max_length)
         (generate_summary_body text max_length).

Definition analyze_sentiment_body (text : string)
    (w : llm_world) : result value * llm_world :=
  match client self with
  | None => (Ok VNone, w)
  | Some _ =>
      let prompt :=
        "Analyze the sentiment of the following news article text. Respond with only one word: positive, negative, or neutral."
        ++ newline ++ newline ++ text in
      let '(sentiment, w') := _make_llm_call prompt 10 w in
      match sentiment with
      | Some s =>
          if nonempty s && mem_string (lower s) sentiment_labels
          then (Ok (VStr (lower s)), w')
          else (Ok VNone, w')
      | None => (Ok VNone, w')
      end
  end.

Definition analyze_sentiment (text : string) :=
  cached (analyze_sentiment_key text) (analyze_sentiment_body text).

Definition categorize_article_body (text : string) (categories : list string)
    (w : llm_world) : result value * llm_world :=
  match client self with
  | None => (Ok VNone, w)
  | Some _ =>
      let category_list := Str.join ", " (sorted String.ltb id false categories) in
      let prompt :=
        "Categorize the following news article text into one of these categories: "
        ++ category_list ++ ". Respond with only the category name."
        ++ newline ++ newline ++ text in
      let '(category, w') := _make_llm_call prompt 15 w in
      match category with
      | Some c =>
          if nonempty c && mem_string (lower c) (map lower categories)
          then (Ok (VStr (lower c)), w')
          else (Ok VNone, w')
      | None => (Ok VNone, w')
      end
  end.

Definition categorize_article (text : string) (categories : list string) :=
  cached (categorize_article_key text categories)
         (categorize_article_body text categories).
End Analyzer.

(** ** [api/models.py] *)

Record UserPreferences : Type := {
  user_id : string;
  preferred_categories : list string;
  excluded_sources : list string;
  preferred_authors : list string;
  sources : list string;
  keywords : list string;
  language : string;
  min_reading_level : Z;
  max_article_length : Z
}.

(** ** [processing/preference_processor.py] *)

(** The values of a query parameter: [str] or [int]. *)
Inductive param : Type :=
| PStr (s : string)
| PInt (z : Z).

Definition param_truthy (v : param) : bool :=
  match v with
  | PStr s => nonempty s
  | PInt z => negb (z =? 0)
  end.

Definition is_nil {A : Type} (l : list A) : bool :=
  match l with [] => true | _ => false end.

Definition transform_for_fetching (preferences : UserPreferences) : dict param :=
  let query_params :=
    [ ("language", PStr (if nonempty (language preferences)
                         then language preferences else "en"));
      ("pageSize", PInt 20);
      ("sortBy", PStr "publishedAt") ] in
  let search_terms : list string := [] in
  let search_terms :=
    if is_nil (preferred_categories preferences) then search_terms
    else (search_terms ++ preferred_categories preferences)%list in
  let search_terms :=
    if is_nil (keywords preferences) then search_terms
    else (search_terms ++ keywords preferences)%list in
  let query_params :=
    if is_nil search_terms then query_params
    else Dict.set query_params "q" (PStr (Str.join " OR " search_terms)) in
  let query_params :=
    if is_nil (sources preferences) then query_params
    else Dict.set query_params "sources" (PStr (Str.join "," (sources preferences))) in
  let query_params :=
    if is_nil (excluded_sources preferences) then query_params
    else Dict.set query_params "excludeDomains"
           (PStr (Str.join "," (excluded_sources preferences))) in
  query_params.

(** ** [fetchers/newsapi_client.py] *)

Module Json.

(** Code points of a UTF-8 byte string (bytes that start no well-formed
    sequence are passed through). *)
Fixpoint code_points (bs : list Z) : list Z :=
  match bs with
  | [] => []
  | b0 :: r0 =>
      if b0 <? 192 then b0 :: code_points r0
      else match r0 with
      | [] => [b0]
      | b1 :: r1 =>
          if b0 <? 224
          then (Z.shiftl (Z.land b0 31) 6 + Z.land b1 63) :: code_points r1
          else match r1 with
          | [] => [b0; b1]
          | b2 :: r2 =>
              if b0 <? 240
              then (Z.shiftl (Z.land b0 15) 12 + Z.shiftl (Z.land b1 63) 6
                    + Z.land b2 63) :: code_points r2
              else match r2 with
              | [] => [b0; b1; b2]
              | b3 :: r3 =>
                  (Z.shiftl (Z.land b0 7) 18 + Z.shiftl (Z.land b1 63) 12
                   + Z.shiftl (Z.land b2 63) 6 + Z.land b3 63) :: code_points r3
              end
          end
      end
  end.

Definition chr (c : Z) : string := String (ascii_of_nat (Z.to_nat c)) EmptyString.

Definition hex4 (x : Z) : string :=
  string_of_list_ascii
    (map (fun i => Sha256.hex_digit (Z.land (Z.shiftr x (4 * Z.of_nat i)) 15))
         (rev (seq 0 4))).

Definition backslash : string := chr 92.
Definition quote : string := chr 34.

(** One code point under [ensure_ascii=True]. *)
Definition escape_point (c : Z) : string :=
  if c =? 34 then backslash ++ quote
  else if c =? 92 then backslash ++ backslash
  else if c =? 10 then backslash ++ "n"
  else if c =? 13 then backslash ++ "r"
  else if c =? 9 then backslash ++ "t"
  else if c =? 8 then backslash ++ "b"
  else if c =? 12 then backslash ++ "f"
  else if (32 <=? c) && (c <=? 126) then chr c
  else if c <? 65536 then backslash ++ "u" ++ hex4 c
  else let v := c - 65536 in
       backslash ++ "u" ++ hex4 (Z.lor 55296 (Z.shiftr v 10)) ++
       backslash ++ "u" ++ hex4 (Z.lor 56320 (Z.land v 1023)).

Definition encode_string (s : string) : string :=
  quote ++ String.concat EmptyString (map escape_point (code_points (Str.bytes_of s)))
  ++ quote.

Definition encode_param (v : param) : string :=
  match v with
  | PStr s => encode_string s
  | PInt z => Str.of_int z
  end.

Definition encode_item (kv : string * param) : string :=
  encode_string kv.1 ++ ": " ++ encode_param kv.2.

(** [json.dumps(d, sort_keys=True)] *)
Definition dumps_sorted (d : dict param) : string :=
  "{" ++ Str.join ", " (map encode_item (sorted String.ltb fst false d)) ++ "}".

End Json.

Definition make_cache_key (query_params : dict param) : string :=
  Json.dumps_sorted query_params.

(** [int(x)] on a parameter value.  An [int] is returned as it is.  On a
    [str] the built-in either yields a number or raises [ValueError]; which
    strings it reads is the business of the built-in, so the reading of
    strings is a parameter, [int_of_str], of everything that converts. *)
Definition py_int (int_of_str : string -> option Z) (v : param) : result Z :=
  match v with
  | PInt z => Ok z
  | PStr s =>
      match int_of_str s with
      | Some z => Ok z
      | None => Raise ValueError
      end
  end.

(** What [requests.get] followed by [response.json()] can do. *)
Inductive http_outcome : Type :=
| ConnectionFailed
| TimedOut
| UnexpectedFailure
| Response (status_code : Z) (json : option value).

(** [response.raise_for_status()] raises [HTTPError] for 4xx and 5xx. *)
Definition raises_for_status (status_code : Z) : bool :=
  (400 <=? status_code) && (status_code <? 600).

(** [len(x)] is defined for strings, lists and dictionaries; on [None] and
    on numbers it raises [TypeError]. *)
Definition has_len (v : value) : bool :=
  match v with
  | VStr _ | VList _ | VDict _ => true
  | VNone | VInt _ | VFloat _ => false
  end.

(** [data.get("status") == "ok"] *)
Definition status_is_ok (status : option value) : bool :=
  match status with
  | Some (VStr s) => String.eqb s "ok"
  | _ => false
  end.

Section NewsApiClient.
(** The built-in [int] on strings. *)
Variable int_of_str : string -> option Z.
(** The external boundary: the answer to the [n]-th request sent. *)
Variable requests_get : nat -> dict param -> http_outcome.

Abbreviation news_world := (world (dict param)).

(** The parameters sent to the boundary, or the exception of [int]. *)
Definition params_to_use (query_params : dict param) : result (dict param) :=
  page_size ← py_int int_of_str (Dict.get_default query_params "pageSize" (PInt 20));
  Ok (List.filter (fun kv : string * param => param_truthy kv.2)
        [ ("q", Dict.get_default query_params "q" (PStr EmptyString));
          ("sources", Dict.get_default query_params "sources" (PStr EmptyString));
          ("excludeDomains",
            Dict.get_default query_params "excludeDomains" (PStr EmptyString));
          ("language", Dict.get_default query_params "language" (PStr "en"));
          ("pageSize", PInt (Z.min page_size 100));
          ("sortBy", Dict.get_default query_params "sortBy" (PStr "publishedAt"));
          ("from", Dict.get_default query_params "from" (PStr EmptyString)) ]).

Definition fetch_articles_body (query_params : dict param)
    (w : news_world) : result value * news_world :=
  match params_to_use query_params with
  | Raise e => (Raise e, w)
  | Ok params =>
      let w' := send params w in
      match requests_get (length (requests w)) params with
      | ConnectionFailed => (Ok VNone, w')
      | TimedOut => (Ok VNone, w')
      | UnexpectedFailure => (Ok VNone, w')
      | Response status_code json =>
          if raises_for_status status_code then (Ok VNone, w')
          else match json with
          | Some (VDict data) =>
              if status_is_ok (Dict.get data "status")
              then
                let articles := Dict.get_default data "articles" (VList []) in
                (* the log line takes [len(articles)] inside the [try] *)
                if has_len articles then (Ok articles, w') else (Ok VNone, w')
              else (Ok VNone, w')
          | _ => (Ok VNone, w')
          end
      end
  end.

Definition fetch_articles (query_params : dict param) :=
  cached (make_cache_key query_params) (fetch_articles_body query_params).
End NewsApiClient.

(** ** [recommendations/engine.py] *)

(** [d.get(k, '').lower()] needs a [str]: on any other value the attribute
    lookup raises. *)
Definition get_text (d : dict value) (k : string) : result string :=
  match Dict.get_default d k (VStr EmptyString) with
  | VStr s => Ok s
  | _ => Raise AttributeError
  end.

(** [article.get('source', {}).get('name', '')] *)
Definition get_source_name (article : dict value) : result string :=
  match Dict.get_default article "source" (VDict []) with
  | VDict source => get_text source "name"
  | _ => Raise AttributeError
  end.

(** [v in strings] for a list of [str]. *)
Definition value_in (v : value) (strings : list string) : bool :=
  match v with
  | VStr s => mem_string s strings
  | _ => false
  end.

Definition option_truthy (o : option value) : bool :=
  match o with
  | Some v => truthy v
  | None => false
  end.

(** The objects of the program: article dictionaries by reference. *)
Abbreviation heap := (gmap nat (dict value)).

Definition deref (h : heap) (ref : nat) : dict value := default [] (h !! ref).

Section Engine.
(** [str.lower] of the interpreter. *)
Variable lower : string -> string.

Definition score_article (article : dict value) (preferences : UserPreferences)
    : result Q :=
  let score := 0%Q in
  article_title ← lower <$> get_text article "title";
  article_description ← lower <$> get_text article "description";
  article_content ← lower <$> get_text article "content";
  let article_text :=
    article_title ++ " " ++ article_description ++ " " ++ article_content in
  let score :=
    if is_nil (keywords preferences) then score
    else fold_left
           (fun score keyword =>
              if Str.contains (lower keyword) article_text
              then (score + 1)%Q else score)
           (keywords preferences) score in
  let article_category := Dict.get article "category" in
  let score :=
    if negb (is_nil (preferred_categories preferences))
       && option_truthy article_category
    then if value_in (default VNone article_category)
                     (preferred_categories preferences)
         then (score + 2)%Q else score
    else score in
  article_source ← lower <$> get_source_name article;
  let score :=
    if is_nil (sources preferences) then score
    else if mem_string article_source (map lower (sources preferences))
         then (score + (1 # 2))%Q else score in
  Ok score.

(** The loop of [rank_articles]: score each article, write the score into
    the article object, collect the reference. *)
Fixpoint score_loop (articles : list nat) (preferences : UserPreferences)
    (scored_articles : list nat) (h : heap) : result (list nat) * heap :=
  match articles with
  | [] => (Ok scored_articles, h)
  | article :: rest =>
      match score_article (deref h article) preferences with
      | Raise e => (Raise e, h)
      | Ok score =>
          let h' := <[article := Dict.set (deref h article) "relevance_score"
                                   (VFloat score)]> h in
          score_loop rest preferences (scored_articles ++ [article]) h'
      end
  end.

(** [x.get('relevance_score', 0)] as a number; the loop stores a float in
    every article before the sort reads it. *)
Definition relevance_key (article : dict value) : Q :=
  match Dict.get_default article "relevance_score" (VInt 0) with
  | VFloat q => q
  | VInt z => inject_Z z
  | _ => 0%Q
  end.

Definition rank_articles (articles : list nat) (preferences : UserPreferences)
    (h : heap) : result (list nat) * heap :=
  if is_nil articles then (Ok [], h)
  else
    match score_loop articles preferences [] h with
    | (Raise e, h') => (Raise e, h')
    | (Ok scored_articles, h') =>
        (Ok (sorted Qltb (fun x => relevance_key (deref h' x)) true
                    scored_articles), h')
    end.

(** [xs[:n]]: a negative bound counts from the end of the list. *)
Definition slice_to {A : Type} (xs : list A) (n : Z) : list A :=
  if n <? 0 then take (Z.to_nat (Z.of_nat (length xs) + n)) xs
  else take (Z.to_nat n) xs.

Definition generate_recommendations (articles : list nat)
    (preferences : UserPreferences) (num_recommendations : Z) (h : heap)
    : result (list nat) * heap :=
  match rank_articles articles preferences h with
  | (Raise e, h') => (Raise e, h')
  | (Ok ranked_articles, h') =>
      (Ok (slice_to ranked_articles num_recommendations), h')
  end.
End Engine.

(** ** Example data and specification-side definitions *)

(** An analyzer whose provider answers with the prompt it was sent. *)
Definition echo_analyzer : LlmAnalyzer :=
  {| client := Some (fun prompt _ => Choices [Some prompt]) |}.

(** An analyzer whose provider always gives the same answer. *)
Definition fixed_reply_analyzer (reply : string) : LlmAnalyzer :=
  {| client := Some (fun _ _ => Choices [Some reply]) |}.

(** The prompt [analyze_sentiment] sends for a text. *)
Definition sentiment_prompt (text : string) : string :=
  "Analyze the sentiment of the following news article text. Respond with only one word: positive, negative, or neutral."
  ++ newline ++ newline ++ text.


(** Order notions for [sorted]: [x] may stand before [y] in ascending order
    when the key of [y] is not smaller; [same_key k x] says that the key of
    [x] compares equal to [k] (neither is smaller). *)
Definition key_le {A K : Type} (lt : K -> K -> bool) (key : A -> K) (x y : A) : Prop :=
  lt (key y) (key x) = false.

Definition key_ge {A K : Type} (lt : K -> K -> bool) (key : A -> K) (x y : A) : Prop :=
  lt (key x) (key y) = false.

Definition same_key {A K : Type} (lt : K -> K -> bool) (key : A -> K) (k : K) (x : A) : bool :=
  negb (lt (key x) k) && negb (lt k (key x)).


(** An article the engine can score: the text fields and the source name
    are absent or strings, the source is absent or a dictionary. *)
Definition text_ok (d : dict value) (k : string) : bool :=
  match Dict.get_default d k (VStr EmptyString) with
  | VStr _ => true
  | _ => false
  end.

Definition article_ok (article : dict value) : bool :=
  text_ok article "title" && text_ok article "description"
  && text_ok article "content"
  && match Dict.get_default article "source" (VDict []) with
     | VDict source => text_ok source "name"
     | _ => false
     end.

(** The score of an article that can be scored. *)
Definition score_of (lower : string -> string) (preferences : UserPreferences)
    (article : dict value) : Q :=
  match score_article lower article preferences with
  | Ok score => score
  | Raise _ => 0%Q
  end.

(** The additive rule in the words of the specification.  A missing text
    field counts as the empty string. *)
Definition text_of (d : dict value) (k : string) : string :=
  match Dict.get_default d k (VStr EmptyString) with
  | VStr s => s
  | _ => EmptyString
  end.

Definition haystack (lower : string -> string) (article : dict value) : string :=
  lower (text_of article "title") ++ " " ++ lower (text_of article "description")
  ++ " " ++ lower (text_of article "content").

Definition source_name (article : dict value) : string :=
  match Dict.get_default article "source" (VDict []) with
  | VDict source => text_of source "name"
  | _ => EmptyString
  end.

(** One point for every preference keyword found in the haystack. *)
Definition keyword_points (lower : string -> string) (article : dict value)
    (preferences : UserPreferences) : Q :=
  inject_Z (Z.of_nat (length (List.filter
    (fun keyword => Str.contains (lower keyword) (haystack lower article))
    (keywords preferences)))).

(** Two points when the category is present and is a preferred one. *)
Definition category_points (article : dict value) (preferences : UserPreferences) : Q :=
  match Dict.get article "category" with
  | Some (VStr c) =>
      if nonempty c && mem_string c (preferred_categories preferences)
      then 2%Q else 0%Q
  | _ => 0%Q
  end.

(** Half a point when the source name matches a preferred source. *)
Definition source_points (lower : string -> string) (article : dict value)
    (preferences : UserPreferences) : Q :=
  if mem_string (lower (source_name article)) (map lower (sources preferences))
  then (1 # 2)%Q else 0%Q.

Definition additive_score (lower : string -> string) (article : dict value)
    (preferences : UserPreferences) : Q :=
  (keyword_points lower article preferences + category_points article preferences
   + source_points lower article preferences)%Q.

(** The example of the specification. *)
Definition example_preferences : UserPreferences :=
  {| user_id := "tech_user"; preferred_categories := ["technology"];
     excluded_sources := []; preferred_authors := [];
     sources := ["tech report"]; keywords := ["ai"; "gpu"]; language := "en";
     min_reading_level := 1; max_article_length := 1000 |}.

(** A reader of news in French, and a record whose language is empty. *)
Definition french_reader : UserPreferences :=
  {| user_id := "lectrice"; preferred_categories := ["science"];
     excluded_sources := []; preferred_authors := [];
     sources := []; keywords := []; language := "fr";
     min_reading_level := 1; max_article_length := 1000 |}.

Definition reader_without_language : UserPreferences :=
  {| user_id := "reader"; preferred_categories := [];
     excluded_sources := []; preferred_authors := [];
     sources := []; keywords := ["chess"]; language := EmptyString;
     min_reading_level := 1; max_article_length := 1000 |}.

(** The example article as the news service delivers it when it has no
    description: the field is present and null. *)
Definition example_article_null_description : dict value :=
  [ ("title", VStr "New AI Chip uses Advanced GPU");
    ("description", VNone);
    ("category", VStr "technology");
    ("source", VDict [("name", VStr "Tech Report")]) ].

(** The example preferences with a keyword the example article lacks. *)
Definition example_preferences_quantum : UserPreferences :=
  {| user_id := "tech_user"; preferred_categories := ["technology"];
     excluded_sources := []; preferred_authors := [];
     sources := ["tech report"]; keywords := ["ai"; "quantum"; "GPU"];
     language := "en"; min_reading_level := 1; max_article_length := 1000 |}.

Definition example_article (source : string) : dict value :=
  [ ("title", VStr "New AI Chip uses Advanced GPU");
    ("category", VStr "technology");
    ("source", VDict [("name", VStr source)]) ].

(** Two articles agree on everything [score_article] reads. *)
Definition same_scored_fields (a a' : dict value) : Prop :=
  ∀ k, In k ["title"; "description"; "content"; "category"; "source"] →
       Dict.get a k = Dict.get a' k.

(** What the loop of [rank_articles] does to the objects: every listed
    article gets its score written into it, no other object changes. *)
Definition scored_in_place (lower : string -> string) (preferences : UserPreferences)
    (articles : list nat) (h h' : heap) : Prop :=
  (∀ x, x ∈ articles →
     deref h' x = Dict.set (deref h x) "relevance_score"
                    (VFloat (score_of lower preferences (deref h x))))
  ∧ (∀ x, x ∉ articles → h' !! x = h !! x).


(** Four articles with scores 4.5, 2.0, 0.0, 0.0 under
    [example_preferences], stored at the references 0 to 3. *)
Definition example_heap : heap :=
  {[ 0%nat := example_article "Tech Report";
     1%nat := [("title", VStr "Python for Web Dev"); ("category", VStr "technology")];
     2%nat := [("title", VStr "Late Goal Wins the Match"); ("category", VStr "sports")];
     3%nat := [("title", VStr "Market Trends Q3"); ("category", VStr "business")] ]}.

Definition renamed_user (preferences : UserPreferences) (uid : string) : UserPreferences :=
  {| user_id := uid;
     preferred_categories := preferred_categories preferences;
     excluded_sources := excluded_sources preferences;
     preferred_authors := ["someone"];
     sources := sources preferences;
     keywords := keywords preferences;
     language := language preferences;
     min_reading_level := 3;
     max_article_length := 500 |}.



Definition one_article_body : value :=
  VDict [ ("status", VStr "ok");
          ("articles", VList [VDict [("title", VStr "Test Article 1")]]) ].

Definition always_ok (n : nat) (params : dict param) : http_outcome :=
  Response 200 (Some one_article_body).

(** A boundary that answers 300 (Multiple Choices) with a well-formed
    success envelope. *)
Definition always_multiple_choices (n : nat) (params : dict param) : http_outcome :=
  Response 300 (Some one_article_body).

(** A boundary whose success envelope carries a number where the articles
    should be. *)
Definition always_number (n : nat) (params : dict param) : http_outcome :=
  Response 200 (Some (VDict [("status", VStr "ok"); ("articles", VInt 5)])).

(** An instance of the reading of strings, for the examples only: it reads
    an optional sign followed by ASCII digits with single underscores between
    digits, surrounded by blanks (space, tab, line feed, vertical tab, form
    feed, carriage return), and nothing else.  The built-in reads more (the
    decimal digits and blanks of other scripts) and refuses very long
    numerals; the examples stay away from both, and every theorem is stated
    for an arbitrary reading [int_of_str]. *)
Definition digit_of (c : ascii) : option Z :=
  let n := Z.of_nat (nat_of_ascii c) in
  if (48 <=? n) && (n <=? 57) then Some (n - 48) else None.

Fixpoint parse_digits (acc : Z) (after_digit : bool) (s : string) : option Z :=
  match s with
  | EmptyString => if after_digit then Some acc else None
  | String c s' =>
      match digit_of c with
      | Some d => parse_digits (10 * acc + d) true s'
      | None =>
          if Ascii.eqb c "_" && after_digit then parse_digits acc false s' else None
      end
  end.

Definition is_blank (c : ascii) : bool :=
  let n := nat_of_ascii c in
  (((9 <=? n) && (n <=? 13)) || (n =? 32))%nat.

Fixpoint skip_blanks (s : string) : string :=
  match s with
  | EmptyString => EmptyString
  | String c s' => if is_blank c then skip_blanks s' else s
  end.

Fixpoint drop_trailing_blanks (s : string) : string :=
  match s with
  | EmptyString => EmptyString
  | String c s' =>
      match drop_trailing_blanks s' with
      | EmptyString => if is_blank c then EmptyString else String c EmptyString
      | r => String c r
      end
  end.

Definition decimal_int (s : string) : option Z :=
  match drop_trailing_blanks (skip_blanks s) with
  | String "-" r => Z.opp <$> parse_digits 0 false r
  | String "+" r => parse_digits 0 false r
  | t => parse_digits 0 false t
  end.

Definition always_timeout (n : nat) (params : dict param) : http_outcome := TimedOut.


(** What one answer of the boundary amounts to for the caller. *)
Definition boundary_result (outcome : http_outcome) : value :=
  match outcome with
  | Response code (Some (VDict data)) =>
      if negb (raises_for_status code) && status_is_ok (Dict.get data "status")
         && has_len (Dict.get_default data "articles" (VList []))
      then Dict.get_default data "articles" (VList [])
      else VNone
  | _ => VNone
  end.


(** ** The four enrichment operations, taken together *)

Inductive operation : Type :=
| ExtractKeywords (text : string) (num_keywords : Z)
| GenerateSummary (text : string) (max_length : Z)
| AnalyzeSentiment (text : string)
| CategorizeArticle (text : string) (categories : list string).

Definition operation_key (op : operation) : string :=
  match op with
  | ExtractKeywords text n => extract_keywords_key text n
  | GenerateSummary text n => generate_summary_key text n
  | AnalyzeSentiment text => analyze_sentiment_key text
  | CategorizeArticle text cats => categorize_article_key text cats
  end.

(** The token budget each operation passes to [_make_llm_call]. *)
Definition operation_budget (op : operation) : Z :=
  match op with
  | ExtractKeywords _ _ => 50
  | GenerateSummary _ n => n + 50
  | AnalyzeSentiment _ => 10
  | CategorizeArticle _ _ => 15
  end.

(** The prompt each operation builds. *)
Definition operation_prompt (op : operation) : string :=
  match op with
  | ExtractKeywords text n =>
      "Extract the " ++ Str.of_int n ++
      " most important keywords from the following news article text. Return them as a comma-separated list:"
      ++ newline ++ newline ++ text
  | GenerateSummary text n =>
      "Summarize the following news article text in about " ++
      Str.of_int n ++ " words:" ++ newline ++ newline ++ text
  | AnalyzeSentiment text => sentiment_prompt text
  | CategorizeArticle text cats =>
      "Categorize the following news article text into one of these categories: "
      ++ Str.join ", " (sorted String.ltb id false cats)
      ++ ". Respond with only the category name."
      ++ newline ++ newline ++ text
  end.

Definition operation_body (lower strip : string -> string) (self : LlmAnalyzer)
    (op : operation) : world (string * Z) -> result value * world (string * Z) :=
  match op with
  | ExtractKeywords text n => extract_keywords_body strip self text n
  | GenerateSummary text n => generate_summary_body strip self text n
  | AnalyzeSentiment text => analyze_sentiment_body lower strip self text
  | CategorizeArticle text cats => categorize_article_body lower strip self text cats
  end.

Definition run_operation (lower strip : string -> string) (self : LlmAnalyzer)
    (op : operation) : world (string * Z) -> result value * world (string * Z) :=
  match op with
  | ExtractKeywords text n => extract_keywords strip self text n
  | GenerateSummary text n => generate_summary strip self text n
  | AnalyzeSentiment text => analyze_sentiment lower strip self text
  | CategorizeArticle text cats => categorize_article lower strip self text cats
  end.

(** The world after an operation body ran: one request more when there is a
    client, the same world otherwise. *)
Definition after_body (self : LlmAnalyzer) (op : operation)
    (w : world (string * Z)) : world (string * Z) :=
  match client self with
  | None => w
  | Some _ => send (operation_prompt op, operation_budget op) w
  end.

(** An analyzer whose provider always fails. *)
Definition failing_analyzer : LlmAnalyzer :=
  {| client := Some (fun _ _ => OpenAIError) |}.

Definition no_client_analyzer : LlmAnalyzer := {| client := None |}.


(** ** Specification-side view of the query builder and the fetch *)

(** The three entries every query has, and an entry that exists only for a
    non-empty list. *)
Definition base_entries (preferences : UserPreferences) : dict param :=
  [ ("language", PStr (if nonempty (language preferences)
                       then language preferences else "en"));
    ("pageSize", PInt 20);
    ("sortBy", PStr "publishedAt") ].

Definition optional_entry (k sep : string) (items : list string) : dict param :=
  if is_nil items then [] else [(k, PStr (Str.join sep items))].

Definition optional_entries (preferences : UserPreferences) : dict param :=
  (optional_entry "q" " OR "
     (preferred_categories preferences ++ keywords preferences)
   ++ optional_entry "sources" "," (sources preferences)
   ++ optional_entry "excludeDomains" "," (excluded_sources preferences))%list.

Definition entry_truthy (kv : string * param) : bool := param_truthy kv.2.

(** The parameter names the fetch ever sends. *)
Definition request_keys : list string :=
  ["q"; "sources"; "excludeDomains"; "language"; "pageSize"; "sortBy"; "from"].

(** The request failed at the transport level: an exception of
    [requests.get] or a 4xx or 5xx status. *)
Definition transport_failure (outcome : http_outcome) : Prop :=
  outcome = ConnectionFailed ∨ outcome = TimedOut ∨ outcome = UnexpectedFailure
  ∨ ∃ code json, outcome = Response code json ∧ 400 ≤ code < 600.


(** The seven entries [fetch_articles] prepares before dropping the empty
    ones, for a page size already read as [n]. *)
Definition request_entries (query_params : dict param) (n : Z) : dict param :=
  [ ("q", Dict.get_default query_params "q" (PStr EmptyString));
    ("sources", Dict.get_default query_params "sources" (PStr EmptyString));
    ("excludeDomains",
      Dict.get_default query_params "excludeDomains" (PStr EmptyString));
    ("language", Dict.get_default query_params "language" (PStr "en"));
    ("pageSize", PInt (Z.min n 100));
    ("sortBy", Dict.get_default query_params "sortBy" (PStr "publishedAt"));
    ("from", Dict.get_default query_params "from" (PStr EmptyString)) ].


(** ** [responses/formatter.py] and the response model of [api/models.py] *)

Module ArticleRecommendation.
Record t : Type := {
  title : string;
  url : string;
  source : string;
  summary : option string;
  keywords : option (list string);
  sentiment : option string;
  category : option string;
  relevance_score : option Q
}.
End ArticleRecommendation.

(** What the model class accepts for a field of each declared type:
    [str], [Optional[str]], [Optional[List[str]]] and [Optional[float]].
    The answer [None] is a validation error. *)
Record validators : Type := {
  valid_str : value -> option string;
  valid_opt_str : value -> option (option string);
  valid_opt_strs : value -> option (option (list string));
  valid_opt_float : value -> option (option Q)
}.

(** The part of the validation that does not depend on the version of the
    validation library: a string is accepted as it is where a string is
    declared, [None] is accepted where the field is optional and refused
    where it is not, and a list of strings and a float are accepted for the
    optional fields of these types. *)
Record validators_ok (V : validators) : Prop := {
  valid_str_str : ∀ s, valid_str V (VStr s) = Some s;
  valid_str_none : valid_str V VNone = None;
  valid_opt_str_none : valid_opt_str V VNone = Some None;
  valid_opt_str_str : ∀ s, valid_opt_str V (VStr s) = Some (Some s);
  valid_opt_strs_none : valid_opt_strs V VNone = Some None;
  valid_opt_strs_list : ∀ l, valid_opt_strs V (VList (map VStr l)) = Some (Some l);
  valid_opt_float_none : valid_opt_float V VNone = Some None;
  valid_opt_float_float : ∀ q, valid_opt_float V (VFloat q) = Some (Some q)
}.

(** The validation that accepts exactly the declared types. *)
Definition strings_of (l : list value) : option (list string) :=
  foldr (fun v acc =>
           match v, acc with
           | VStr s, Some ss => Some (s :: ss)
           | _, _ => None
           end) (Some []) l.

Definition strict_validators : validators :=
  {| valid_str := fun v => match v with VStr s => Some s | _ => None end;
     valid_opt_str := fun v =>
       match v with VNone => Some None | VStr s => Some (Some s) | _ => None end;
     valid_opt_strs := fun v =>
       match v with
       | VNone => Some None
       | VList l => Some <$> strings_of l
       | _ => None
       end;
     valid_opt_float := fun v =>
       match v with VNone => Some None | VFloat q => Some (Some q) | _ => None end |}.

(** [d.get(k)] as a value: [None] for a missing key. *)
Definition get_or_none (d : dict value) (k : string) : value :=
  default VNone (Dict.get d k).

Section Formatter.
Variable V : validators.

(** The call [ArticleRecommendation(title=..., url=..., ...)]: every field
    passed is validated, a field not passed keeps its default [None], and
    any refusal raises the validation error (a [ValueError]). *)
Definition new_recommendation (title url source : value)
    (summary keywords sentiment category relevance_score : option value)
    : result ArticleRecommendation.t :=
  let optional {A : Type} (check : value -> option (option A)) (arg : option value) :=
    match arg with
    | Some v => check v
    | None => Some None
    end in
  match valid_str V title, valid_str V url, valid_str V source,
        optional (valid_opt_str V) summary, optional (valid_opt_strs V) keywords,
        optional (valid_opt_str V) sentiment, optional (valid_opt_str V) category,
        optional (valid_opt_float V) relevance_score with
  | Some t, Some u, Some s, Some su, Some k, Some se, Some c, Some r =>
      Ok {| ArticleRecommendation.title := t;
            ArticleRecommendation.url := u;
            ArticleRecommendation.source := s;
            ArticleRecommendation.summary := su;
            ArticleRecommendation.keywords := k;
            ArticleRecommendation.sentiment := se;
            ArticleRecommendation.category := c;
            ArticleRecommendation.relevance_score := r |}
  | _, _, _, _, _, _, _, _ => Raise ValueError
  end.

(** The body of the [try] block. *)
Definition format_attempt (article_data : dict value) : result ArticleRecommendation.t :=
  source_name ←
    match Dict.get_default article_data "source" (VDict []) with
    | VDict source => Ok (Dict.get_default source "name" (VStr "N/A"))
    | _ => Raise AttributeError
    end;
  new_recommendation
    (Dict.get_default article_data "title" (VStr "N/A"))
    (Dict.get_default article_data "url" (VStr EmptyString))
    source_name
    (Some (get_or_none article_data "summary"))
    (Some (get_or_none article_data "keywords"))
    (Some (get_or_none article_data "sentiment"))
    (Some (get_or_none article_data "category"))
    (Some (get_or_none article_data "relevance_score")).

(** The placeholder built in the [except] block. *)
Definition format_placeholder (article_data : dict value) : result ArticleRecommendation.t :=
  new_recommendation
    (VStr "Error Formatting Article")
    (Dict.get_default article_data "url" (VStr EmptyString))
    (VStr "N/A")
    (Some (VStr "Could not format article details."))
    None None None None.

Definition format_single_article (article_data : dict value)
    : result ArticleRecommendation.t :=
  match format_attempt article_data with
  | Ok formatted => Ok formatted
  | Raise _ => format_placeholder article_data
  end.

(** The loop of [format_recommendation_list]; the records stand for the
    dictionaries [formatted_article.dict()] appends. *)
Fixpoint format_recommendation_list (articles : list (dict value))
    : result (list ArticleRecommendation.t) :=
  match articles with
  | [] => Ok []
  | article_data :: rest =>
      formatted_article ← format_single_article article_data;
      formatted_list ← format_recommendation_list rest;
      Ok (formatted_article :: formatted_list)
  end.
End Formatter.

(** The placeholder record for a given url. *)
Definition placeholder_record (u : string) : ArticleRecommendation.t :=
  {| ArticleRecommendation.title := "Error Formatting Article";
     ArticleRecommendation.url := u;
     ArticleRecommendation.source := "N/A";
     ArticleRecommendation.summary := Some "Could not format article details.";
     ArticleRecommendation.keywords := None;
     ArticleRecommendation.sentiment := None;
     ArticleRecommendation.category := None;
     ArticleRecommendation.relevance_score := None |}.

(** The value a url field is validated from. *)
Definition url_value (article_data : dict value) : value :=
  Dict.get_default article_data "url" (VStr EmptyString).


(** An article every field of which has the declared type or is missing (or
    [None] where the field is optional), and what its record is. *)
Definition opt_text_ok (d : dict value) (k : string) : bool :=
  match Dict.get d k with
  | None | Some VNone | Some (VStr _) => true
  | _ => false
  end.

Definition opt_text (d : dict value) (k : string) : option string :=
  match Dict.get d k with
  | Some (VStr s) => Some s
  | _ => None
  end.

Definition keywords_ok (d : dict value) : bool :=
  match Dict.get d "keywords" with
  | None | Some VNone => true
  | Some (VList l) => match strings_of l with Some _ => true | None => false end
  | _ => false
  end.

Definition keywords_of (d : dict value) : option (list string) :=
  match Dict.get d "keywords" with
  | Some (VList l) => strings_of l
  | _ => None
  end.

Definition score_field_ok (d : dict value) : bool :=
  match Dict.get d "relevance_score" with
  | None | Some VNone | Some (VFloat _) => true
  | _ => false
  end.

Definition score_field (d : dict value) : option Q :=
  match Dict.get d "relevance_score" with
  | Some (VFloat q) => Some q
  | _ => None
  end.

Definition source_ok (d : dict value) : bool :=
  match Dict.get_default d "source" (VDict []) with
  | VDict source => text_ok source "name"
  | _ => false
  end.

Definition formattable (d : dict value) : bool :=
  text_ok d "title" && text_ok d "url" && source_ok d
  && opt_text_ok d "summary" && keywords_ok d && opt_text_ok d "sentiment"
  && opt_text_ok d "category" && score_field_ok d.

Definition text_or (d : dict value) (k dflt : string) : string :=
  match Dict.get d k with
  | Some (VStr s) => s
  | _ => dflt
  end.

Definition expected_record (d : dict value) : ArticleRecommendation.t :=
  {| ArticleRecommendation.title := text_or d "title" "N/A";
     ArticleRecommendation.url := text_or d "url" EmptyString;
     ArticleRecommendation.source :=
       match Dict.get_default d "source" (VDict []) with
       | VDict source => text_or source "name" "N/A"
       | _ => "N/A"
       end;
     ArticleRecommendation.summary := opt_text d "summary";
     ArticleRecommendation.keywords := keywords_of d;
     ArticleRecommendation.sentiment := opt_text d "sentiment";
     ArticleRecommendation.category := opt_text d "category";
     ArticleRecommendation.relevance_score := score_field d |}.


(** A ranked and enriched article as the formatter receives it. *)
Definition example_processed_article : dict value :=
  [ ("title", VStr "Test Article Title");
    ("url", VStr "http://example.com/test");
    ("source", VDict [("id", VStr "test-src"); ("name", VStr "Test Source Name")]);
    ("summary", VStr "This is the LLM summary.");
    ("keywords", VList [VStr "test"; VStr "llm"; VStr "format"]);
    ("sentiment", VStr "neutral");
    ("category", VStr "technology");
    ("relevance_score", VFloat (7 # 2));
    ("description", VStr "Original description") ].


(** ** Construction of the analyzer ([LlmAnalyzer.__init__]) *)

(** [openai k] is the client the constructor [OpenAI(api_key=k)] returns, or
    [None] when the constructor raises. *)
Definition new_analyzer (openai : string -> option (string -> Z -> llm_reply))
    (api_key : option string) : LlmAnalyzer :=
  match api_key with
  | None => {| client := None |}
  | Some k =>
      if negb (nonempty k) || String.eqb k "YOUR_OPENAI_API_KEY"
      then {| client := None |}
      else {| client := openai k |}
  end.

(** ** [api/main.py]: the recommendation endpoint *)

(** What the endpoint answers: an [HTTPException], the recommendations, or
    the answer of the generic handler, which is the same for every exception
    that reaches it. *)
Inductive api_response : Type :=
| HTTPException (status_code : Z) (detail : string)
| UnexpectedError
| RecommendationResponse (user_id : string)
    (recommendations : list ArticleRecommendation.t).

Record Settings : Type := {
  NEWSAPI_KEY : option string;
  OPENAI_API_KEY : option string
}.

(** The process-wide state: the preference store and the two caches with
    the requests sent to the two boundaries. *)
Record app_state : Type := {
  user_preferences_db : gmap string UserPreferences;
  news : world (dict param);
  llm : world (string * Z)
}.

Definition receive_preferences (preferences : UserPreferences) (st : app_state)
    : string * app_state :=
  ("Preferences received for user " ++ user_id preferences,
   {| user_preferences_db :=
        <[user_id preferences := preferences]> (user_preferences_db st);
      news := news st;
      llm := llm st |}).

(** [for x in v]: the items of a list, the characters of a string, the keys
    of a dictionary; anything else is not iterable.  (Only the fact that the
    items of a string are strings matters below.) *)
Definition iterate (v : value) : result (list value) :=
  match v with
  | VList l => Ok l
  | VStr s =>
      Ok (map (fun c => VStr (String c EmptyString)) (list_ascii_of_string s))
  | VDict d => Ok (map VStr (Dict.keys d))
  | _ => Raise TypeError
  end.

(** [v[:30]] is defined for strings and lists. *)
Definition sliceable (v : value) : bool :=
  match v with
  | VStr _ | VList _ => true
  | _ => false
  end.

(** [a.get('content') or a.get('description') or a.get('title') or ""] *)
Definition text_content (article : dict value) : value :=
  let content := get_or_none article "content" in
  let description := get_or_none article "description" in
  let title := get_or_none article "title" in
  if truthy content then content
  else if truthy description then description
  else if truthy title then title
  else VStr EmptyString.

(** The leading dictionaries of a list of items. *)
Fixpoint dict_prefix (items : list value) : list (dict value) :=
  match items with
  | VDict d :: rest => d :: dict_prefix rest
  | _ => []
  end.

Section Api.
Variables lower strip : string -> string.
Variable int_of_str : string -> option Z.
Variable requests_get : nat -> dict param -> http_outcome.
Variable openai : string -> option (string -> Z -> llm_reply).
Variable V : validators.
Variable settings : Settings.

(** The body of the analysis loop for one article with text: a copy of the
    article with the four results added.  A text that is not a string makes
    the first key function raise; a title that cannot be sliced makes the
    debug message raise after the four calls. *)
Definition analyze_article (analyzer : LlmAnalyzer) (article : dict value)
    (w : world (string * Z)) : result (dict value) * world (string * Z) :=
  if truthy (text_content article) then
    match text_content article with
    | VStr text =>
        let analyzed_article := article in
        match generate_summary strip analyzer text 100 w with
        | (Raise e, w1) => (Raise e, w1)
        | (Ok summary, w1) =>
        let analyzed_article := Dict.set analyzed_article "summary" summary in
        match extract_keywords strip analyzer text 5 w1 with
        | (Raise e, w2) => (Raise e, w2)
        | (Ok kws, w2) =>
        let analyzed_article := Dict.set analyzed_article "keywords" kws in
        match analyze_sentiment lower strip analyzer text w2 with
        | (Raise e, w3) => (Raise e, w3)
        | (Ok sentiment, w3) =>
        let analyzed_article := Dict.set analyzed_article "sentiment" sentiment in
        match categorize_article lower strip analyzer text default_categories w3 with
        | (Raise e, w4) => (Raise e, w4)
        | (Ok category, w4) =>
        let analyzed_article := Dict.set analyzed_article "category" category in
        if sliceable (Dict.get_default analyzed_article "title" (VStr "N/A"))
        then (Ok analyzed_article, w4)
        else (Raise TypeError, w4)
        end end end end
    | _ => (Raise TypeError, w)
    end
  else (Ok article, w).

Fixpoint analyze_loop (analyzer : LlmAnalyzer) (items : list value)
    (analyzed_articles : list (dict value)) (w : world (string * Z))
    : result (list (dict value)) * world (string * Z) :=
  match items with
  | [] => (Ok analyzed_articles, w)
  | VDict article :: rest =>
      match analyze_article analyzer article w with
      | (Ok analyzed, w') =>
          analyze_loop analyzer rest (analyzed_articles ++ [analyzed]) w'
      | (Raise e, w') => (Raise e, w')
      end
  | _ :: _ => (Raise AttributeError, w)
  end.

(** [generate_recommendations] on the items handed over, which become
    objects of a fresh heap, followed by the reading of the ranked objects.
    An item that is not a dictionary raises when its turn comes in the scoring
    loop. *)
Definition recommend_items (items : list value) (preferences : UserPreferences)
    (num_recommendations : Z) : result (list (dict value)) :=
  let articles := dict_prefix items in
  let h : heap := map_seq 0 articles in
  let refs := seq 0 (length articles) in
  if (length articles =? length items)%nat then
    match generate_recommendations lower refs preferences num_recommendations h with
    | (Ok top, h') => Ok (map (deref h') top)
    | (Raise e, _) => Raise e
    end
  else
    match rank_articles lower refs preferences h with
    | (Raise e, _) => Raise e
    | (Ok _, _) => Raise AttributeError
    end.

(** Ranking and formatting, the last two steps of the endpoint. *)
Definition rank_and_format (user_id : string) (items : list value)
    (preferences : UserPreferences) : api_response :=
  match recommend_items items preferences 20 with
  | Raise _ => UnexpectedError
  | Ok ranked_articles =>
      match format_recommendation_list V ranked_articles with
      | Raise _ => UnexpectedError
      | Ok formatted => RecommendationResponse user_id formatted
      end
  end.

Definition get_recommendations (user_id : string) (st : app_state)
    : api_response * app_state :=
  match user_preferences_db st !! user_id with
  | None =>
      (HTTPException 404 ("Preferences not found for user " ++ user_id), st)
  | Some user_prefs =>
      let query_params := transform_for_fetching user_prefs in
      if match NEWSAPI_KEY settings with
         | Some k => nonempty k
         | None => false
         end
      then
        match fetch_articles int_of_str requests_get query_params (news st) with
        | (Raise ValueError, nw) =>
            (HTTPException 500 "NewsAPI client configuration error.",
             {| user_preferences_db := user_preferences_db st;
                news := nw; llm := llm st |})
        | (Raise _, nw) =>
            (HTTPException 500 "Error processing preferences or fetching news",
             {| user_preferences_db := user_preferences_db st;
                news := nw; llm := llm st |})
        | (Ok fetched_articles_raw, nw) =>
            let st1 := {| user_preferences_db := user_preferences_db st;
                          news := nw; llm := llm st |} in
            match fetched_articles_raw with
            | VNone => (RecommendationResponse user_id [], st1)
            | _ =>
                let analyzer := new_analyzer openai (OPENAI_API_KEY settings) in
                match client analyzer with
                | None =>
                    if truthy fetched_articles_raw then
                      match iterate fetched_articles_raw with
                      | Raise _ => (UnexpectedError, st1)
                      | Ok items => (rank_and_format user_id items user_prefs, st1)
                      end
                    else (rank_and_format user_id [] user_prefs, st1)
                | Some _ =>
                    match iterate fetched_articles_raw with
                    | Raise _ => (UnexpectedError, st1)
                    | Ok items =>
                        match analyze_loop analyzer items [] (llm st) with
                        | (Raise _, lw) =>
                            (UnexpectedError,
                             {| user_preferences_db := user_preferences_db st;
                                news := nw; llm := lw |})
                        | (Ok analyzed_articles, lw) =>
                            (rank_and_format user_id (map VDict analyzed_articles)
                               user_prefs,
                             {| user_preferences_db := user_preferences_db st;
                                news := nw; llm := lw |})
                        end
                    end
                end
            end
        end
      else (HTTPException 500 "NewsAPI client configuration error.", st)
  end.
End Api.


(** The key configured for the analyzer is unusable: missing, empty, the
    placeholder of the sample configuration, or refused by the constructor of
    the provider's client. *)
Definition unusable_key (openai : string -> option (string -> Z -> llm_reply))
    (api_key : option string) : Prop :=
  api_key = None ∨ api_key = Some EmptyString
  ∨ api_key = Some "YOUR_OPENAI_API_KEY"
  ∨ ∃ k, api_key = Some k ∧ openai k = None.

(** The state with another state of the enrichment cache and provider. *)
Definition with_llm (st : app_state) (lw : world (string * Z)) : app_state :=
  {| user_preferences_db := user_preferences_db st; news := news st; llm := lw |}.

Definition example_settings : Settings :=
  {| NEWSAPI_KEY := Some "news-key"; OPENAI_API_KEY := None |}.

Definition example_state : app_state :=
  {| user_preferences_db := {[ "tech_user" := example_preferences ]};
     news := empty_world; llm := empty_world |}.

(** A boundary that answers with an article whose description is null. *)
Definition null_description_body : value :=
  VDict [ ("status", VStr "ok");
          ("articles",
            VList [VDict [ ("title", VStr "New AI Chip");
                           ("description", VNone);
                           ("url", VStr "http://example.com/chip");
                           ("source", VDict [("name", VStr "Tech Report")]) ]]) ].

Definition always_null_description (n : nat) (params : dict param) : http_outcome :=
  Response 200 (Some null_description_body).

Definition no_openai (k : string) : option (string -> Z -> llm_reply) := None.

(** * Properties *)

(** ** The digest agrees with [hashlib] on test vectors *)

Example sha256_abc :
  Sha256.hexdigest "abc"
  = "ba7816bf8f01cfea414140de5dae2223b00361a396177a9cb410ff61f20015ad".
Proof. vm_compute. reflexivity. Qed.

Example sha256_empty :
  Sha256.hexdigest EmptyString
  = "e3b0c44298fc1c149afbf4c8996fb92427ae41e4649b934ca495991b7852b855".
Proof. vm_compute. reflexivity. Qed.

Example sha256_two_blocks :
  Sha256.hexdigest
    "aaaaaaaaaaaaaaaaaaaaaaaaaaaaaaaaaaaaaaaaaaaaaaaaaaaaaaaaaaaaaaaaaaaaaa"
  = "6bd5e5034855a11241f0dee8fc72850ffd9955b28347a86428b5fa19119f6ad0".
Proof. vm_compute. reflexivity. Qed.

Example str_of_int_examples :
  Str.of_int 0 = "0" /\ Str.of_int 12 = "12" /\ Str.of_int (-5) = "-5".
Proof. vm_compute. auto. Qed.

(** ** Dictionaries *)

Section DictFacts.
Context {V : Type}.
Implicit Types (d : dict V) (k : string) (v : V).

Lemma dict_get_set_eq d k v : Dict.get (Dict.set d k v) k = Some v.
Proof.
  induction d as [|[k' v'] d IH]; simpl.
  - by rewrite String.eqb_refl.
  - destruct (String.eqb k' k) eqn:E; simpl.
    + by rewrite String.eqb_refl.
    + by rewrite E.
Qed.

Lemma dict_get_set_ne d k k' v :
  k ≠ k' → Dict.get (Dict.set d k v) k' = Dict.get d k'.
Proof.
  intros Hne. induction d as [|[k0 v0] d IH]; simpl.
  - by apply String.eqb_neq in Hne as ->.
  - destruct (String.eqb k0 k) eqn:E; simpl; [|by rewrite IH].
    apply String.eqb_eq in E as ->.
    by apply String.eqb_neq in Hne as ->.
Qed.

Lemma dict_set_set d k v v' : Dict.set (Dict.set d k v) k v' = Dict.set d k v'.
Proof.
  induction d as [|[k0 v0] d IH]; simpl.
  - by rewrite String.eqb_refl.
  - destruct (String.eqb k0 k) eqn:E; simpl.
    + by rewrite String.eqb_refl.
    + by rewrite E, IH.
Qed.

Lemma dict_get_default_set_ne d k k' v dflt :
  k ≠ k' → Dict.get_default (Dict.set d k v) k' dflt = Dict.get_default d k' dflt.
Proof. intros. unfold Dict.get_default. by rewrite dict_get_set_ne. Qed.
End DictFacts.

(** ** Memoisation *)

Lemma cached_miss {R : Type} key body (w : world R) :
  cache w !! key = None →
  cached key body w =
    match body w with
    | (Ok v, w') => (Ok v, store key v w')
    | (Raise e, w') => (Raise e, w')
    end.
Proof. intros H. unfold cached. by rewrite H. Qed.

(** A call whose key equals the key of an earlier successful call returns the
    earlier result and leaves the world, in particular the list of requests
    sent, unchanged. *)
Lemma cached_again {R : Type} key body key' body' (w w1 : world R) v :
  key' = key →
  cached key body w = (Ok v, w1) →
  cached key' body' w1 = (Ok v, w1).
Proof.
  intros -> H. unfold cached in *.
  destruct (cache w !! key) as [v0|] eqn:Hw.
  - injection H as <- <-. by rewrite Hw.
  - destruct (body w) as [[v1|e] w'] eqn:Hb; [|discriminate].
    injection H as <- <-. simpl. by rewrite lookup_insert_eq.
Qed.

(** ** Cache keys of the enrichment operations *)

(** The operation name is a prefix of the key, so no two of the four
    operations share a key. *)
Lemma keys_of_distinct_operations text1 n1 text2 n2 text3 text4 cats :
  let k1 := extract_keywords_key text1 n1 in
  let k2 := generate_summary_key text2 n2 in
  let k3 := analyze_sentiment_key text3 in
  let k4 := categorize_article_key text4 cats in
  k1 ≠ k2 ∧ k1 ≠ k3 ∧ k1 ≠ k4 ∧ k2 ≠ k3 ∧ k2 ≠ k4 ∧ k3 ≠ k4.
Proof.
  unfold extract_keywords_key, generate_summary_key, analyze_sentiment_key,
    categorize_article_key, generate_cache_key.
  simpl. repeat split; discriminate.
Qed.

Lemma extract_keywords_body_returns strip self text n w :
  ∃ v w', extract_keywords_body strip self text n w = (Ok v, w').
Proof.
  unfold extract_keywords_body.
  destruct (client self); [|by eauto].
  destruct (_make_llm_call _ _ _ _ _) as [[r|] w']; [|by eauto].
  destruct (nonempty r); eauto.
Qed.

(** For one and the same text, different parameter values are hashed as
    different strings. *)
Lemma of_int_inj a b : Str.of_int a = Str.of_int b → a = b.
Proof.
  unfold Str.of_int. intros H. apply DecimalZ.to_int_inj.
  assert (Hn : ∀ z, Z.to_int z ≠ Decimal.Pos Decimal.Nil
                    ∧ Z.to_int z ≠ Decimal.Neg Decimal.Nil).
  { intros [|p|p]; simpl; split; try discriminate;
      intros [= Hp]; by apply DecimalPos.Unsigned.to_uint_nonnil in Hp. }
  apply (f_equal NilZero.int_of_string) in H.
  rewrite !NilZero.isi in H by apply Hn. by injection H.
Qed.

Lemma append_cancel_l (s a b : string) : s ++ a = s ++ b → a = b.
Proof. induction s; simpl; [done|]. intros [= H]. auto. Qed.

Lemma hashed_text_injective_in_parameter text k k' :
  text ++ Str.of_int k = text ++ Str.of_int k' → k = k'.
Proof. intros H. by apply of_int_inj, (append_cancel_l text). Qed.

(** C1 (evaluation of the code at the failing input).  The key of
    [extract_keywords] is computed from the text and the decimal form of
    [num_keywords] written one after the other with nothing in between, so the
    calls with ("a1", 2) and with ("a", 12) have the same key; after the
    first call the second one returns the first call's result without asking
    the provider, although a fresh call would have returned something else. *)
Theorem extract_keywords_key_collision :
  extract_keywords_key "a1" 2 = extract_keywords_key "a" 12
  ∧ (∀ strip self w, ∃ v w1,
        extract_keywords strip self "a1" 2 w = (Ok v, w1)
        ∧ extract_keywords strip self "a" 12 w1 = (Ok v, w1))
  ∧ (let first := extract_keywords Str.ascii_strip echo_analyzer "a1" 2 empty_world in
     let stale := extract_keywords Str.ascii_strip echo_analyzer "a" 12 first.2 in
     let fresh := extract_keywords Str.ascii_strip echo_analyzer "a" 12 empty_world in
     stale.1 = first.1 ∧ stale.1 ≠ fresh.1 ∧ requests stale.2 = requests first.2).
Proof.
  assert (Hkey : extract_keywords_key "a1" 2 = extract_keywords_key "a" 12)
    by reflexivity.
  split; [exact Hkey|]. split.
  - intros strip self w. unfold extract_keywords.
    destruct (cached (extract_keywords_key "a1" 2)
                (extract_keywords_body strip self "a1" 2) w) as [[v|e] w1] eqn:H.
    + exists v, w1. split; [done|]. by eapply cached_again.
    + exfalso. unfold cached in H.
      destruct (cache w !! _); [discriminate|].
      destruct (extract_keywords_body_returns strip self "a1" 2 w) as (v & w' & Hb).
      by rewrite Hb in H.
  - vm_compute. repeat split; discriminate.
Qed.

(** The key of [categorize_article] joins the sorted categories with the empty
    separator, so different category sets can give the same key. *)
Lemma categorize_article_key_collision :
  categorize_article_key "t" ["ab"; "c"] = categorize_article_key "t" ["a"; "bc"].
Proof. reflexivity. Qed.

(** ** Query building *)

(** C2 (evaluation of the code at the failing input).  For a preference
    record in which only the user id is set, [transform_for_fetching] returns
    three keys, [language], [pageSize] and [sortBy]: the fixed page size and
    sort order are always part of the result, so the result is not the
    one-key mapping with [language] alone. *)
Theorem transform_for_fetching_only_user_id :
  ∀ uid authors level len,
    let preferences :=
      {| user_id := uid; preferred_categories := []; excluded_sources := [];
         preferred_authors := authors; sources := []; keywords := [];
         language := "en"; min_reading_level := level;
         max_article_length := len |} in
    transform_for_fetching preferences
    = [("language", PStr "en"); ("pageSize", PInt 20); ("sortBy", PStr "publishedAt")]
    ∧ Dict.get (transform_for_fetching preferences) "pageSize" = Some (PInt 20)
    ∧ Dict.get (transform_for_fetching preferences) "sortBy" = Some (PStr "publishedAt")
    ∧ Dict.get (transform_for_fetching preferences) "q" = None
    ∧ Dict.get (transform_for_fetching preferences) "sources" = None
    ∧ Dict.get (transform_for_fetching preferences) "excludeDomains" = None
    ∧ transform_for_fetching preferences ≠ [("language", PStr "en")].
Proof. intros. repeat split; discriminate. Qed.

(** ** Sentiment *)

Lemma mem_string_In s l : mem_string s l = true ↔ In s l.
Proof.
  unfold mem_string. rewrite existsb_exists. split.
  - intros (x & Hx & E). apply String.eqb_eq in E. by subst.
  - intros H. exists s. split; [done|apply String.eqb_refl].
Qed.

Lemma nonempty_true s : nonempty s = true ↔ s ≠ EmptyString.
Proof.
  unfold nonempty. rewrite negb_true_iff. apply String.eqb_neq.
Qed.

(** C8.  On a cache miss [analyze_sentiment] consults the provider once and
    validates what [_make_llm_call] hands back (the response): it returns a
    label exactly when the response is non-empty and its lower-case form is
    one of positive, negative, neutral, and that label is the lower-case
    form; in every other case, also when no response was obtained, it returns
    [None].  It never raises and never returns anything else. *)
Theorem analyze_sentiment_validates_response :
  ∀ lower strip self text (w : world (string * Z)),
    cache w !! analyze_sentiment_key text = None →
    let response := (_make_llm_call strip self (sentiment_prompt text) 10 w).1 in
    let outcome := (analyze_sentiment lower strip self text w).1 in
    (∀ label, outcome = Ok (VStr label) ↔
       ∃ r, response = Some r ∧ r ≠ EmptyString ∧ lower r = label
            ∧ In label sentiment_labels)
    ∧ (outcome = Ok VNone ↔
         ¬ ∃ r, response = Some r ∧ r ≠ EmptyString ∧ In (lower r) sentiment_labels)
    ∧ (outcome = Ok VNone ∨ ∃ label, In label sentiment_labels ∧ outcome = Ok (VStr label)).
Proof.
  intros lower strip self text w Hmiss response outcome.
  assert (Hout : outcome =
    match response with
    | Some r => if nonempty r && mem_string (lower r) sentiment_labels
                then Ok (VStr (lower r)) else Ok VNone
    | None => Ok VNone
    end).
  { subst outcome response. unfold analyze_sentiment.
    rewrite cached_miss by done.
    unfold analyze_sentiment_body, _make_llm_call, sentiment_prompt.
    destruct (client self) as [create|]; [|done].
    destruct (create _ _) as [[|[c|] cs]| |]; simpl; try done.
    by destruct (nonempty _ && _). }
  rewrite Hout. clear Hout outcome.
  destruct response as [r|].
  - destruct (nonempty r && mem_string (lower r) sentiment_labels) eqn:E.
    + apply andb_true_iff in E as [Hne Hmem].
      apply nonempty_true in Hne. apply mem_string_In in Hmem.
      split; [|split].
      * intros label. split.
        -- intros [= <-]. by exists r.
        -- by intros (r' & [= <-] & _ & <- & _).
      * split; [discriminate|].
        intros Hno. exfalso. apply Hno. by exists r.
      * right. by exists (lower r).
    + apply andb_false_iff in E.
      assert (Hno : ¬ ∃ r', Some r = Some r' ∧ r' ≠ EmptyString
                            ∧ In (lower r') sentiment_labels).
      { intros (r' & [= <-] & Hne & Hmem).
        apply nonempty_true in Hne. apply mem_string_In in Hmem.
        destruct E; congruence. }
      split; [|split].
      * intros label. split; [discriminate|].
        intros (r' & Hr & Hne & <- & Hmem). exfalso. apply Hno. by exists r'.
      * by split.
      * by left.
  - split; [|split].
    + intros label. split; [discriminate|]. by intros (r' & [=] & _).
    + split; [|done]. by intros _ (r' & [=] & _).
    + by left.
Qed.

Lemma analyze_sentiment_mostly_okay :
  cache (empty_world (R := string * Z)) !! analyze_sentiment_key "news" = None
  ∧ (analyze_sentiment Str.ascii_lower Str.ascii_strip
       (fixed_reply_analyzer "mostly okay") "news" empty_world).1 = Ok VNone.
Proof.
  split; [apply lookup_empty|].
  destruct (analyze_sentiment_validates_response Str.ascii_lower Str.ascii_strip
              (fixed_reply_analyzer "mostly okay") "news" empty_world
              (lookup_empty _)) as (_ & [_ H] & _).
  apply H. intros (r & Hr & _ & Hin).
  vm_compute in Hr. injection Hr as <-.
  vm_compute in Hin. intuition discriminate.
Defined.

Example analyze_sentiment_examples :
  (analyze_sentiment Str.ascii_lower Str.ascii_strip
     (fixed_reply_analyzer " Positive ") "news" empty_world).1 = Ok (VStr "positive")
  ∧ (analyze_sentiment Str.ascii_lower Str.ascii_strip
       (fixed_reply_analyzer "mostly okay") "news" empty_world).1 = Ok VNone
  ∧ (analyze_sentiment Str.ascii_lower Str.ascii_strip
       {| client := None |} "news" empty_world).1 = Ok VNone.
Proof. vm_compute. auto. Qed.

(** ** The stable sort *)

Section SortedFacts.
Context {A K : Type} (lt : K -> K -> bool) (key : A -> K).
Hypothesis lt_asym : ∀ a b, lt a b = true → lt b a = false.
Hypothesis lt_negtrans : ∀ a b c, lt a c = true → lt a b = true ∨ lt b c = true.

Lemma insert_sorted_perm x l : insert_sorted lt key x l ≡ₚ x :: l.
Proof.
  induction l as [|y l IH]; simpl; [done|].
  destruct (lt (key y) (key x)); [|done].
  rewrite IH. apply Permutation_swap.
Qed.

Lemma sort_stable_perm l : sort_stable lt key l ≡ₚ l.
Proof.
  induction l as [|x l IH]; simpl; [done|].
  by rewrite insert_sorted_perm, IH.
Qed.

Lemma sorted_perm reverse l : sorted lt key reverse l ≡ₚ l.
Proof.
  unfold sorted. destruct reverse; [|apply sort_stable_perm].
  by rewrite <- Permutation_rev, sort_stable_perm, <- Permutation_rev.
Qed.

Lemma key_le_trans x y z :
  key_le lt key x y → key_le lt key y z → key_le lt key x z.
Proof.
  unfold key_le. intros Hxy Hyz.
  destruct (lt (key z) (key x)) eqn:E; [|done].
  destruct (lt_negtrans _ (key y) _ E); congruence.
Qed.

Lemma insert_sorted_sorted x l :
  StronglySorted (key_le lt key) l →
  StronglySorted (key_le lt key) (insert_sorted lt key x l).
Proof.
  induction 1 as [|y l Hl IH Hy]; simpl.
  - repeat constructor.
  - destruct (lt (key y) (key x)) eqn:E.
    + constructor; [done|].
      rewrite insert_sorted_perm. constructor; [|done].
      by apply lt_asym.
    + constructor; [by constructor|].
      constructor; [done|].
      eapply Forall_impl; [exact Hy|].
      intros z Hz. by eapply key_le_trans.
Qed.

Lemma sort_stable_sorted l : StronglySorted (key_le lt key) (sort_stable lt key l).
Proof.
  induction l as [|x l IH]; simpl; [constructor|].
  by apply insert_sorted_sorted.
Qed.

Lemma StronglySorted_rev_flip (R : A -> A -> Prop) l :
  StronglySorted R l → StronglySorted (flip R) (rev l).
Proof.
  induction 1 as [|x l Hl IH Hx]; simpl; [constructor|].
  apply StronglySorted_app_2; [|done|repeat constructor].
  intros y z Hy Hz. apply list_elem_of_singleton in Hz as ->.
  apply list_elem_of_In, in_rev, list_elem_of_In in Hy.
  rewrite Forall_forall in Hx. by apply Hx.
Qed.

(** With [reverse=True] the result is in descending order of the keys. *)
Lemma sorted_reverse_descending l :
  StronglySorted (key_ge lt key) (sorted lt key true l).
Proof.
  unfold sorted.
  apply (StronglySorted_rev_flip (key_le lt key)), sort_stable_sorted.
Qed.

Lemma sorted_ascending l :
  StronglySorted (key_le lt key) (sorted lt key false l).
Proof. apply sort_stable_sorted. Qed.

(** Stability: among the elements whose key compares equal to [k], the
    order is the one of the input. *)
Lemma insert_sorted_stable k x l :
  List.filter (same_key lt key k) (insert_sorted lt key x l)
  = List.filter (same_key lt key k) (x :: l).
Proof.
  induction l as [|y l IH]; [done|].
  cbn [insert_sorted].
  destruct (lt (key y) (key x)) eqn:E; [|done].
  cbn [List.filter] in *. rewrite IH.
  destruct (same_key lt key k x) eqn:Hx; [|done].
  destruct (same_key lt key k y) eqn:Hy; [|done].
  exfalso. unfold same_key in *.
  apply andb_true_iff in Hx as [Hx1 Hx2], Hy as [Hy1 Hy2].
  apply negb_true_iff in Hx1, Hx2, Hy1, Hy2.
  destruct (lt_negtrans _ k _ E); congruence.
Qed.

Lemma sort_stable_stable k l :
  List.filter (same_key lt key k) (sort_stable lt key l)
  = List.filter (same_key lt key k) l.
Proof.
  induction l as [|x l IH]; [done|].
  cbn [sort_stable foldr]. fold (sort_stable lt key l).
  rewrite insert_sorted_stable. cbn [List.filter]. by rewrite IH.
Qed.

Lemma sorted_stable reverse k l :
  List.filter (same_key lt key k) (sorted lt key reverse l)
  = List.filter (same_key lt key k) l.
Proof.
  unfold sorted. destruct reverse; [|apply sort_stable_stable].
  by rewrite List.filter_rev, sort_stable_stable, List.filter_rev, rev_involutive.
Qed.
End SortedFacts.

Lemma Qltb_lt a b : Qltb a b = true ↔ (a < b)%Q.
Proof.
  unfold Qltb. rewrite negb_true_iff, <- not_true_iff_false, Qle_bool_iff.
  split; [apply Qnot_le_lt|apply Qlt_not_le].
Qed.

Lemma Qltb_ge a b : Qltb a b = false ↔ (b <= a)%Q.
Proof.
  unfold Qltb. by rewrite negb_false_iff, Qle_bool_iff.
Qed.

Lemma Qltb_asym a b : Qltb a b = true → Qltb b a = false.
Proof. rewrite Qltb_lt, Qltb_ge. apply Qlt_le_weak. Qed.

Lemma Qltb_negtrans a b c : Qltb a c = true → Qltb a b = true ∨ Qltb b c = true.
Proof.
  rewrite !Qltb_lt. intros Hac.
  destruct (Qlt_le_dec a b) as [|Hba]; [by left|right].
  by eapply Qle_lt_trans.
Qed.

(** Goals quantified over the members of an explicit list are checked
    member by member. *)
Ltac each_listed H :=
  repeat (apply elem_of_cons in H as [->|H]; [reflexivity|]);
  by apply not_elem_of_nil in H.

(** ** Scoring *)

Lemma get_text_ok d k : text_ok d k = true → get_text d k = Ok (text_of d k).
Proof.
  unfold text_ok, get_text, text_of.
  by destruct (Dict.get_default d k (VStr EmptyString)).
Qed.

Lemma get_source_name_ok article :
  article_ok article = true → get_source_name article = Ok (source_name article).
Proof.
  unfold article_ok, get_source_name, source_name.
  intros H. apply andb_true_iff in H as [_ H].
  destruct (Dict.get_default article "source" (VDict [])); try done.
  by apply get_text_ok.
Qed.

(** The keyword loop counts the keywords found. *)
Lemma keyword_loop_counts (found : string -> bool) (kws : list string) (score : Q) :
  (fold_left (fun score keyword => if found keyword then score + 1 else score)
     kws score
   == score + inject_Z (Z.of_nat (length (List.filter found kws))))%Q.
Proof.
  revert score. induction kws as [|kw kws IH]; intros score; simpl.
  - ring.
  - rewrite IH. destruct (found kw); [|reflexivity].
    cbn [length]. rewrite Nat2Z.inj_succ, <- Z.add_1_r, inject_Z_plus.
    ring.
Qed.

Lemma score_article_additive lower article preferences :
  article_ok article = true →
  ∃ score, score_article lower article preferences = Ok score
           ∧ (score == additive_score lower article preferences)%Q.
Proof.
  intros Hok. pose proof (get_source_name_ok _ Hok) as Hsrc.
  unfold article_ok in Hok.
  apply andb_true_iff in Hok as [Hok _].
  apply andb_true_iff in Hok as [Hok Hc].
  apply andb_true_iff in Hok as [Ht Hd].
  unfold score_article.
  rewrite (get_text_ok _ _ Ht), (get_text_ok _ _ Hd), (get_text_ok _ _ Hc), Hsrc.
  cbn [fmap result_fmap mbind result_bind].
  eexists. split; [reflexivity|].
  unfold additive_score, keyword_points, category_points, source_points.
  fold (haystack lower article).
  set (found := fun keyword => Str.contains (lower keyword) (haystack lower article)).
  assert (Hkw :
    ((if is_nil (keywords preferences) then 0
      else fold_left (fun score keyword => if found keyword then score + 1 else score)
             (keywords preferences) 0)
     == inject_Z (Z.of_nat (length (List.filter found (keywords preferences)))))%Q).
  { destruct (keywords preferences) as [|kw kws] eqn:E; [reflexivity|].
    cbn [is_nil]. rewrite keyword_loop_counts. ring. }
  set (kw_score := if is_nil (keywords preferences) then _ else _) in *.
  set (cat_score := if negb _ && _ then _ else _).
  assert (Hcat :
    (cat_score == kw_score +
       match Dict.get article "category" with
       | Some (VStr c) =>
           if nonempty c && mem_string c (preferred_categories preferences)
           then 2 else 0
       | _ => 0
       end)%Q).
  { subst cat_score.
    destruct (Dict.get article "category") as [[| c | | | |]|];
      cbn [option_truthy truthy default value_in from_option id];
      rewrite ?andb_false_r; try ring.
    - fold (nonempty c).
      destruct (preferred_categories preferences) as [|pc pcs]; cbn [is_nil negb andb].
      + rewrite andb_false_r. ring.
      + destruct (nonempty c); cbn [andb]; [|ring].
        destruct (mem_string c (pc :: pcs)); ring.
    - destruct (negb _ && _); ring.
    - destruct (negb _ && _); ring.
    - destruct (negb _ && _); ring.
    - destruct (negb _ && _); ring. }
  destruct (sources preferences) as [|s ss] eqn:Es; cbn [is_nil].
  - cbn [map mem_string existsb]. rewrite Hcat, Hkw. ring.
  - destruct (mem_string _ _); rewrite Hcat, Hkw; ring.
Qed.

Lemma score_article_raises lower article preferences :
  article_ok article = false →
  score_article lower article preferences = Raise AttributeError.
Proof.
  unfold article_ok, text_ok, score_article, get_source_name, get_text.
  intros H.
  destruct (Dict.get_default article "title" _); try done;
  destruct (Dict.get_default article "description" _); try done;
  destruct (Dict.get_default article "content" _); try done;
  destruct (Dict.get_default article "source" _) as [| | | | |source]; try done.
  cbn in H |- *.
  by destruct (Dict.get_default source "name" _).
Qed.

(** The score depends on the article only through the five keys it reads,
    and on the preferences only through keywords, preferred categories and
    sources. *)
Lemma score_article_same_fields lower a a' p p' :
  same_scored_fields a a' →
  keywords p = keywords p' →
  preferred_categories p = preferred_categories p' →
  sources p = sources p' →
  score_article lower a p = score_article lower a' p'.
Proof.
  intros H Hk Hc Hs.
  assert (Ht : Dict.get a "title" = Dict.get a' "title") by (apply H; simpl; auto).
  assert (Hd : Dict.get a "description" = Dict.get a' "description")
    by (apply H; simpl; auto).
  assert (Hn : Dict.get a "content" = Dict.get a' "content") by (apply H; simpl; auto).
  assert (Hg : Dict.get a "category" = Dict.get a' "category") by (apply H; simpl; auto).
  assert (Ho : Dict.get a "source" = Dict.get a' "source")
    by (apply H; simpl; auto 10).
  unfold score_article, get_source_name, get_text, Dict.get_default.
  by rewrite Ht, Hd, Hn, Hg, Ho, Hk, Hc, Hs.
Qed.

Lemma same_scored_fields_set a v :
  same_scored_fields (Dict.set a "relevance_score" v) a.
Proof.
  intros k Hk. apply dict_get_set_ne.
  simpl in Hk. intuition (subst; discriminate).
Qed.

Lemma score_article_set_relevance lower a v p :
  score_article lower (Dict.set a "relevance_score" v) p = score_article lower a p.
Proof. apply score_article_same_fields; [apply same_scored_fields_set|done..]. Qed.

Lemma article_ok_set_relevance a v :
  article_ok (Dict.set a "relevance_score" v) = article_ok a.
Proof.
  unfold article_ok, text_ok.
  by rewrite !dict_get_default_set_ne.
Qed.

Lemma relevance_key_set a q :
  relevance_key (Dict.set a "relevance_score" (VFloat q)) = q.
Proof.
  unfold relevance_key, Dict.get_default. by rewrite dict_get_set_eq.
Qed.

(** ** Ranking *)

Lemma deref_insert_eq (h : heap) x d : deref (<[x := d]> h) x = d.
Proof. unfold deref. by rewrite lookup_insert_eq. Qed.

Lemma deref_insert_ne (h : heap) x y d : x ≠ y → deref (<[x := d]> h) y = deref h y.
Proof. intros. unfold deref. by rewrite lookup_insert_ne. Qed.

Lemma score_of_ok lower p a :
  article_ok a = true → score_article lower a p = Ok (score_of lower p a).
Proof.
  intros H. unfold score_of.
  by destruct (score_article_additive lower a p H) as (q & -> & _).
Qed.

Lemma score_loop_ok lower p articles acc (h : heap) :
  (∀ x, x ∈ articles → article_ok (deref h x) = true) →
  ∃ h', score_loop lower articles p acc h = (Ok (acc ++ articles)%list, h')
        ∧ scored_in_place lower p articles h h'.
Proof.
  revert acc h. induction articles as [|x rest IH]; intros acc h Hok.
  - exists h. simpl. rewrite app_nil_r. split; [done|]. split; [|done].
    intros x Hx. by apply not_elem_of_nil in Hx.
  - cbn [score_loop].
    rewrite (score_of_ok lower p _ (Hok x ltac:(left))).
    set (q := score_of lower p (deref h x)).
    set (h1 := <[x := Dict.set (deref h x) "relevance_score" (VFloat q)]> h).
    assert (Hsame : ∀ y, score_of lower p (deref h1 y) = score_of lower p (deref h y)).
    { intros y. destruct (decide (x = y)) as [<-|Hne].
      - subst h1. rewrite deref_insert_eq. unfold score_of.
        by rewrite score_article_set_relevance.
      - subst h1. by rewrite deref_insert_ne. }
    destruct (IH (acc ++ [x])%list h1) as (h' & Hloop & Hin & Hout).
    { intros y Hy. destruct (decide (x = y)) as [<-|Hne].
      - subst h1. rewrite deref_insert_eq, article_ok_set_relevance.
        apply Hok. by left.
      - subst h1. rewrite deref_insert_ne by done. apply Hok. by right. }
    exists h'. split; [by rewrite Hloop, <- app_assoc|]. split.
    + intros y Hy. destruct (decide (y ∈ rest)) as [Hr|Hr].
      * rewrite (Hin y Hr), Hsame.
        destruct (decide (x = y)) as [<-|Hne].
        -- subst h1. by rewrite deref_insert_eq, dict_set_set.
        -- subst h1. by rewrite deref_insert_ne.
      * apply elem_of_cons in Hy as [->|Hy]; [|done].
        unfold deref at 1. rewrite (Hout x Hr).
        fold (deref h1 x). subst h1. by rewrite deref_insert_eq.
    + intros y Hy. apply not_elem_of_cons in Hy as [Hne Hr].
      rewrite (Hout y Hr). subst h1. by rewrite lookup_insert_ne.
Qed.

Lemma insert_sorted_ext {A K : Type} (lt : K -> K -> bool) (key key' : A -> K) x l :
  key x = key' x → (∀ y, y ∈ l → key y = key' y) →
  insert_sorted lt key x l = insert_sorted lt key' x l.
Proof.
  intros Hx. induction l as [|y l IH]; intros Hl; [done|].
  simpl. rewrite <- Hx, <- (Hl y) by left.
  destruct (lt (key y) (key x)); [|done].
  f_equal. apply IH. intros z Hz. apply Hl. by right.
Qed.

Lemma sort_stable_ext {A K : Type} (lt : K -> K -> bool) (key key' : A -> K) l :
  (∀ y, y ∈ l → key y = key' y) →
  sort_stable lt key l = sort_stable lt key' l.
Proof.
  induction l as [|x l IH]; intros Hl; [done|].
  cbn [sort_stable foldr]. fold (sort_stable lt key l) (sort_stable lt key' l).
  rewrite <- IH by (intros y Hy; apply Hl; by right).
  apply insert_sorted_ext; [apply Hl; by left|].
  intros y Hy. apply Hl. right.
  by rewrite <- (sort_stable_perm lt key l).
Qed.

Lemma sorted_ext {A K : Type} (lt : K -> K -> bool) (key key' : A -> K) reverse l :
  (∀ y, y ∈ l → key y = key' y) →
  sorted lt key reverse l = sorted lt key' reverse l.
Proof.
  intros Hl. unfold sorted. destruct reverse; [|by apply sort_stable_ext].
  f_equal. apply sort_stable_ext.
  intros y Hy. apply Hl. by rewrite (Permutation_rev l).
Qed.

(** What [rank_articles] returns and does when every article can be
    scored: the references sorted by the scores of the articles as they were
    on entry, and each article updated in place with its score. *)
Lemma rank_articles_ok lower p articles (h : heap) :
  (∀ x, x ∈ articles → article_ok (deref h x) = true) →
  ∃ h', rank_articles lower articles p h
        = (Ok (sorted Qltb (fun x => score_of lower p (deref h x)) true articles), h')
        ∧ scored_in_place lower p articles h h'.
Proof.
  intros Hok. unfold rank_articles.
  destruct articles as [|x rest] eqn:E.
  - exists h. split; [done|]. split; [|done].
    intros x Hx. by apply not_elem_of_nil in Hx.
  - rewrite <- E in *. replace (is_nil articles) with false by by rewrite E.
    destruct (score_loop_ok lower p articles [] h Hok) as (h' & -> & Hin & Hout).
    exists h'. split; [|done]. rewrite app_nil_l. do 2 f_equal.
    apply sorted_ext. intros y Hy.
    by rewrite (Hin y Hy), relevance_key_set.
Qed.

Lemma StronglySorted_weaken {A : Type} (R R' : A -> A -> Prop) l :
  (∀ x y, R x y → R' x y) → StronglySorted R l → StronglySorted R' l.
Proof.
  intros HR. induction 1 as [|x l Hl IH Hx]; constructor; [done|].
  eapply Forall_impl; [exact Hx|]. intros y. apply HR.
Qed.

Lemma same_key_Qeq {A : Type} (key : A -> Q) k x :
  same_key Qltb key k x = Qeq_bool (key x) k.
Proof.
  unfold same_key. apply eq_true_iff_eq.
  rewrite andb_true_iff, !negb_true_iff, !Qltb_ge, Qeq_bool_iff. split.
  - intros [H1 H2]. by apply Qle_antisym.
  - intros H. rewrite H. split; apply Qle_refl.
Qed.

(** C5 (the code departs from the rule).  The additive rule reads a field
    that is not there as the empty string and gives every article a score.
    [score_article] does so for a field whose key is missing, but not for a
    field that is present and null, which is how the news service delivers an
    article without description: there it raises [AttributeError], for every
    preference record, where the rule gives the example article its 4.5. *)
Theorem score_article_raises_on_null_description :
  (∀ lower preferences,
     score_article lower example_article_null_description preferences
     = Raise AttributeError)
  ∧ (additive_score Str.ascii_lower example_article_null_description
       example_preferences == 9 # 2)%Q.
Proof.
  split; [|vm_compute; reflexivity].
  intros lower preferences. by apply score_article_raises.
Qed.

(** Where the code meets the rule: for every article that can be scored
    (text fields and source name absent or strings) and every preference
    record, [score_article] returns the additive rule over the lower-cased
    title, description and content joined by spaces: one point per preference
    keyword found as a substring, two points when the category is present and
    preferred, half a point when the lower-cased source name is one of the
    lower-cased preferred sources.  The example article of the specification
    scores 4.5, and 4.0 with a source that does not match; a keyword that
    does not occur adds nothing. *)
Theorem score_article_is_additive_rule :
  (∀ lower article preferences,
     article_ok article = true →
     ∃ score, score_article lower article preferences = Ok score
              ∧ (score == additive_score lower article preferences)%Q)
  ∧ score_article Str.ascii_lower (example_article "Tech Report") example_preferences
    = Ok (9 # 2)%Q
  ∧ score_article Str.ascii_lower (example_article "Other Source") example_preferences
    = Ok (4 # 1)%Q
  ∧ score_article Str.ascii_lower (example_article "Tech Report")
      example_preferences_quantum
    = Ok (9 # 2)%Q.
Proof.
  split; [apply score_article_additive|].
  repeat split; vm_compute; reflexivity.
Qed.

Lemma score_article_is_additive_rule_witness :
  article_ok (example_article "Tech Report") = true
  ∧ ∃ score,
      score_article Str.ascii_lower (example_article "Tech Report") example_preferences
      = Ok score
      ∧ (score == additive_score Str.ascii_lower (example_article "Tech Report")
                    example_preferences)%Q.
Proof.
  split; [reflexivity|].
  apply (proj1 score_article_is_additive_rule Str.ascii_lower
           (example_article "Tech Report") example_preferences).
  reflexivity.
Defined.

(** C6.  When every article can be scored, [rank_articles] returns the
    articles in descending order of their scores; articles with equal scores
    are in the order of the input (for every score, the articles having it
    form the same sequence in the output as in the input); the empty list
    gives the empty list. *)
Theorem rank_articles_sorted_stable :
  ∀ lower preferences articles (h : heap),
    (∀ x, x ∈ articles → article_ok (deref h x) = true) →
    let score x := score_of lower preferences (deref h x) in
    ∃ ranked h',
      rank_articles lower articles preferences h = (Ok ranked, h')
      ∧ (∀ x, x ∈ ranked →
           score_article lower (deref h x) preferences = Ok (score x))
      ∧ StronglySorted (fun x y => (score y <= score x)%Q) ranked
      ∧ (∀ k, List.filter (fun x => Qeq_bool (score x) k) ranked
              = List.filter (fun x => Qeq_bool (score x) k) articles)
      ∧ (articles = [] → ranked = []).
Proof.
  intros lower preferences articles h Hok score.
  destruct (rank_articles_ok lower preferences articles h Hok) as (h' & Hrank & _).
  eexists _, h'. split; [exact Hrank|]. fold score. repeat split.
  - intros x Hx. apply score_of_ok, Hok.
    by rewrite <- (sorted_perm Qltb score true articles).
  - eapply StronglySorted_weaken;
      [|apply (sorted_reverse_descending Qltb score Qltb_asym Qltb_negtrans)].
    intros x y. unfold key_ge. by rewrite Qltb_ge.
  - intros k.
    rewrite <- !(List.filter_ext _ _ (same_key_Qeq score k)).
    apply (sorted_stable Qltb score Qltb_negtrans).
  - by intros ->.
Qed.

Lemma rank_articles_sorted_stable_witness :
  (∀ x, x ∈ [0; 1; 2; 3]%nat → article_ok (deref example_heap x) = true)
  ∧ ∃ ranked h',
      rank_articles Str.ascii_lower [0; 1; 2; 3]%nat example_preferences example_heap
      = (Ok ranked, h').
Proof.
  assert (Hok : ∀ x, x ∈ [0; 1; 2; 3]%nat → article_ok (deref example_heap x) = true)
    by (intros x Hx; each_listed Hx).
  split; [exact Hok|].
  destruct (rank_articles_sorted_stable Str.ascii_lower example_preferences
              [0; 1; 2; 3]%nat example_heap Hok) as (ranked & h' & H & _).
  by exists ranked, h'.
Defined.

(** The ranking example of the specification: scores 4.5, 2.0, 0.0, 0.0 in
    input order are returned in that order, and the top two are the first
    two. *)
Example rank_articles_example :
  (rank_articles Str.ascii_lower [0; 1; 2; 3]%nat example_preferences example_heap).1
  = Ok [0; 1; 2; 3]%nat
  ∧ (generate_recommendations Str.ascii_lower [0; 1; 2; 3]%nat example_preferences 2
       example_heap).1 = Ok [0; 1]%nat
  ∧ (rank_articles Str.ascii_lower [3; 2; 1; 0]%nat example_preferences example_heap).1
    = Ok [0; 1; 3; 2]%nat.
Proof. vm_compute. auto. Qed.

(** C10.  When every article can be scored, the output of [rank_articles]
    is a permutation of the input of the same length, every article of the
    output carries its score under [relevance_score], and the score was
    written into the article objects of the input themselves: each listed
    object is the object on entry with [relevance_score] set, and no other
    object changed. *)
Theorem rank_articles_permutation_in_place :
  ∀ lower preferences articles (h : heap),
    (∀ x, x ∈ articles → article_ok (deref h x) = true) →
    ∃ ranked h',
      rank_articles lower articles preferences h = (Ok ranked, h')
      ∧ ranked ≡ₚ articles
      ∧ length ranked = length articles
      ∧ (∀ x, x ∈ ranked →
           ∃ q, score_article lower (deref h x) preferences = Ok q
                ∧ Dict.get (deref h' x) "relevance_score" = Some (VFloat q)
                ∧ score_article lower (deref h' x) preferences = Ok q)
      ∧ scored_in_place lower preferences articles h h'.
Proof.
  intros lower preferences articles h Hok.
  destruct (rank_articles_ok lower preferences articles h Hok)
    as (h' & Hrank & Hin & Hout).
  eexists _, h'. split; [exact Hrank|].
  assert (Hperm := sorted_perm Qltb
            (fun x => score_of lower preferences (deref h x)) true articles).
  split; [done|]. split; [by rewrite Hperm|]. split; [|done].
  intros x Hx. rewrite Hperm in Hx.
  exists (score_of lower preferences (deref h x)).
  rewrite (Hin x Hx), dict_get_set_eq, score_article_set_relevance.
  by rewrite (score_of_ok lower preferences _ (Hok x Hx)).
Qed.

Lemma rank_articles_permutation_in_place_witness :
  (∀ x, x ∈ [3; 0]%nat → article_ok (deref example_heap x) = true)
  ∧ ∃ ranked h',
      rank_articles Str.ascii_lower [3; 0]%nat example_preferences example_heap
      = (Ok ranked, h')
      ∧ ranked ≡ₚ [3; 0]%nat.
Proof.
  assert (Hok : ∀ x, x ∈ [3; 0]%nat → article_ok (deref example_heap x) = true)
    by (intros x Hx; each_listed Hx).
  split; [exact Hok|].
  destruct (rank_articles_permutation_in_place Str.ascii_lower example_preferences
              [3; 0]%nat example_heap Hok) as (ranked & h' & H & Hp & _).
  by exists ranked, h'.
Defined.

(** ** Top-N selection *)

(** C4 (as stated, refuted).  A negative count does not fail: with the count
    -1 the call returns the ranking without its last element. *)
Lemma generate_recommendations_negative_count_returns :
  (generate_recommendations Str.ascii_lower [0; 1; 2; 3]%nat example_preferences (-1)
     example_heap).1 = Ok [0; 1; 2]%nat
  ∧ ¬ (∀ n, n < 0 →
         ∃ e, (generate_recommendations Str.ascii_lower [0; 1; 2; 3]%nat
                 example_preferences n example_heap).1 = Raise e).
Proof.
  assert (H : (generate_recommendations Str.ascii_lower [0; 1; 2; 3]%nat
                 example_preferences (-1) example_heap).1 = Ok [0; 1; 2]%nat)
    by (vm_compute; reflexivity).
  split; [exact H|].
  intros Hall. destruct (Hall (-1) ltac:(lia)) as [e He].
  rewrite H in He. discriminate.
Qed.

(** C4 (amended).  When every article can be scored,
    [generate_recommendations] returns the first [n] elements of the ranking
    for [n ≥ 0] (all of them when there are fewer, none for [n = 0]); for a
    negative [n] it does not fail but returns the ranking without its last
    [-n] elements.  The heap is the one [rank_articles] leaves. *)
Theorem generate_recommendations_slices_ranking :
  ∀ lower preferences articles n (h : heap),
    (∀ x, x ∈ articles → article_ok (deref h x) = true) →
    ∃ ranked h',
      rank_articles lower articles preferences h = (Ok ranked, h')
      ∧ length ranked = length articles
      ∧ (0 ≤ n →
           generate_recommendations lower articles preferences n h
           = (Ok (take (Z.to_nat n) ranked), h')
           ∧ length (take (Z.to_nat n) ranked)
             = Nat.min (Z.to_nat n) (length articles))
      ∧ (n = 0 → generate_recommendations lower articles preferences n h = (Ok [], h'))
      ∧ (n < 0 →
           generate_recommendations lower articles preferences n h
           = (Ok (take (length ranked - Z.to_nat (- n)) ranked), h')).
Proof.
  intros lower preferences articles n h Hok.
  destruct (rank_articles_ok lower preferences articles h Hok) as (h' & Hrank & _).
  assert (Hlen : length (sorted Qltb (fun x => score_of lower preferences (deref h x))
                           true articles) = length articles)
    by (by rewrite sorted_perm).
  eexists _, h'. split; [exact Hrank|]. split; [exact Hlen|].
  unfold generate_recommendations, slice_to. rewrite Hrank.
  repeat split.
  - destruct (Z.ltb_spec n 0); [lia|done].
  - by rewrite length_take, Hlen.
  - by intros ->.
  - intros Hneg. destruct (Z.ltb_spec n 0); [|lia].
    do 3 f_equal. lia.
Qed.

Lemma generate_recommendations_slices_ranking_witness :
  (∀ x, x ∈ [0; 1; 2; 3]%nat → article_ok (deref example_heap x) = true)
  ∧ ∃ ranked h',
      rank_articles Str.ascii_lower [0; 1; 2; 3]%nat example_preferences example_heap
      = (Ok ranked, h')
      ∧ generate_recommendations Str.ascii_lower [0; 1; 2; 3]%nat example_preferences 2
          example_heap = (Ok (take 2 ranked), h').
Proof.
  assert (Hok : ∀ x, x ∈ [0; 1; 2; 3]%nat → article_ok (deref example_heap x) = true)
    by (intros x Hx; each_listed Hx).
  split; [exact Hok|].
  destruct (generate_recommendations_slices_ranking Str.ascii_lower example_preferences
              [0; 1; 2; 3]%nat 2 example_heap Hok)
    as (ranked & h' & H & _ & Hpos & _).
  exists ranked, h'. split; [exact H|].
  apply Hpos. lia.
Defined.

(** ** Purity *)

Lemma same_scored_fields_trans a b c :
  same_scored_fields a b → same_scored_fields b c → same_scored_fields a c.
Proof. intros H1 H2 k Hk. by rewrite (H1 k Hk), (H2 k Hk). Qed.

Lemma score_loop_same_fields lower p articles acc (h : heap) y :
  same_scored_fields (deref (score_loop lower articles p acc h).2 y) (deref h y).
Proof.
  revert acc h. induction articles as [|x rest IH]; intros acc h; [done|].
  cbn [score_loop].
  destruct (score_article lower (deref h x) p) as [q|e]; [|done].
  eapply same_scored_fields_trans; [apply IH|].
  destruct (decide (x = y)) as [<-|Hne].
  - rewrite deref_insert_eq. apply same_scored_fields_set.
  - by rewrite deref_insert_ne.
Qed.

Lemma rank_articles_same_fields lower p articles (h : heap) y :
  same_scored_fields (deref (rank_articles lower articles p h).2 y) (deref h y).
Proof.
  unfold rank_articles. destruct (is_nil articles); [done|].
  pose proof (score_loop_same_fields lower p articles [] h y) as H.
  by destruct (score_loop lower articles p [] h) as [[l|e] h'].
Qed.

(** C9.  [transform_for_fetching] is a function of the language, the
    preferred categories, the keywords, the sources and the excluded sources
    of the record and of nothing else; [score_article] is a function of the
    five article keys it reads and of the keywords, preferred categories and
    sources of the record and of nothing else.  In particular no earlier
    ranking changes a score: after [rank_articles] has written the relevance
    scores (with any preferences, whether it returned or raised), scoring an
    article again gives the result it gave before. *)
Theorem query_and_score_are_pure :
  (∀ p p',
     language p = language p' →
     preferred_categories p = preferred_categories p' →
     keywords p = keywords p' →
     sources p = sources p' →
     excluded_sources p = excluded_sources p' →
     transform_for_fetching p = transform_for_fetching p')
  ∧ (∀ lower a a' p p',
       same_scored_fields a a' →
       keywords p = keywords p' →
       preferred_categories p = preferred_categories p' →
       sources p = sources p' →
       score_article lower a p = score_article lower a' p')
  ∧ (∀ lower articles ranking_preferences (h : heap) x p,
       score_article lower
         (deref (rank_articles lower articles ranking_preferences h).2 x) p
       = score_article lower (deref h x) p).
Proof.
  split; [|split].
  - intros p p' Hl Hc Hk Hs He. unfold transform_for_fetching.
    by rewrite Hl, Hc, Hk, Hs, He.
  - apply score_article_same_fields.
  - intros. apply score_article_same_fields; [|done..].
    apply rank_articles_same_fields.
Qed.

Lemma query_and_score_are_pure_witness :
  transform_for_fetching example_preferences
  = transform_for_fetching (renamed_user example_preferences "someone_else")
  ∧ score_article Str.ascii_lower
      (Dict.set (example_article "Tech Report") "relevance_score" (VFloat (9 # 2)))
      example_preferences
    = score_article Str.ascii_lower (example_article "Tech Report")
        (renamed_user example_preferences "someone_else").
Proof.
  split.
  - apply (proj1 query_and_score_are_pure); reflexivity.
  - apply (proj1 (proj2 query_and_score_are_pure)); [|reflexivity..].
    intros k Hk. simpl in Hk.
    repeat (destruct Hk as [<-|Hk]; [reflexivity|]). destruct Hk.
Defined.

(** ** The cache key of the article fetch *)

Lemma string_ltb_lt a b : String.ltb a b = true ↔ OrderedTypeEx.String_as_OT.lt a b.
Proof.
  rewrite <- OrderedTypeEx.String_as_OT.cmp_lt.
  unfold String.ltb, OrderedTypeEx.String_as_OT.cmp.
  by destruct (String.compare a b).
Qed.

Lemma string_ltb_asym a b : String.ltb a b = true → String.ltb b a = false.
Proof.
  unfold String.ltb. rewrite (String.compare_antisym b a).
  by destruct (String.compare a b).
Qed.

Lemma string_ltb_total a b : String.ltb a b = false → String.ltb b a = false → a = b.
Proof.
  unfold String.ltb. rewrite (String.compare_antisym b a).
  destruct (String.compare a b) eqn:E; try done.
  intros _ _. by apply String.compare_eq_iff.
Qed.

Lemma string_ltb_negtrans a b c :
  String.ltb a c = true → String.ltb a b = true ∨ String.ltb b c = true.
Proof.
  intros Hac.
  destruct (String.ltb a b) eqn:Hab; [by left|right].
  destruct (String.ltb b a) eqn:Hba.
  - apply string_ltb_lt. apply string_ltb_lt in Hba, Hac.
    by eapply OrderedTypeEx.String_as_OT.lt_trans.
  - by rewrite <- (string_ltb_total a b Hab Hba).
Qed.

Section SortedUnique.
Context {A K : Type} (lt : K -> K -> bool) (key : A -> K).
Hypothesis lt_asym : ∀ a b, lt a b = true → lt b a = false.
Hypothesis lt_negtrans : ∀ a b c, lt a c = true → lt a b = true ∨ lt b c = true.
Hypothesis lt_total : ∀ a b, lt a b = false → lt b a = false → a = b.


End SortedUnique.





Example make_cache_key_example :
  make_cache_key [("q", PStr "ai"); ("language", PStr "en")]
  = "{" ++ Json.quote ++ "language" ++ Json.quote ++ ": " ++ Json.quote ++ "en"
    ++ Json.quote ++ ", " ++ Json.quote ++ "q" ++ Json.quote ++ ": "
    ++ Json.quote ++ "ai" ++ Json.quote ++ "}".
Proof. vm_compute. reflexivity. Qed.

(** ** Fetching *)

(** An unreadable [pageSize] raises before any request is made. *)
Lemma fetch_articles_bad_page_size int_of_str requests_get qp (w : world (dict param)) e :
  cache w !! make_cache_key qp = None →
  params_to_use int_of_str qp = Raise e →
  fetch_articles int_of_str requests_get qp w = (Raise e, w).
Proof.
  intros Hmiss Hp. unfold fetch_articles. rewrite cached_miss by done.
  unfold fetch_articles_body. by rewrite Hp.
Qed.

Lemma status_is_ok_spec status :
  status_is_ok status = true ↔ status = Some (VStr "ok").
Proof.
  unfold status_is_ok.
  destruct status as [[]|]; try (split; [done|discriminate]).
  rewrite String.eqb_eq. split; [by intros ->|by intros [= ->]].
Qed.

Lemma raises_for_status_spec code :
  raises_for_status code = true ↔ 400 ≤ code < 600.
Proof. unfold raises_for_status. rewrite andb_true_iff. lia. Qed.

(** On a cache miss with parameters that can be built, one request is sent
    and its answer decides the result, which is stored. *)
Lemma fetch_articles_miss int_of_str requests_get qp (w : world (dict param)) params :
  params_to_use int_of_str qp = Ok params →
  cache w !! make_cache_key qp = None →
  fetch_articles int_of_str requests_get qp w
  = let v := boundary_result (requests_get (length (requests w)) params) in
    (Ok v, store (make_cache_key qp) v (send params w)).
Proof.
  intros Hp Hmiss. unfold fetch_articles. rewrite cached_miss by done.
  unfold fetch_articles_body. rewrite Hp.
  destruct (requests_get _ _) as [| | |code json]; try done.
  cbn [boundary_result].
  destruct (raises_for_status code); [by destruct json as [[]|]|].
  destruct json as [[| | | | |data]|]; try done.
  cbn [negb andb]. destruct (status_is_ok _); [|done].
  cbn [andb]. by destruct (has_len _).
Qed.

(** C7 (as stated, refuted).  A response with status 300 is not a 2xx
    response, but [raise_for_status] raises for 4xx and 5xx only: when the
    body of such a response is a success envelope, the articles are
    returned. *)
Lemma fetch_articles_non_2xx_returns_articles :
  raises_for_status 300 = false
  ∧ (fetch_articles decimal_int always_multiple_choices [("q", PStr "AI")] empty_world).1
    = Ok (VList [VDict [("title", VStr "Test Article 1")]])
  ∧ (fetch_articles decimal_int always_multiple_choices [("q", PStr "AI")] empty_world).1 ≠ Ok VNone.
Proof. vm_compute. repeat split; discriminate. Qed.

(** C7 (amended).  On a cache miss with parameters that can be built,
    [fetch_articles] sends exactly one request and never raises.  It returns
    [None] when the request fails (connection error, timeout, any other
    exception), when the response status is 4xx or 5xx, and when the body is
    not a JSON object whose status is "ok"; otherwise (status code not 4xx or
    5xx, body an object with status "ok") it returns what the body holds
    under "articles" unchanged when that has a length, in particular the
    received list of articles, the empty list when the body holds nothing
    under "articles", and [None] when what it holds has no length (a number,
    null). *)
Theorem fetch_articles_total_on_failures :
  ∀ int_of_str requests_get qp (w : world (dict param)) params,
    params_to_use int_of_str qp = Ok params →
    cache w !! make_cache_key qp = None →
    let outcome := requests_get (length (requests w)) params in
    let r := (fetch_articles int_of_str requests_get qp w).1 in
    let w' := (fetch_articles int_of_str requests_get qp w).2 in
    requests w' = (requests w ++ [params])%list
    ∧ (∃ v, r = Ok v)
    ∧ (outcome = ConnectionFailed ∨ outcome = TimedOut ∨ outcome = UnexpectedFailure →
       r = Ok VNone)
    ∧ (∀ code json, outcome = Response code json → 400 ≤ code < 600 → r = Ok VNone)
    ∧ (∀ code json, outcome = Response code json →
         (∀ data, json = Some (VDict data) →
                  Dict.get data "status" ≠ Some (VStr "ok")) →
         r = Ok VNone)
    ∧ (∀ code data, outcome = Response code (Some (VDict data)) →
         ¬ (400 ≤ code < 600) →
         Dict.get data "status" = Some (VStr "ok") →
         (∀ articles, Dict.get data "articles" = Some (VList articles) →
                      r = Ok (VList articles))
         ∧ (Dict.get data "articles" = None → r = Ok (VList []))
         ∧ (∀ v, Dict.get data "articles" = Some v →
                 r = Ok (if has_len v then v else VNone))).
Proof.
  intros int_of_str requests_get qp w params Hp Hmiss outcome r w'.
  subst r w'. rewrite (fetch_articles_miss int_of_str requests_get qp w params Hp Hmiss).
  fold outcome. cbn [fst snd store send requests].
  split; [done|]. split; [by eexists|]. split; [|split; [|split]].
  - by intros [->|[->| ->]].
  - intros code json -> Hcode. cbn [boundary_result].
    apply raises_for_status_spec in Hcode as ->.
    by destruct json as [[]|].
  - intros code json -> Hno. cbn [boundary_result].
    destruct json as [[| | | | |data]|]; try done.
    destruct (status_is_ok (Dict.get data "status")) eqn:Hs;
      [|by rewrite andb_false_r].
    apply status_is_ok_spec in Hs. by destruct (Hno data eq_refl).
  - intros code data -> Hcode Hs. cbn [boundary_result].
    apply status_is_ok_spec in Hs as ->.
    destruct (raises_for_status code) eqn:Hr;
      [by apply raises_for_status_spec in Hr|].
    cbn [negb andb]. unfold Dict.get_default.
    split; [|split].
    + by intros articles ->.
    + by intros ->.
    + intros v ->. by destruct (has_len v).
Qed.

Lemma fetch_articles_total_on_failures_witness :
  params_to_use decimal_int [("q", PStr "AI")]
  = Ok [("q", PStr "AI"); ("language", PStr "en"); ("pageSize", PInt 20);
        ("sortBy", PStr "publishedAt")]
  ∧ cache (empty_world (R := dict param)) !! make_cache_key [("q", PStr "AI")] = None
  ∧ (fetch_articles decimal_int always_timeout [("q", PStr "AI")] empty_world).1 = Ok VNone.
Proof.
  split; [reflexivity|]. split; [apply lookup_empty|].
  destruct (fetch_articles_total_on_failures decimal_int always_timeout [("q", PStr "AI")]
              empty_world _ eq_refl (lookup_empty _)) as (_ & _ & H & _).
  apply H. right. left. reflexivity.
Defined.

Example fetch_articles_articles_without_length :
  (fetch_articles decimal_int always_number [("q", PStr "AI")] empty_world).1 = Ok VNone.
Proof. vm_compute. reflexivity. Qed.

Example fetch_articles_examples :
  (fetch_articles decimal_int always_ok [("q", PStr "test")] empty_world).1
  = Ok (VList [VDict [("title", VStr "Test Article 1")]])
  ∧ requests (fetch_articles decimal_int always_ok [("q", PStr "test")] empty_world).2
    = [[("q", PStr "test"); ("language", PStr "en"); ("pageSize", PInt 20);
        ("sortBy", PStr "publishedAt")]]
  ∧ (fetch_articles decimal_int always_ok [("pageSize", PStr "many")] empty_world).1
    = Raise ValueError.
Proof. vm_compute. auto. Qed.

(** ** The enrichment operations *)

Lemma run_operation_cached lower strip self op :
  run_operation lower strip self op
  = cached (operation_key op) (operation_body lower strip self op).
Proof. by destruct op. Qed.

Lemma make_llm_call_world strip self prompt n (w : world (string * Z)) :
  (_make_llm_call strip self prompt n w).2
  = match client self with
    | None => w
    | Some _ => send (prompt, n) w
    end.
Proof.
  unfold _make_llm_call. destruct (client self) as [create|]; [|done].
  by destruct (create prompt n) as [[|[c|] cs]| |].
Qed.

(** A body never raises, sends one request when there is a client and
    none otherwise, and gives [None] without a client. *)
Lemma operation_body_spec lower strip self op (w : world (string * Z)) :
  ∃ v, operation_body lower strip self op w = (Ok v, after_body self op w)
       ∧ (client self = None → v = VNone).
Proof.
  unfold after_body.
  destruct op as [text n|text n|text|text cats]; cbn [operation_body];
    unfold extract_keywords_body, generate_summary_body, analyze_sentiment_body,
      categorize_article_body;
    cbn [operation_prompt operation_budget]; unfold sentiment_prompt;
    (destruct (client self) as [create|] eqn:Hc; [|by eexists]);
    match goal with
    | |- context [_make_llm_call ?s ?a ?p ?n ?w] =>
        pose proof (make_llm_call_world s a p n w) as Hw;
        rewrite Hc in Hw;
        destruct (_make_llm_call s a p n w) as [[r|] w'] eqn:Hcall;
        cbn [snd] in Hw; subst w'
    end.
  - destruct (nonempty r); by eexists.
  - by eexists.
  - by eexists.
  - by eexists.
  - destruct (nonempty r && _); by eexists.
  - by eexists.
  - destruct (nonempty r && _); by eexists.
  - by eexists.
Qed.

(** Every operation returns; the world it leaves is the one it found (on a
    hit) or the one after its body with the result stored (on a miss). *)
Lemma run_operation_spec lower strip self op (w : world (string * Z)) :
  ∃ v, run_operation lower strip self op w
       = (Ok v,
          match cache w !! operation_key op with
          | Some _ => w
          | None => store (operation_key op) v (after_body self op w)
          end)
       ∧ (cache w !! operation_key op = None → client self = None → v = VNone).
Proof.
  rewrite run_operation_cached. unfold cached.
  destruct (cache w !! operation_key op) as [v0|] eqn:Hw.
  - exists v0. by split.
  - destruct (operation_body_spec lower strip self op w) as (v & -> & Hnone).
    exists v. split; [done|]. by intros _.
Qed.

(** Requests sent by one call: none on a cache hit or without a client, and
    otherwise exactly one, carrying the prompt of the operation and its token
    budget (50 for keywords, the length plus 50 for a summary, 10 for the
    sentiment, 15 for the category).  No call raises. *)
Theorem enrichment_sends_at_most_one_request :
  ∀ lower strip self op (w : world (string * Z)),
    let r := (run_operation lower strip self op w).1 in
    let w' := (run_operation lower strip self op w).2 in
    (∃ v, r = Ok v)
    ∧ (is_Some (cache w !! operation_key op) → w' = w)
    ∧ (client self = None → requests w' = requests w)
    ∧ (cache w !! operation_key op = None → is_Some (client self) →
       requests w' = (requests w ++ [(operation_prompt op, operation_budget op)])%list).
Proof.
  intros lower strip self op w r w'. subst r w'.
  destruct (run_operation_spec lower strip self op w) as (v & -> & _).
  cbn [fst snd]. split; [by eexists|]. unfold after_body.
  split; [|split].
  - by intros [v0 ->].
  - intros ->. by destruct (cache w !! operation_key op).
  - intros -> [c ->]. done.
Qed.

(** Without a client every operation that misses the cache returns [None]
    (also [extract_keywords], which otherwise returns a list), sends nothing,
    and stores that [None]. *)
Theorem enrichment_without_client :
  ∀ lower strip self op (w : world (string * Z)),
    client self = None →
    cache w !! operation_key op = None →
    run_operation lower strip self op w
    = (Ok VNone, store (operation_key op) VNone w).
Proof.
  intros lower strip self op w Hc Hmiss.
  destruct (run_operation_spec lower strip self op w) as (v & -> & Hv).
  rewrite Hmiss. rewrite (Hv Hmiss Hc). unfold after_body. by rewrite Hc.
Qed.

Lemma enrichment_without_client_witness :
  client no_client_analyzer = None
  ∧ cache (empty_world (R := string * Z)) !! operation_key (ExtractKeywords "news" 5)
    = None
  ∧ run_operation Str.ascii_lower Str.ascii_strip no_client_analyzer
      (ExtractKeywords "news" 5) empty_world
    = (Ok VNone, store (operation_key (ExtractKeywords "news" 5)) VNone empty_world).
Proof.
  split; [reflexivity|]. split; [apply lookup_empty|].
  apply enrichment_without_client; [reflexivity|apply lookup_empty].
Defined.

(** Every result is memoised, also the [None] or the empty list that follows
    a provider failure: a second call with the same arguments returns the
    result of the first and sends nothing, whichever analyzer makes it. *)
Theorem enrichment_results_are_memoised :
  ∀ lower strip self self' op (w : world (string * Z)),
    let first := run_operation lower strip self op w in
    run_operation lower strip self' op first.2 = first.
Proof.
  intros lower strip self self' op w first. subst first.
  destruct (run_operation lower strip self op w) as [r w1] eqn:H.
  destruct (run_operation_spec lower strip self op w) as (v & Hv & _).
  rewrite H in Hv. injection Hv as -> Hw1. cbn [snd].
  rewrite run_operation_cached in H |- *.
  by eapply cached_again.
Qed.

Example provider_failure_is_memoised :
  let first := run_operation Str.ascii_lower Str.ascii_strip failing_analyzer
                 (GenerateSummary "news" 100) empty_world in
  let second := run_operation Str.ascii_lower Str.ascii_strip
                  (fixed_reply_analyzer "A summary.") (GenerateSummary "news" 100)
                  first.2 in
  first.1 = Ok VNone ∧ second.1 = Ok VNone
  ∧ length (requests first.2) = 1%nat ∧ length (requests second.2) = 1%nat.
Proof. vm_compute. auto. Qed.

Lemma enrichment_sends_at_most_one_request_witness :
  cache (empty_world (R := string * Z)) !! operation_key (AnalyzeSentiment "news") = None
  ∧ is_Some (client failing_analyzer)
  ∧ requests (run_operation Str.ascii_lower Str.ascii_strip failing_analyzer
                (AnalyzeSentiment "news") empty_world).2
    = [(sentiment_prompt "news", 10)].
Proof.
  split; [apply lookup_empty|]. split; [by eexists|].
  destruct (enrichment_sends_at_most_one_request Str.ascii_lower Str.ascii_strip
              failing_analyzer (AnalyzeSentiment "news") empty_world)
    as (_ & _ & _ & H).
  apply H; [apply lookup_empty|by eexists].
Defined.

(** The pieces of [split] joined by the separator give the string back, and
    there is always at least one piece. *)
Lemma split_nonempty sep s : split sep s ≠ [].
Proof.
  destruct s as [|c s]; simpl; [done|].
  destruct (Ascii.eqb c sep); [done|]. by destruct (split sep s).
Qed.

Lemma join_split sep s :
  Str.join (String sep EmptyString) (split sep s) = s.
Proof.
  induction s as [|c s IH]; [done|].
  cbn [split]. destruct (Ascii.eqb_spec c sep) as [->|Hne].
  - pose proof (split_nonempty sep s) as Hs.
    destruct (split sep s) as [|p ps]; [done|].
    change (Str.join (String sep EmptyString) (EmptyString :: p :: ps))
      with (EmptyString ++ String sep EmptyString
            ++ Str.join (String sep EmptyString) (p :: ps)).
    by rewrite IH.
  - pose proof (split_nonempty sep s) as Hs.
    destruct (split sep s) as [|p ps]; [done|].
    rewrite <- IH. by destruct ps.
Qed.

(** The keywords of [extract_keywords].  On a cache miss with a client the
    result is always a list (never [None]); no keyword in it is empty; each
    keyword is the stripped form of one of the comma-separated pieces of the
    response, in their order; without a usable response the list is empty. *)
Theorem extract_keywords_returns_clean_list :
  ∀ strip self text n (w : world (string * Z)),
    is_Some (client self) →
    cache w !! extract_keywords_key text n = None →
    let response :=
      (_make_llm_call strip self (operation_prompt (ExtractKeywords text n)) 50 w).1 in
    ∃ kws,
      (extract_keywords strip self text n w).1 = Ok (VList (map VStr kws))
      ∧ Forall (fun kw => kw ≠ EmptyString) kws
      ∧ (∀ kw, kw ∈ kws →
           ∃ r piece, response = Some r ∧ piece ∈ split "," r ∧ kw = strip piece)
      ∧ (∀ r, response = Some r → r ≠ EmptyString →
           kws = List.filter nonempty (map strip (split "," r)))
      ∧ (response = None ∨ response = Some EmptyString → kws = []).
Proof.
  intros strip self text n w [create Hc] Hmiss response.
  unfold extract_keywords. rewrite cached_miss by done.
  unfold extract_keywords_body. rewrite Hc.
  cbn [operation_prompt] in response. fold response.
  destruct (_make_llm_call strip self _ 50 w) as [[r|] w'] eqn:Hcall;
    cbn [fst] in response; subst response.
  - destruct (nonempty r) eqn:Hr.
    + exists (List.filter nonempty (map strip (split "," r))).
      split; [done|]. split; [|split; [|split]].
      * apply Forall_forall. intros kw Hkw.
        apply list_elem_of_In, filter_In in Hkw as [_ Hkw].
        by apply nonempty_true.
      * intros kw Hkw. apply list_elem_of_In, filter_In in Hkw as [Hkw _].
        apply in_map_iff in Hkw as (piece & <- & Hp).
        exists r, piece. split; [done|]. split; [by apply list_elem_of_In|done].
      * by intros r' [= <-] _.
      * apply nonempty_true in Hr. by intros [?|[= ->]].
    + apply negb_false_iff, String.eqb_eq in Hr as ->.
      exists []. split; [done|]. split; [constructor|]. split; [|split].
      * intros kw Hkw. by apply not_elem_of_nil in Hkw.
      * by intros r' [= <-] Hne.
      * done.
  - exists []. split; [done|]. split; [constructor|]. split; [|split]; try done.
    intros kw Hkw. by apply not_elem_of_nil in Hkw.
Qed.

Lemma extract_keywords_returns_clean_list_witness :
  is_Some (client (fixed_reply_analyzer "ai, chips,, gpu "))
  ∧ cache (empty_world (R := string * Z)) !! extract_keywords_key "news" 5 = None
  ∧ ∃ kws,
      (extract_keywords Str.ascii_strip (fixed_reply_analyzer "ai, chips,, gpu ")
         "news" 5 empty_world).1 = Ok (VList (map VStr kws))
      ∧ Forall (fun kw => kw ≠ EmptyString) kws.
Proof.
  split; [by eexists|]. split; [apply lookup_empty|].
  destruct (extract_keywords_returns_clean_list Str.ascii_strip
              (fixed_reply_analyzer "ai, chips,, gpu ") "news" 5 empty_world
              ltac:(by eexists) (lookup_empty _)) as (kws & H1 & H2 & _).
  by exists kws.
Defined.

Example extract_keywords_example :
  (extract_keywords Str.ascii_strip (fixed_reply_analyzer "ai, chips,, gpu ")
     "news" 5 empty_world).1
  = Ok (VList [VStr "ai"; VStr "chips"; VStr "gpu"])
  ∧ (extract_keywords Str.ascii_strip failing_analyzer "news" 5 empty_world).1
    = Ok (VList []).
Proof. vm_compute. auto. Qed.

(** The category of [categorize_article].  On a cache miss the result is a
    category exactly when the response is non-empty and its lower-case form
    is the lower-case form of one of the supplied categories, and it is that
    lower-case form; in every other case the result is [None].  Nothing
    outside the supplied set is ever returned, and with no categories the
    result is always [None]. *)
Theorem categorize_article_returns_supplied_category :
  ∀ lower strip self text categories (w : world (string * Z)),
    cache w !! categorize_article_key text categories = None →
    let response :=
      (_make_llm_call strip self
         (operation_prompt (CategorizeArticle text categories)) 15 w).1 in
    let outcome := (categorize_article lower strip self text categories w).1 in
    (∀ c, outcome = Ok (VStr c) ↔
       ∃ r, response = Some r ∧ r ≠ EmptyString ∧ lower r = c
            ∧ In c (map lower categories))
    ∧ (outcome = Ok VNone
       ∨ ∃ c, In c (map lower categories) ∧ outcome = Ok (VStr c))
    ∧ (categories = [] → outcome = Ok VNone).
Proof.
  intros lower strip self text categories w Hmiss response outcome.
  assert (Hout : outcome =
    match response with
    | Some r => if nonempty r && mem_string (lower r) (map lower categories)
                then Ok (VStr (lower r)) else Ok VNone
    | None => Ok VNone
    end).
  { subst outcome response. unfold categorize_article.
    rewrite cached_miss by done.
    unfold categorize_article_body, _make_llm_call. cbn [operation_prompt].
    destruct (client self) as [create|]; [|done].
    destruct (create _ _) as [[|[c|] cs]| |]; cbn [fst]; try done.
    by destruct (nonempty _ && _). }
  rewrite Hout. clear Hout outcome.
  destruct response as [r|].
  - destruct (nonempty r && mem_string (lower r) (map lower categories)) eqn:E.
    + apply andb_true_iff in E as [Hne Hmem].
      apply nonempty_true in Hne. apply mem_string_In in Hmem.
      split; [|split].
      * intros c. split.
        -- intros [= <-]. by exists r.
        -- by intros (r' & [= <-] & _ & <- & _).
      * right. by exists (lower r).
      * intros ->. destruct Hmem.
    + apply andb_false_iff in E.
      split; [|split].
      * intros c. split; [discriminate|].
        intros (r' & [= <-] & Hne & <- & Hmem). exfalso.
        apply nonempty_true in Hne. apply mem_string_In in Hmem.
        destruct E; congruence.
      * by left.
      * done.
  - split; [|split].
    + intros c. split; [discriminate|]. by intros (r' & [=] & _).
    + by left.
    + done.
Qed.

Lemma categorize_article_returns_supplied_category_witness :
  cache (empty_world (R := string * Z))
    !! categorize_article_key "news" default_categories = None
  ∧ (categorize_article Str.ascii_lower Str.ascii_strip
       (fixed_reply_analyzer "Artificial Intelligence") "news" default_categories
       empty_world).1 = Ok VNone.
Proof.
  split; [apply lookup_empty|].
  destruct (categorize_article_returns_supplied_category Str.ascii_lower
              Str.ascii_strip (fixed_reply_analyzer "Artificial Intelligence")
              "news" default_categories empty_world (lookup_empty _))
    as (Hiff & [H|(c & Hc & H)] & _); [exact H|].
  exfalso. apply Hiff in H as (r & Hr & _ & Hl & _).
  vm_compute in Hr. injection Hr as <-. subst c.
  vm_compute in Hc. intuition discriminate.
Defined.

Example categorize_article_example :
  (categorize_article Str.ascii_lower Str.ascii_strip
     (fixed_reply_analyzer " Technology") "news" default_categories empty_world).1
  = Ok (VStr "technology").
Proof. vm_compute. reflexivity. Qed.

(** ** The order of the categories does not matter *)

Section SortedUniqueInjective.
Context {A K : Type} (lt : K -> K -> bool) (key : A -> K).
Hypothesis lt_asym : ∀ a b, lt a b = true → lt b a = false.
Hypothesis lt_negtrans : ∀ a b c, lt a c = true → lt a b = true ∨ lt b c = true.
Hypothesis lt_total : ∀ a b, lt a b = false → lt b a = false → a = b.
Hypothesis key_inj : ∀ x y, key x = key y → x = y.

Lemma ascending_unique_injective l1 l2 :
  StronglySorted (key_le lt key) l1 → StronglySorted (key_le lt key) l2 →
  l1 ≡ₚ l2 → l1 = l2.
Proof.
  intros H1. revert l2. induction H1 as [|x l1 Hl1 IH Hx]; intros l2 H2 Hp.
  - by apply Permutation_nil_l in Hp.
  - destruct H2 as [|y l2 Hl2 Hy].
    { by apply Permutation_nil_r in Hp. }
    assert (x = y) as <-.
    { assert (x ∈ y :: l2) as Hxy by (rewrite <- Hp; by left).
      apply elem_of_cons in Hxy as [?|Hin]; [done|].
      assert (y ∈ x :: l1) as Hyx by (rewrite Hp; by left).
      apply elem_of_cons in Hyx as [->|Hyl1]; [done|].
      rewrite Forall_forall in Hx, Hy.
      apply key_inj, lt_total; [apply (Hy x Hin)|apply (Hx y Hyl1)]. }
    f_equal. apply IH; [done|].
    by apply Permutation_cons_inv in Hp.
Qed.

Lemma sort_stable_permutation_injective l1 l2 :
  l1 ≡ₚ l2 → sort_stable lt key l1 = sort_stable lt key l2.
Proof.
  intros Hp. apply ascending_unique_injective.
  - by apply sort_stable_sorted.
  - by apply sort_stable_sorted.
  - by rewrite !sort_stable_perm.
Qed.
End SortedUniqueInjective.

Lemma sorted_strings_permutation l1 l2 :
  l1 ≡ₚ l2 → sorted String.ltb id false l1 = sorted String.ltb id false l2.
Proof.
  intros Hp. unfold sorted.
  by apply (sort_stable_permutation_injective String.ltb id
              string_ltb_asym string_ltb_negtrans string_ltb_total).
Qed.

Lemma mem_string_permutation s l1 l2 :
  l1 ≡ₚ l2 → mem_string s l1 = mem_string s l2.
Proof.
  intros Hp. apply eq_true_iff_eq. rewrite !mem_string_In.
  split; intros H; eapply Permutation_in; try exact H; done.
Qed.

(** Two category lists with the same members (repetitions included) in a
    different order are the same configuration: same cache key, same prompt,
    same validation, hence the same result and the same world. *)
Theorem categorize_article_ignores_category_order :
  ∀ lower strip self text cats cats' (w : world (string * Z)),
    cats ≡ₚ cats' →
    categorize_article_key text cats = categorize_article_key text cats'
    ∧ categorize_article lower strip self text cats w
      = categorize_article lower strip self text cats' w.
Proof.
  intros lower strip self text cats cats' w Hp.
  assert (Hkey : categorize_article_key text cats = categorize_article_key text cats').
  { unfold categorize_article_key. by rewrite (sorted_strings_permutation _ _ Hp). }
  split; [exact Hkey|].
  unfold categorize_article. rewrite Hkey. unfold cached.
  destruct (cache w !! _); [done|].
  unfold categorize_article_body.
  rewrite (sorted_strings_permutation _ _ Hp).
  destruct (client self); [|done].
  destruct (_make_llm_call _ _ _ _ _) as [[c|] w']; [|done].
  by rewrite (mem_string_permutation (lower c) (map lower cats) (map lower cats'))
    by (by apply Permutation_map).
Qed.

Lemma categorize_article_ignores_category_order_witness :
  ["sports"; "health"] ≡ₚ ["health"; "sports"]
  ∧ categorize_article_key "news" ["sports"; "health"]
    = categorize_article_key "news" ["health"; "sports"].
Proof.
  split; [apply Permutation_swap|].
  apply (categorize_article_ignores_category_order Str.ascii_lower Str.ascii_strip
           no_client_analyzer "news" _ _ empty_world).
  apply Permutation_swap.
Defined.

(** ** The query builder *)

Lemma transform_for_fetching_entries preferences :
  transform_for_fetching preferences
  = (base_entries preferences ++ optional_entries preferences)%list.
Proof.
  unfold transform_for_fetching, base_entries, optional_entries, optional_entry.
  destruct (preferred_categories preferences) as [|c cs];
    destruct (keywords preferences) as [|k ks];
    destruct (sources preferences) as [|s ss];
    destruct (excluded_sources preferences) as [|e es];
    cbn [is_nil app]; rewrite ?app_nil_r; reflexivity.
Qed.

(** The query built from a preference record: always a language that is
    not empty, the one of the user, or [en] when the user's is empty; page
    size 20 and sort order [publishedAt]; a search
    expression joining categories and then keywords with [" OR "] exactly when
    there is one of them; comma-joined sources and excluded domains exactly
    when there are some; no other key and no key twice. *)
Theorem transform_for_fetching_contents :
  ∀ preferences,
    let qp := transform_for_fetching preferences in
    let terms := (preferred_categories preferences ++ keywords preferences)%list in
    Dict.wf qp
    ∧ (∃ lang, Dict.get qp "language" = Some (PStr lang) ∧ lang ≠ EmptyString
               ∧ (language preferences ≠ EmptyString → lang = language preferences)
               ∧ (language preferences = EmptyString → lang = "en"))
    ∧ Dict.get qp "pageSize" = Some (PInt 20)
    ∧ Dict.get qp "sortBy" = Some (PStr "publishedAt")
    ∧ Dict.get qp "q"
      = (if is_nil terms then None else Some (PStr (Str.join " OR " terms)))
    ∧ Dict.get qp "sources"
      = (if is_nil (sources preferences) then None
         else Some (PStr (Str.join "," (sources preferences))))
    ∧ Dict.get qp "excludeDomains"
      = (if is_nil (excluded_sources preferences) then None
         else Some (PStr (Str.join "," (excluded_sources preferences))))
    ∧ (∀ k, k ∈ Dict.keys qp →
         k ∈ ["language"; "pageSize"; "sortBy"; "q"; "sources"; "excludeDomains"]).
Proof.
  intros preferences qp terms. subst qp terms.
  rewrite transform_for_fetching_entries.
  unfold base_entries, optional_entries, optional_entry, Dict.wf, Dict.keys.
  assert (Hlang : ∃ lang,
    (if nonempty (language preferences) then language preferences else "en") = lang
    ∧ lang ≠ EmptyString
    ∧ (language preferences ≠ EmptyString → lang = language preferences)
    ∧ (language preferences = EmptyString → lang = "en")).
  { destruct (nonempty (language preferences)) eqn:E.
    - exists (language preferences). apply nonempty_true in E.
      split; [done|]. split; [done|]. split; [done|]. by intros H.
    - exists "en". split; [done|]. split; [done|]. split; [|done].
      intros H. apply nonempty_true in H. congruence. }
  destruct Hlang as (lang & -> & Hne & Hsame & Hdefault).
  destruct (preferred_categories preferences ++ keywords preferences)%list as [|t ts];
    destruct (sources preferences) as [|s ss];
    destruct (excluded_sources preferences) as [|e es];
    cbn [is_nil app map fst Dict.get String.eqb Ascii.eqb Bool.eqb];
    (split; [apply (bool_decide_unpack _); vm_compute; reflexivity|]);
    (split; [by exists lang|]);
    (repeat split; try reflexivity);
    intros k Hk; repeat (apply elem_of_cons in Hk as [->|Hk];
                         [apply (bool_decide_unpack _); vm_compute; reflexivity|]);
    by apply not_elem_of_nil in Hk.
Qed.

(** ** The parameters sent to the boundary *)

Lemma filter_keys_subset (f : string * param → bool) (d : dict param) k :
  k ∈ Dict.keys (List.filter f d) → k ∈ Dict.keys d.
Proof.
  unfold Dict.keys. rewrite !list_elem_of_fmap.
  intros ([k' v] & -> & H). exists (k', v). split; [done|].
  apply list_elem_of_In. apply list_elem_of_In in H. by apply filter_In in H as [H _].
Qed.

Lemma filter_keys_NoDup (f : string * param → bool) (d : dict param) :
  NoDup (Dict.keys d) → NoDup (Dict.keys (List.filter f d)).
Proof.
  unfold Dict.keys. induction d as [|[k v] d IH]; simpl; [done|].
  intros Hnd. apply NoDup_cons in Hnd as [Hk Hnd].
  destruct (f (k, v)); simpl; [|by apply IH].
  apply NoDup_cons. split; [|by apply IH].
  intros Hin. apply Hk. by apply (filter_keys_subset f d).
Qed.

Lemma params_to_use_ok int_of_str qp params :
  params_to_use int_of_str qp = Ok params →
  ∃ n, py_int int_of_str (Dict.get_default qp "pageSize" (PInt 20)) = Ok n
       ∧ params = List.filter entry_truthy (request_entries qp n).
Proof.
  unfold params_to_use. destruct (py_int _) as [n|e]; [|discriminate].
  intros H. exists n. split; [done|].
  change (Ok (List.filter entry_truthy (request_entries qp n)) = Ok params) in H.
  congruence.
Qed.

Lemma dict_get_filter (f : string * param → bool) (d : dict param) k v :
  Dict.get (List.filter f d) k = Some v → (k, v) ∈ d ∧ f (k, v) = true.
Proof.
  induction d as [|[k' v'] d IH]; simpl; [done|].
  destruct (f (k', v')) eqn:Hf; simpl.
  - destruct (String.eqb_spec k' k) as [->|Hne].
    + intros [= ->]. split; [by left|done].
    + intros H. destruct (IH H). split; [by right|done].
  - intros H. destruct (IH H). split; [by right|done].
Qed.

(** What is sent, whatever the caller passed: only the seven known parameter
    names, each at most once; no empty string and no zero; a page size, when
    sent, that is an integer of at most 100. *)
Theorem params_to_use_normalises :
  ∀ int_of_str qp params,
    params_to_use int_of_str qp = Ok params →
    Dict.wf params
    ∧ (∀ k, k ∈ Dict.keys params → k ∈ request_keys)
    ∧ Forall (fun kv : string * param => param_truthy kv.2 = true) params
    ∧ (∀ v, Dict.get params "pageSize" = Some v →
         ∃ n, v = PInt n ∧ n ≤ 100 ∧ n ≠ 0).
Proof.
  intros int_of_str qp params H.
  apply params_to_use_ok in H as (n & _ & ->).
  split; [|split; [|split]].
  - apply filter_keys_NoDup. apply (bool_decide_unpack _). vm_compute. reflexivity.
  - intros k Hk. by apply filter_keys_subset in Hk.
  - apply Forall_forall. intros kv Hkv.
    by apply list_elem_of_In, filter_In in Hkv as [_ Hkv].
  - intros v Hv. apply dict_get_filter in Hv as [Hin Hv].
    unfold request_entries in Hin.
    repeat (apply elem_of_cons in Hin as [[=]|Hin]);
      [|by apply not_elem_of_nil in Hin].
    subst v. exists (Z.min n 100). split; [done|]. split; [lia|].
    unfold entry_truthy in Hv. cbn in Hv.
    by apply negb_true_iff, Z.eqb_neq in Hv.
Qed.

Lemma params_to_use_normalises_witness :
  params_to_use decimal_int [("q", PStr "AI"); ("pageSize", PStr "250"); ("junk", PInt 1)]
  = Ok [("q", PStr "AI"); ("language", PStr "en"); ("pageSize", PInt 100);
        ("sortBy", PStr "publishedAt")]
  ∧ Dict.wf [("q", PStr "AI"); ("language", PStr "en"); ("pageSize", PInt 100);
             ("sortBy", PStr "publishedAt")].
Proof.
  split; [reflexivity|].
  apply (params_to_use_normalises decimal_int
           [("q", PStr "AI"); ("pageSize", PStr "250"); ("junk", PInt 1)]).
  reflexivity.
Defined.

(** ** From preferences to the request *)

Lemma params_of_built_query int_of_str preferences :
  params_to_use int_of_str (transform_for_fetching preferences)
  = Ok (List.filter entry_truthy (optional_entries preferences)
        ++ base_entries preferences)%list.
Proof.
  rewrite transform_for_fetching_entries.
  unfold params_to_use, base_entries, optional_entries, optional_entry.
  assert (Hlang : ∃ lang,
    (if nonempty (language preferences) then language preferences else "en") = lang
    ∧ nonempty lang = true).
  { destruct (nonempty (language preferences)) eqn:E; by eexists. }
  destruct Hlang as (lang & -> & Hlang).
  destruct (preferred_categories preferences ++ keywords preferences)%list as [|t ts];
    destruct (sources preferences) as [|s ss];
    destruct (excluded_sources preferences) as [|e es];
    cbn [is_nil app Dict.get_default Dict.get String.eqb Ascii.eqb Bool.eqb
         py_int mbind result_bind];
    unfold entry_truthy;
    cbn [List.filter param_truthy snd nonempty String.eqb negb Z.min Z.compare
         Pos.compare Pos.compare_cont Z.eqb app];
    rewrite Hlang;
    repeat match goal with
           | |- context [nonempty (Str.join ?sep ?l)] =>
               destruct (nonempty (Str.join sep l))
           end;
    reflexivity.
Qed.

(** Feeding the built query to the fetch never raises, and what is sent to
    the boundary is exactly the non-empty part of the built query (in another
    order): the language, page size 20 and the sort order always, the search
    expression, sources and excluded domains when they are non-empty strings. *)
Theorem built_query_is_sent_without_empty_entries :
  ∀ int_of_str preferences,
    ∃ params,
      params_to_use int_of_str (transform_for_fetching preferences) = Ok params
      ∧ params ≡ₚ List.filter entry_truthy (transform_for_fetching preferences)
      ∧ Dict.get params "pageSize" = Some (PInt 20)
      ∧ Dict.get params "sortBy" = Some (PStr "publishedAt")
      ∧ Dict.get params "language"
        = Dict.get (transform_for_fetching preferences) "language".
Proof.
  intros int_of_str preferences. eexists. split; [apply params_of_built_query|].
  assert (Hbase : List.filter entry_truthy (base_entries preferences)
                  = base_entries preferences).
  { unfold base_entries, entry_truthy. cbn.
    by destruct (nonempty (language preferences)) eqn:E; rewrite ?E. }
  split; [|].
  - rewrite transform_for_fetching_entries, List.filter_app, Hbase.
    apply Permutation_app_comm.
  - rewrite transform_for_fetching_entries.
    assert (Hopt : ∀ k, k ∈ ["pageSize"; "sortBy"; "language"] →
              Dict.get (List.filter entry_truthy (optional_entries preferences)) k
              = None).
    { intros k Hk.
      destruct (Dict.get _ k) as [v|] eqn:E; [|done]. exfalso.
      apply dict_get_filter in E as [E _].
      unfold optional_entries, optional_entry in E.
      rewrite !elem_of_app in E.
      destruct E as [E|[E|E]];
        match type of E with
        | _ ∈ (if ?b then _ else _) => destruct b
        end;
        try (by apply not_elem_of_nil in E);
        apply list_elem_of_singleton in E; injection E as -> _;
        repeat (apply elem_of_cons in Hk as [[=]|Hk]);
        by apply not_elem_of_nil in Hk. }
    assert (Hin : ∀ k, k ∈ ["pageSize"; "sortBy"; "language"] →
              Dict.get (List.filter entry_truthy (optional_entries preferences)
                        ++ base_entries preferences)%list k
              = Dict.get (base_entries preferences) k).
    { intros k Hk. specialize (Hopt k Hk). revert Hopt.
      generalize (List.filter entry_truthy (optional_entries preferences)).
      intros d. induction d as [|[k' v'] d IH]; simpl; [done|].
      destruct (String.eqb k' k); [done|]. apply IH. }
    rewrite !Hin by (apply (bool_decide_unpack _); vm_compute; reflexivity).
    repeat split; reflexivity.
Qed.

(** ** Failed fetches *)

Lemma transport_failure_result outcome :
  transport_failure outcome → boundary_result outcome = VNone.
Proof.
  intros [->|[->|[->|(code & json & -> & Hcode)]]]; try done.
  cbn [boundary_result]. apply raises_for_status_spec in Hcode as ->.
  by destruct json as [[]|].
Qed.

(** A failed fetch is memoised like a successful one: after a request that
    failed at the transport level the call returns [None] and stores it, so
    the same query returns [None] again without a new request, even when the
    boundary would answer this time. *)
Theorem fetch_failure_is_memoised :
  ∀ int_of_str requests_get requests_get' qp (w : world (dict param)) params,
    params_to_use int_of_str qp = Ok params →
    cache w !! make_cache_key qp = None →
    transport_failure (requests_get (length (requests w)) params) →
    let first := fetch_articles int_of_str requests_get qp w in
    first.1 = Ok VNone
    ∧ requests first.2 = (requests w ++ [params])%list
    ∧ fetch_articles int_of_str requests_get' qp first.2 = (Ok VNone, first.2).
Proof.
  intros int_of_str requests_get requests_get' qp w params Hp Hmiss Hfail first.
  subst first. rewrite (fetch_articles_miss int_of_str requests_get qp w params Hp Hmiss).
  rewrite (transport_failure_result _ Hfail). cbn [fst snd store send requests].
  split; [done|]. split; [done|].
  unfold fetch_articles, cached. cbn [cache store].
  by rewrite lookup_insert_eq.
Qed.

Lemma fetch_failure_is_memoised_witness :
  params_to_use decimal_int [("q", PStr "AI")]
  = Ok [("q", PStr "AI"); ("language", PStr "en"); ("pageSize", PInt 20);
        ("sortBy", PStr "publishedAt")]
  ∧ cache (empty_world (R := dict param)) !! make_cache_key [("q", PStr "AI")] = None
  ∧ (fetch_articles decimal_int always_ok [("q", PStr "AI")]
       (fetch_articles decimal_int always_timeout [("q", PStr "AI")] empty_world).2).1
    = Ok VNone.
Proof.
  split; [reflexivity|]. split; [apply lookup_empty|].
  destruct (fetch_failure_is_memoised decimal_int always_timeout always_ok [("q", PStr "AI")]
              empty_world _ eq_refl (lookup_empty _)) as (_ & _ & H).
  - right. by left.
  - by rewrite H.
Defined.

(** The only exception [fetch_articles] lets through is the [ValueError]
    of the built-in [int] on a page size given as a string that the built-in
    does not read as a number, whichever strings those are; it happens before
    any request, and nothing is sent or stored. *)
Theorem fetch_articles_raises_only_on_page_size :
  ∀ int_of_str requests_get qp (w : world (dict param)),
    cache w !! make_cache_key qp = None →
    (∀ e, (fetch_articles int_of_str requests_get qp w).1 = Raise e ↔
          e = ValueError
          ∧ ∃ s, Dict.get qp "pageSize" = Some (PStr s) ∧ int_of_str s = None)
    ∧ (∀ e, (fetch_articles int_of_str requests_get qp w).1 = Raise e →
            (fetch_articles int_of_str requests_get qp w).2 = w).
Proof.
  intros int_of_str requests_get qp w Hmiss.
  destruct (params_to_use int_of_str qp) as [params|e0] eqn:Hp.
  - rewrite (fetch_articles_miss int_of_str requests_get qp w params Hp Hmiss).
    cbn [fst snd]. split; [|discriminate].
    intros e. split; [discriminate|].
    intros (-> & s & Hs & Hint). exfalso.
    unfold params_to_use, Dict.get_default in Hp. rewrite Hs in Hp.
    cbn [py_int] in Hp. by rewrite Hint in Hp.
  - rewrite (fetch_articles_bad_page_size int_of_str requests_get qp w e0 Hmiss Hp).
    cbn [fst snd]. split; [|done].
    unfold params_to_use, Dict.get_default in Hp.
    destruct (Dict.get qp "pageSize") as [[s|n]|] eqn:Hget;
      cbn [py_int mbind result_bind] in Hp; try discriminate.
    destruct (int_of_str s) eqn:Hint; [discriminate|].
    injection Hp as <-.
    intros e. split.
    + intros [= <-]. split; [done|]. by exists s.
    + by intros (-> & _).
Qed.

Lemma fetch_articles_raises_only_on_page_size_witness :
  cache (empty_world (R := dict param)) !! make_cache_key [("pageSize", PStr "many")]
  = None
  ∧ (fetch_articles decimal_int always_ok [("pageSize", PStr "many")] empty_world).1
    = Raise ValueError.
Proof.
  split; [apply lookup_empty|].
  apply (fetch_articles_raises_only_on_page_size decimal_int always_ok
           [("pageSize", PStr "many")] empty_world (lookup_empty _)).
  split; [reflexivity|]. by exists "many".
Defined.

(** ** When scoring fails *)

Lemma text_ok_false d k :
  text_ok d k = false ↔ ∃ v, Dict.get d k = Some v ∧ ∀ s, v ≠ VStr s.
Proof.
  unfold text_ok, Dict.get_default. destruct (Dict.get d k) as [v|]; split.
  - intros H. exists v. split; [done|]. intros s ->. discriminate.
  - intros (v' & [= <-] & Hv). destruct v; try done. by destruct (Hv s).
  - discriminate.
  - by intros (v & [=] & _).
Qed.

(** [score_article] raises exactly when one of the fields it lower-cases is
    present but is not a string (for instance a [description] that is
    [None]), or the source is present but is not a dictionary, or the name in
    the source is present but is not a string.  The exception is always
    [AttributeError]; a missing field never raises. *)
Theorem score_article_raises_iff :
  ∀ lower article preferences,
    (∀ e, score_article lower article preferences = Raise e → e = AttributeError)
    ∧ (score_article lower article preferences = Raise AttributeError ↔
       (∃ k v, In k ["title"; "description"; "content"]
               ∧ Dict.get article k = Some v ∧ ∀ s, v ≠ VStr s)
       ∨ (∃ v, Dict.get article "source" = Some v
               ∧ ((∀ d, v ≠ VDict d)
                  ∨ ∃ d n, v = VDict d ∧ Dict.get d "name" = Some n
                           ∧ ∀ s, n ≠ VStr s))).
Proof.
  intros lower article preferences.
  destruct (article_ok article) eqn:Hok.
  - destruct (score_article_additive lower article preferences Hok) as (q & Hq & _).
    rewrite Hq. split; [discriminate|]. split; [discriminate|].
    unfold article_ok in Hok.
    apply andb_true_iff in Hok as [Hok Hs].
    apply andb_true_iff in Hok as [Hok Hc].
    apply andb_true_iff in Hok as [Ht Hd].
    intros [(k & v & Hk & Hget & Hv)|(v & Hget & Hv)]; exfalso.
    + assert (text_ok article k = false) as Hf
        by (apply text_ok_false; by exists v).
      simpl in Hk. destruct Hk as [<-|[<-|[<-|[]]]]; congruence.
    + unfold Dict.get_default in Hs. rewrite Hget in Hs.
      destruct Hv as [Hv|(d & n & -> & Hn & Hv)].
      * destruct v; try done. by destruct (Hv d).
      * assert (text_ok d "name" = false) as Hf
          by (apply text_ok_false; by exists n).
        congruence.
  - rewrite (score_article_raises lower article preferences Hok).
    split; [by intros e [= <-]|]. split; [|done]. intros _.
    unfold article_ok in Hok.
    apply andb_false_iff in Hok as [Hok|Hs].
    + left. apply andb_false_iff in Hok as [Hok|Hc].
      * apply andb_false_iff in Hok as [Ht|Hd].
        -- apply text_ok_false in Ht as (v & ? & ?).
           exists "title", v. simpl. auto.
        -- apply text_ok_false in Hd as (v & ? & ?).
           exists "description", v. simpl. auto.
      * apply text_ok_false in Hc as (v & ? & ?).
        exists "content", v. simpl. auto.
    + right. unfold Dict.get_default in Hs.
      destruct (Dict.get article "source") as [v|] eqn:Hget; [|done].
      exists v. split; [done|].
      destruct v as [| | | | |d]; try (left; intros d' [=]; fail).
      right. apply text_ok_false in Hs as (n & ? & ?). by exists d, n.
Qed.

Example score_article_null_description :
  score_article Str.ascii_lower
    [("title", VStr "AI"); ("description", VNone)] example_preferences
  = Raise AttributeError
  ∧ score_article Str.ascii_lower [("title", VStr "AI")] example_preferences
    = Ok (1 # 1)%Q.
Proof. vm_compute. auto. Qed.

(** ** The range of the score *)

(** A score is never negative and never more than the number of preference
    keywords plus 2.5. *)
Theorem score_article_bounds :
  ∀ lower article preferences score,
    score_article lower article preferences = Ok score →
    (0 <= score)%Q
    ∧ (score <= inject_Z (Z.of_nat (length (keywords preferences))) + (5 # 2))%Q.
Proof.
  intros lower article preferences score H.
  destruct (article_ok article) eqn:Hok; last first.
  { by rewrite (score_article_raises lower article preferences Hok) in H. }
  destruct (score_article_additive lower article preferences Hok) as (q & Hq & Heq).
  rewrite H in Hq. injection Hq as <-. rewrite Heq.
  unfold additive_score.
  assert (Hk : (0 <= keyword_points lower article preferences)%Q
               ∧ (keyword_points lower article preferences
                  <= inject_Z (Z.of_nat (length (keywords preferences))))%Q).
  { unfold keyword_points. split.
    - change 0%Q with (inject_Z 0). rewrite <- Zle_Qle. lia.
    - rewrite <- Zle_Qle. apply inj_le, List.filter_length_le. }
  assert (Hc : (0 <= category_points article preferences)%Q
               ∧ (category_points article preferences <= 2)%Q).
  { unfold category_points.
    destruct (Dict.get article "category") as [[| c | | | |]|];
      try (split; discriminate).
    destruct (nonempty c && _); split; discriminate. }
  assert (Hs : (0 <= source_points lower article preferences)%Q
               ∧ (source_points lower article preferences <= 1 # 2)%Q).
  { unfold source_points. destruct (mem_string _ _); split; discriminate. }
  destruct Hk, Hc, Hs. split; lra.
Qed.

Lemma score_article_bounds_witness :
  score_article Str.ascii_lower (example_article "Tech Report") example_preferences
  = Ok (9 # 2)%Q
  ∧ (0 <= 9 # 2)%Q.
Proof.
  split; [reflexivity|].
  apply (score_article_bounds Str.ascii_lower (example_article "Tech Report")
           example_preferences (9 # 2)%Q).
  reflexivity.
Defined.

(** ** Ranking a list with an article that cannot be scored *)

Lemma score_loop_app lower p pre rest acc acc' (h h1 : heap) :
  score_loop lower pre p acc h = (Ok acc', h1) →
  score_loop lower (pre ++ rest) p acc h = score_loop lower rest p acc' h1.
Proof.
  revert acc h. induction pre as [|x pre IH]; intros acc h; simpl.
  - by intros [= <- <-].
  - destruct (score_article lower (deref h x) p); [|discriminate]. apply IH.
Qed.

(** [rank_articles] stops at the first article that cannot be scored and
    raises [AttributeError]; the articles before it have had their scores
    written into them, every other object, the failing one and the ones after
    it included, is as it was. *)
Theorem rank_articles_stops_at_first_failure :
  ∀ lower preferences pre bad post (h : heap),
    (∀ x, x ∈ pre → article_ok (deref h x) = true) →
    article_ok (deref h bad) = false →
    ∃ h',
      rank_articles lower (pre ++ bad :: post) preferences h
      = (Raise AttributeError, h')
      ∧ scored_in_place lower preferences pre h h'.
Proof.
  intros lower preferences pre bad post h Hok Hbad.
  destruct (score_loop_ok lower preferences pre [] h Hok) as (h' & Hloop & Hin & Hout).
  exists h'. split; [|done].
  unfold rank_articles.
  replace (is_nil (pre ++ bad :: post)) with false by (by destruct pre).
  rewrite (score_loop_app _ _ _ _ _ _ _ _ Hloop). cbn [score_loop].
  assert (Hnot : bad ∉ pre) by (intros Hb; rewrite (Hok bad Hb) in Hbad; done).
  assert (Hsame : deref h' bad = deref h bad)
    by (unfold deref; by rewrite (Hout bad Hnot)).
  rewrite Hsame.
  by rewrite (score_article_raises lower _ preferences Hbad).
Qed.

Lemma rank_articles_stops_at_first_failure_witness :
  (∀ x, x ∈ [0]%nat → article_ok (deref (<[7%nat := [("title", VNone)]]> example_heap) x)
                      = true)
  ∧ article_ok (deref (<[7%nat := [("title", VNone)]]> example_heap) 7%nat) = false
  ∧ ∃ h',
      rank_articles Str.ascii_lower [0; 7; 1]%nat example_preferences
        (<[7%nat := [("title", VNone)]]> example_heap)
      = (Raise AttributeError, h').
Proof.
  assert (Hok : ∀ x, x ∈ [0]%nat →
            article_ok (deref (<[7%nat := [("title", VNone)]]> example_heap) x) = true)
    by (intros x Hx; each_listed Hx).
  split; [exact Hok|]. split; [reflexivity|].
  destruct (rank_articles_stops_at_first_failure Str.ascii_lower example_preferences
              [0]%nat 7%nat [1]%nat _ Hok eq_refl) as (h' & H & _).
  by exists h'.
Defined.

(** ** Ranking again *)

Section SortedAgain.
Context {A K : Type} (lt : K -> K -> bool) (key : A -> K).

Lemma insert_sorted_le_all x l :
  Forall (key_le lt key x) l → insert_sorted lt key x l = x :: l.
Proof.
  destruct l as [|y l]; [done|]. intros H.
  apply Forall_cons in H as [H _]. simpl. unfold key_le in H. by rewrite H.
Qed.

Lemma sort_stable_of_sorted l :
  StronglySorted (key_le lt key) l → sort_stable lt key l = l.
Proof.
  induction 1 as [|x l Hl IH Hx]; [done|].
  cbn [sort_stable foldr]. fold (sort_stable lt key l).
  rewrite IH. by apply insert_sorted_le_all.
Qed.

Hypothesis lt_asym : ∀ a b, lt a b = true → lt b a = false.
Hypothesis lt_negtrans : ∀ a b c, lt a c = true → lt a b = true ∨ lt b c = true.

Lemma sorted_idempotent reverse l :
  sorted lt key reverse (sorted lt key reverse l) = sorted lt key reverse l.
Proof.
  unfold sorted. destruct reverse.
  - rewrite rev_involutive. f_equal.
    by apply sort_stable_of_sorted, sort_stable_sorted.
  - by apply sort_stable_of_sorted, sort_stable_sorted.
Qed.
End SortedAgain.

Lemma score_loop_allocates lower p articles acc (h : heap) x :
  x ∈ articles ∨ is_Some (h !! x) →
  (∀ y, y ∈ articles → article_ok (deref h y) = true) →
  is_Some ((score_loop lower articles p acc h).2 !! x).
Proof.
  revert acc h. induction articles as [|y rest IH]; intros acc h Hx Hok.
  - destruct Hx as [Hx|Hx]; [by apply not_elem_of_nil in Hx|done].
  - cbn [score_loop].
    rewrite (score_of_ok lower p _ (Hok y ltac:(left))).
    apply IH.
    + destruct (decide (x = y)) as [->|Hne].
      * right. rewrite lookup_insert_eq. by eexists.
      * destruct Hx as [Hx|Hx].
        -- apply elem_of_cons in Hx as [?|Hx]; [done|by left].
        -- right. by rewrite lookup_insert_ne.
    + intros z Hz. destruct (decide (y = z)) as [<-|Hne].
      * rewrite deref_insert_eq, article_ok_set_relevance. apply Hok. by left.
      * rewrite deref_insert_ne by done. apply Hok. by right.
Qed.

Lemma rank_articles_heap lower p articles (h : heap) :
  (rank_articles lower articles p h).2 = (score_loop lower articles p [] h).2.
Proof.
  unfold rank_articles. destruct articles as [|x rest]; [done|].
  cbn [is_nil]. by destruct (score_loop _ _ _ _ _) as [[l|e] h'].
Qed.

(** Ranking the result of a ranking again changes nothing: the order is the
    same and so is every article object. *)
Theorem rank_articles_again :
  ∀ lower preferences articles (h : heap),
    (∀ x, x ∈ articles → article_ok (deref h x) = true) →
    ∃ ranked h',
      rank_articles lower articles preferences h = (Ok ranked, h')
      ∧ rank_articles lower ranked preferences h' = (Ok ranked, h').
Proof.
  intros lower p articles h Hok.
  destruct (rank_articles_ok lower p articles h Hok) as (h' & Hrank & Hin & Hout).
  set (key := fun x => score_of lower p (deref h x)) in *.
  set (ranked := sorted Qltb key true articles) in *.
  exists ranked, h'. split; [done|].
  assert (Hperm : ranked ≡ₚ articles) by apply sorted_perm.
  assert (Hok' : ∀ x, x ∈ ranked → article_ok (deref h' x) = true).
  { intros x Hx. rewrite Hperm in Hx.
    rewrite (Hin x Hx), article_ok_set_relevance. by apply Hok. }
  assert (Hkey : ∀ x, x ∈ ranked → score_of lower p (deref h' x) = key x).
  { intros x Hx. rewrite Hperm in Hx. rewrite (Hin x Hx). unfold score_of.
    by rewrite score_article_set_relevance. }
  destruct (rank_articles_ok lower p ranked h' Hok') as (h'' & Hrank' & Hin' & Hout').
  rewrite Hrank'. f_equal.
  - f_equal. rewrite (sorted_ext Qltb _ key true ranked Hkey).
    apply (sorted_idempotent Qltb key Qltb_asym Qltb_negtrans).
  - apply map_eq. intros x.
    destruct (decide (x ∈ ranked)) as [Hx|Hx]; [|by apply Hout'].
    assert (Hd : deref h'' x = deref h' x).
    { rewrite (Hin' x Hx), (Hkey x Hx).
      rewrite Hperm in Hx. by rewrite (Hin x Hx), dict_set_set. }
    assert (Ha : is_Some (h' !! x)).
    { replace h' with (rank_articles lower articles p h).2 by (by rewrite Hrank).
      rewrite rank_articles_heap. apply score_loop_allocates; [|done].
      left. by rewrite <- Hperm. }
    assert (Ha' : is_Some (h'' !! x)).
    { replace h'' with (rank_articles lower ranked p h').2 by (by rewrite Hrank').
      rewrite rank_articles_heap. apply score_loop_allocates; [by left|done]. }
    destruct Ha as [a Ha], Ha' as [a' Ha'].
    unfold deref in Hd. rewrite Ha, Ha' in Hd. cbn in Hd.
    by rewrite Ha, Ha', Hd.
Qed.

Lemma rank_articles_again_witness :
  (∀ x, x ∈ [3; 0; 1]%nat → article_ok (deref example_heap x) = true)
  ∧ ∃ ranked h',
      rank_articles Str.ascii_lower [3; 0; 1]%nat example_preferences example_heap
      = (Ok ranked, h')
      ∧ rank_articles Str.ascii_lower ranked example_preferences h' = (Ok ranked, h').
Proof.
  assert (Hok : ∀ x, x ∈ [3; 0; 1]%nat → article_ok (deref example_heap x) = true)
    by (intros x Hx; each_listed Hx).
  split; [exact Hok|].
  exact (rank_articles_again Str.ascii_lower example_preferences [3; 0; 1]%nat
           example_heap Hok).
Defined.

(** ** The selection keeps the best *)

(** For a count [n ≥ 0] the recommendations are the [n] best articles: the
    input splits into the articles returned and the articles left out, at most
    [n] are returned (all when there are fewer), and no article left out
    scores higher than one returned. *)
Theorem generate_recommendations_keeps_best :
  ∀ lower preferences articles n (h : heap),
    (∀ x, x ∈ articles → article_ok (deref h x) = true) →
    0 ≤ n →
    let score x := score_of lower preferences (deref h x) in
    ∃ top rest h',
      generate_recommendations lower articles preferences n h = (Ok top, h')
      ∧ rank_articles lower articles preferences h = (Ok (top ++ rest)%list, h')
      ∧ (top ++ rest)%list ≡ₚ articles
      ∧ length top = Nat.min (Z.to_nat n) (length articles)
      ∧ (∀ x y, x ∈ top → y ∈ rest → (score y <= score x)%Q).
Proof.
  intros lower preferences articles n h Hok Hn score.
  destruct (rank_articles_ok lower preferences articles h Hok) as (h' & Hrank & _).
  fold score in Hrank.
  set (ranked := sorted Qltb score true articles) in *.
  exists (take (Z.to_nat n) ranked), (drop (Z.to_nat n) ranked), h'.
  rewrite take_drop.
  assert (Hperm : ranked ≡ₚ articles) by apply sorted_perm.
  split; [|split; [done|split; [done|split]]].
  - unfold generate_recommendations, slice_to. rewrite Hrank.
    by destruct (Z.ltb_spec n 0); [lia|].
  - by rewrite length_take, Hperm.
  - intros x y Hx Hy.
    pose proof (sorted_reverse_descending Qltb score Qltb_asym Qltb_negtrans articles)
      as Hs.
    fold ranked in Hs. rewrite <- (take_drop (Z.to_nat n) ranked) in Hs.
    pose proof (StronglySorted_app_1_elem_of _ _ _ x y Hs Hx Hy) as Hxy.
    unfold key_ge in Hxy. by apply Qltb_ge in Hxy.
Qed.

Lemma generate_recommendations_keeps_best_witness :
  (∀ x, x ∈ [3; 1; 0]%nat → article_ok (deref example_heap x) = true)
  ∧ 0 ≤ 2
  ∧ ∃ top rest h',
      generate_recommendations Str.ascii_lower [3; 1; 0]%nat example_preferences 2
        example_heap = (Ok top, h')
      ∧ (top ++ rest)%list ≡ₚ [3; 1; 0]%nat.
Proof.
  assert (Hok : ∀ x, x ∈ [3; 1; 0]%nat → article_ok (deref example_heap x) = true)
    by (intros x Hx; each_listed Hx).
  split; [exact Hok|]. split; [lia|].
  destruct (generate_recommendations_keeps_best Str.ascii_lower example_preferences
              [3; 1; 0]%nat 2 example_heap Hok ltac:(lia))
    as (top & rest & h' & H1 & _ & H3 & _).
  by exists top, rest, h'.
Defined.

(** ** The order of the preference lists does not matter for the score *)

Lemma filter_length_permutation {A : Type} (f : A → bool) l1 l2 :
  l1 ≡ₚ l2 → length (List.filter f l1) = length (List.filter f l2).
Proof.
  induction 1 as [|x l1 l2 _ IH|x y l|l1 l2 l3 _ IH1 _ IH2]; simpl.
  - done.
  - destruct (f x); simpl; by rewrite IH.
  - by destruct (f x), (f y).
  - by rewrite IH1.
Qed.

(** Keywords, preferred categories and sources act as sets with
    multiplicity: listing them in another order gives the same score. *)
Theorem score_article_ignores_preference_order :
  ∀ lower article p p' score,
    keywords p ≡ₚ keywords p' →
    preferred_categories p ≡ₚ preferred_categories p' →
    sources p ≡ₚ sources p' →
    score_article lower article p = Ok score →
    ∃ score', score_article lower article p' = Ok score' ∧ (score' == score)%Q.
Proof.
  intros lower article p p' score Hk Hc Hs H.
  destruct (article_ok article) eqn:Hok; last first.
  { by rewrite (score_article_raises lower article p Hok) in H. }
  destruct (score_article_additive lower article p Hok) as (q & Hq & Heq).
  destruct (score_article_additive lower article p' Hok) as (q' & Hq' & Heq').
  rewrite H in Hq. injection Hq as <-.
  exists q'. split; [done|]. rewrite Heq, Heq'.
  unfold additive_score, keyword_points, category_points, source_points.
  rewrite (filter_length_permutation _ _ _ Hk).
  rewrite (mem_string_permutation _ _ _ (Permutation_map lower Hs)).
  destruct (Dict.get article "category") as [[| c | | | |]|]; try reflexivity.
  by rewrite (mem_string_permutation c _ _ Hc).
Qed.

Lemma score_article_ignores_preference_order_witness :
  ∃ score',
    score_article Str.ascii_lower (example_article "Tech Report")
      {| user_id := "tech_user"; preferred_categories := ["technology"];
         excluded_sources := []; preferred_authors := [];
         sources := ["tech report"]; keywords := ["gpu"; "ai"]; language := "en";
         min_reading_level := 1; max_article_length := 1000 |} = Ok score'
    ∧ (score' == 9 # 2)%Q.
Proof.
  apply (score_article_ignores_preference_order Str.ascii_lower
           (example_article "Tech Report") example_preferences).
  - apply Permutation_swap.
  - reflexivity.
  - reflexivity.
  - reflexivity.
Defined.

(** ** Formatting *)

Section FormatterFacts.
Variable V : validators.
Hypothesis HV : validators_ok V.

Lemma new_recommendation_url_refused t u s su k se c r :
  valid_str V u = None →
  new_recommendation V t u s su k se c r = Raise ValueError.
Proof.
  intros H. unfold new_recommendation. rewrite H.
  by destruct (valid_str V t).
Qed.

Lemma new_recommendation_raises t u s su k se c r e :
  new_recommendation V t u s su k se c r = Raise e → e = ValueError.
Proof.
  unfold new_recommendation.
  repeat match goal with
         | |- context [match ?x with Some _ => _ | None => _ end] => destruct x
         end; by intros [= <-].
Qed.

Lemma format_placeholder_ok article_data u :
  valid_str V (url_value article_data) = Some u →
  format_placeholder V article_data = Ok (placeholder_record u).
Proof.
  intros Hu. unfold format_placeholder, new_recommendation.
  fold (url_value article_data).
  by rewrite Hu, !(valid_str_str V HV), (valid_opt_str_str V HV).
Qed.

Lemma format_single_article_cases :
  ∀ article_data,
    ((∃ e, format_single_article V article_data = Raise e) ↔
     valid_str V (url_value article_data) = None)
    ∧ (∀ e, format_single_article V article_data = Raise e → e = ValueError)
    ∧ (url_value article_data = VNone →
       format_single_article V article_data = Raise ValueError)
    ∧ (∀ u, valid_str V (url_value article_data) = Some u →
         ∃ r, format_single_article V article_data = Ok r
              ∧ ArticleRecommendation.url r = u
              ∧ (∀ e, format_attempt V article_data = Raise e →
                      r = placeholder_record u)).
Proof.
  intros article_data.
  assert (Hnone : valid_str V (url_value article_data) = None →
                  format_single_article V article_data = Raise ValueError).
  { intros Hu. unfold format_single_article.
    assert (format_placeholder V article_data = Raise ValueError) as Hp
      by (by apply new_recommendation_url_refused).
    assert (∃ e, format_attempt V article_data = Raise e) as [e ->]; [|done].
    unfold format_attempt.
    destruct (Dict.get_default article_data "source" (VDict []));
      cbn [mbind result_bind]; try by eexists.
    exists ValueError. by apply new_recommendation_url_refused. }
  assert (Hsome : ∀ u, valid_str V (url_value article_data) = Some u →
    ∃ r, format_single_article V article_data = Ok r
         ∧ ArticleRecommendation.url r = u
         ∧ (∀ e, format_attempt V article_data = Raise e →
                 r = placeholder_record u)).
  { intros u Hu. unfold format_single_article.
    destruct (format_attempt V article_data) as [r|e] eqn:Ha.
    - exists r. split; [done|]. split; [|done].
      unfold format_attempt in Ha.
      destruct (Dict.get_default article_data "source" (VDict []));
        cbn [mbind result_bind] in Ha; try discriminate.
      unfold new_recommendation in Ha. fold (url_value article_data) in Ha.
      rewrite Hu in Ha.
      repeat match type of Ha with
             | context [match ?x with Some _ => _ | None => _ end] =>
                 destruct x; try discriminate
             end.
      by injection Ha as <-.
    - rewrite (format_placeholder_ok _ u Hu). exists (placeholder_record u).
      by repeat split. }
  split; [|split; [|split]].
  - split.
    + intros [e He].
      destruct (valid_str V (url_value article_data)) as [u|] eqn:Hu; [|done].
      destruct (Hsome u eq_refl) as (r & Hr & _). congruence.
    + intros Hu. exists ValueError. by apply Hnone.
  - intros e He.
    destruct (valid_str V (url_value article_data)) as [u|] eqn:Hu.
    + destruct (Hsome u eq_refl) as (r & Hr & _). congruence.
    + rewrite (Hnone eq_refl) in He. by injection He.
  - intros Hu. apply Hnone. rewrite Hu. apply (valid_str_none V HV).
  - exact Hsome.
Qed.

(** [format_single_article] raises exactly when the url of the article is
    refused as a string, for instance when it is [None]: then the record of
    the [try] block and the placeholder of the [except] block are both
    refused.  With an acceptable url a record is always returned, the
    placeholder when the [try] block failed. *)
Theorem format_single_article_raises_iff :
  ∀ article_data,
    ((∃ e, format_single_article V article_data = Raise e) ↔
     valid_str V (url_value article_data) = None)
    ∧ (∀ e, format_single_article V article_data = Raise e → e = ValueError)
    ∧ (url_value article_data = VNone →
       format_single_article V article_data = Raise ValueError)
    ∧ (∀ u, valid_str V (url_value article_data) = Some u →
         ∃ r, format_single_article V article_data = Ok r
              ∧ ArticleRecommendation.url r = u
              ∧ (∀ e, format_attempt V article_data = Raise e →
                      r = placeholder_record u)).
Proof. exact format_single_article_cases. Qed.

Lemma strings_of_map l ss : strings_of l = Some ss → l = map VStr ss.
Proof.
  revert ss. induction l as [|v l IH]; intros ss; simpl.
  - by intros [= <-].
  - destruct v; try discriminate.
    destruct (strings_of l) as [ss'|]; [|discriminate].
    intros [= <-]. simpl. f_equal. by apply IH.
Qed.

Lemma valid_str_text d k dflt :
  text_ok d k = true →
  valid_str V (Dict.get_default d k (VStr dflt)) = Some (text_or d k dflt).
Proof.
  unfold text_ok, text_or, Dict.get_default.
  destruct (Dict.get d k) as [[]|]; try done; intros _; apply (valid_str_str V HV).
Qed.

Lemma valid_opt_text d k :
  opt_text_ok d k = true →
  valid_opt_str V (get_or_none d k) = Some (opt_text d k).
Proof.
  unfold opt_text_ok, opt_text, get_or_none.
  destruct (Dict.get d k) as [[]|]; try done; intros _; cbn.
  - apply (valid_opt_str_none V HV).
  - apply (valid_opt_str_str V HV).
  - apply (valid_opt_str_none V HV).
Qed.

Lemma format_single_article_expected :
  ∀ article_data,
    formattable article_data = true →
    format_single_article V article_data = Ok (expected_record article_data).
Proof.
  intros d H. unfold formattable in H.
  repeat (apply andb_true_iff in H as [H ?]).
  unfold format_single_article, format_attempt.
  unfold source_ok in *.
  destruct (Dict.get_default d "source" (VDict [])) as [| | | | |src] eqn:Hsrc;
    try done.
  cbn [mbind result_bind]. unfold new_recommendation.
  rewrite (valid_str_text d "title" "N/A") by done.
  rewrite (valid_str_text d "url" EmptyString) by done.
  rewrite (valid_str_text src "name" "N/A") by done.
  rewrite !valid_opt_text by done.
  assert (Hk : valid_opt_strs V (get_or_none d "keywords") = Some (keywords_of d)).
  { unfold keywords_ok, keywords_of, get_or_none in *.
    destruct (Dict.get d "keywords") as [[| | | |l|]|]; try done; cbn.
    - apply (valid_opt_strs_none V HV).
    - destruct (strings_of l) as [ss|] eqn:E; [|done].
      rewrite (strings_of_map l ss E). apply (valid_opt_strs_list V HV).
    - apply (valid_opt_strs_none V HV). }
  assert (Hs : valid_opt_float V (get_or_none d "relevance_score")
               = Some (score_field d)).
  { unfold score_field_ok, score_field, get_or_none in *.
    destruct (Dict.get d "relevance_score") as [[]|]; try done; cbn.
    - apply (valid_opt_float_none V HV).
    - apply (valid_opt_float_float V HV).
    - apply (valid_opt_float_none V HV). }
  rewrite Hk, Hs. unfold expected_record. by rewrite Hsrc.
Qed.

(** An article whose fields all have the declared types is formatted
    field by field; a missing title or source name becomes ["N/A"], a missing
    url the empty string, and every missing optional field [None]. *)
Theorem format_single_article_well_typed :
  ∀ article_data,
    formattable article_data = true →
    format_single_article V article_data = Ok (expected_record article_data).
Proof. exact format_single_article_expected. Qed.

(** The list is formatted article by article: the result has one record
    per article, in the order of the input, and the call raises exactly when
    the url of some article is refused. *)
Theorem format_recommendation_list_pointwise :
  ∀ articles,
    (∀ out, format_recommendation_list V articles = Ok out ↔
            Forall2 (fun a r => format_single_article V a = Ok r) articles out)
    ∧ ((∃ e, format_recommendation_list V articles = Raise e) ↔
       Exists (fun a => valid_str V (url_value a) = None) articles)
    ∧ (∀ out, format_recommendation_list V articles = Ok out →
              length out = length articles).
Proof.
  intros articles.
  assert (H1 : ∀ out, format_recommendation_list V articles = Ok out ↔
             Forall2 (fun a r => format_single_article V a = Ok r) articles out).
  { induction articles as [|a rest IH]; intros out; simpl.
    - split; [intros [= <-]; constructor|by inversion 1].
    - destruct (format_single_article V a) as [r|e] eqn:Ha; cbn [mbind result_bind].
      + destruct (format_recommendation_list V rest) as [rs|e] eqn:Hr;
          cbn [mbind result_bind].
        * split.
          -- intros [= <-]. constructor; [done|]. by apply IH.
          -- inversion 1 as [|? r' ? rs' Hr' Hrs]; subst.
             apply IH in Hrs. congruence.
        * split; [discriminate|].
          inversion 1 as [|? r' ? rs' Hr' Hrs]; subst.
          apply IH in Hrs. discriminate.
      + split; [discriminate|].
        inversion 1 as [|? r' ? rs' Hr' Hrs]; subst. congruence. }
  split; [exact H1|]. split.
  - induction articles as [|a rest IH]; simpl.
    + split; [by intros [e [=]]|by inversion 1].
    + pose proof (format_single_article_cases a) as (Hiff & _).
      destruct (format_single_article V a) as [r|e] eqn:Ha; cbn [mbind result_bind].
      * assert (Hrest : (∃ e, format_recommendation_list V rest = Raise e) ↔
                  Exists (fun a => valid_str V (url_value a) = None) rest).
        { apply IH. intros out. split.
          - intros Hout. specialize (H1 (r :: out)). simpl in H1.
            rewrite Ha in H1. cbn [mbind result_bind] in H1. rewrite Hout in H1.
            cbn [mbind result_bind] in H1.
            destruct H1 as [H1 _]. specialize (H1 eq_refl). by inversion H1.
          - intros Hf. specialize (H1 (r :: out)). simpl in H1.
            rewrite Ha in H1. cbn [mbind result_bind] in H1.
            destruct H1 as [_ H1]. specialize (H1 ltac:(by constructor)).
            by destruct (format_recommendation_list V rest);
              cbn [mbind result_bind] in H1; [injection H1 as <-|]. }
        rewrite Exists_cons.
        destruct (format_recommendation_list V rest) as [rs|e] eqn:Hr;
          cbn [mbind result_bind].
        -- split.
           ++ by intros [e [=]].
           ++ intros [Hu|Hex].
              ** destruct Hiff as [_ Hiff]. destruct (Hiff Hu). discriminate.
              ** apply Hrest in Hex as [e He]. discriminate.
        -- split; [|by eexists]. intros _. right. apply Hrest. by eexists.
      * rewrite Exists_cons. split; [|by eexists].
        intros _. left. apply Hiff. by eexists.
  - intros out Hout. apply H1 in Hout. by apply Forall2_length in Hout.
Qed.
End FormatterFacts.

Lemma strings_of_strs l : strings_of (map VStr l) = Some l.
Proof.
  induction l as [|s l IH]; [done|].
  cbn [map strings_of foldr]. fold (strings_of (map VStr l)). by rewrite IH.
Qed.

Lemma strict_validators_ok : validators_ok strict_validators.
Proof.
  split; try done.
  intros l. cbn [strict_validators valid_opt_strs]. by rewrite strings_of_strs.
Qed.

Lemma format_single_article_raises_iff_witness :
  validators_ok strict_validators
  ∧ url_value [("title", VStr "No link"); ("url", VNone)] = VNone
  ∧ format_single_article strict_validators [("title", VStr "No link"); ("url", VNone)]
    = Raise ValueError.
Proof.
  split; [exact strict_validators_ok|]. split; [reflexivity|].
  destruct (format_single_article_raises_iff strict_validators strict_validators_ok
              [("title", VStr "No link"); ("url", VNone)]) as (_ & _ & H & _).
  by apply H.
Defined.

Lemma format_single_article_well_typed_witness :
  validators_ok strict_validators
  ∧ formattable example_processed_article = true
  ∧ format_single_article strict_validators example_processed_article
    = Ok (expected_record example_processed_article).
Proof.
  split; [exact strict_validators_ok|]. split; [reflexivity|].
  by apply (format_single_article_well_typed strict_validators strict_validators_ok).
Defined.

Lemma format_recommendation_list_pointwise_witness :
  validators_ok strict_validators
  ∧ ∀ out,
      format_recommendation_list strict_validators
        [example_processed_article; [("source", VStr "not a dictionary")]] = Ok out →
      length out = 2%nat.
Proof.
  split; [exact strict_validators_ok|].
  apply (format_recommendation_list_pointwise strict_validators strict_validators_ok
           [example_processed_article; [("source", VStr "not a dictionary")]]).
Defined.

Example format_examples :
  format_single_article strict_validators example_processed_article
  = Ok {| ArticleRecommendation.title := "Test Article Title";
          ArticleRecommendation.url := "http://example.com/test";
          ArticleRecommendation.source := "Test Source Name";
          ArticleRecommendation.summary := Some "This is the LLM summary.";
          ArticleRecommendation.keywords := Some ["test"; "llm"; "format"];
          ArticleRecommendation.sentiment := Some "neutral";
          ArticleRecommendation.category := Some "technology";
          ArticleRecommendation.relevance_score := Some (7 # 2)%Q |}
  ∧ format_single_article strict_validators [("source", VStr "not a dictionary")]
    = Ok (placeholder_record EmptyString)
  ∧ format_single_article strict_validators
      [("title", VStr "Incomplete Article"); ("relevance_score", VFloat 1)]
    = Ok {| ArticleRecommendation.title := "Incomplete Article";
            ArticleRecommendation.url := EmptyString;
            ArticleRecommendation.source := "N/A";
            ArticleRecommendation.summary := None;
            ArticleRecommendation.keywords := None;
            ArticleRecommendation.sentiment := None;
            ArticleRecommendation.category := None;
            ArticleRecommendation.relevance_score := Some 1%Q |}.
Proof. vm_compute. auto. Qed.

(** The score written by the ranking is what the formatter reports: an
    article whose fields have the declared types, once ranked with score [q],
    is formatted as before with [relevance_score] equal to [q]. *)
Theorem ranked_article_is_formatted_with_its_score :
  ∀ V article_data q,
    validators_ok V →
    formattable article_data = true →
    format_single_article V (Dict.set article_data "relevance_score" (VFloat q))
    = Ok {| ArticleRecommendation.title :=
              ArticleRecommendation.title (expected_record article_data);
            ArticleRecommendation.url :=
              ArticleRecommendation.url (expected_record article_data);
            ArticleRecommendation.source :=
              ArticleRecommendation.source (expected_record article_data);
            ArticleRecommendation.summary :=
              ArticleRecommendation.summary (expected_record article_data);
            ArticleRecommendation.keywords :=
              ArticleRecommendation.keywords (expected_record article_data);
            ArticleRecommendation.sentiment :=
              ArticleRecommendation.sentiment (expected_record article_data);
            ArticleRecommendation.category :=
              ArticleRecommendation.category (expected_record article_data);
            ArticleRecommendation.relevance_score := Some q |}.
Proof.
  intros V d q HV H.
  set (d' := Dict.set d "relevance_score" (VFloat q)).
  assert (Hne : ∀ k, k ≠ "relevance_score" → Dict.get d' k = Dict.get d k)
    by (intros k Hk; by apply dict_get_set_ne).
  assert (Heq : Dict.get d' "relevance_score" = Some (VFloat q))
    by apply dict_get_set_eq.
  assert (Hf : formattable d' = true).
  { unfold formattable, text_ok, source_ok, opt_text_ok, keywords_ok,
      score_field_ok, Dict.get_default in *.
    rewrite Heq. rewrite !Hne by discriminate.
    repeat (apply andb_true_iff in H as [H ?]).
    repeat (apply andb_true_iff; split); done. }
  rewrite (format_single_article_expected V HV d' Hf).
  unfold expected_record, text_or, opt_text, keywords_of, score_field,
    Dict.get_default.
  rewrite Heq. by rewrite !Hne by discriminate.
Qed.

Lemma ranked_article_is_formatted_with_its_score_witness :
  validators_ok strict_validators
  ∧ formattable (example_article "Tech Report") = true
  ∧ ArticleRecommendation.relevance_score <$>
      format_single_article strict_validators
        (Dict.set (example_article "Tech Report") "relevance_score" (VFloat (9 # 2)))
    = Ok (Some (9 # 2)%Q).
Proof.
  split; [exact strict_validators_ok|]. split; [reflexivity|].
  by rewrite (ranked_article_is_formatted_with_its_score strict_validators
                (example_article "Tech Report") (9 # 2)%Q strict_validators_ok eq_refl).
Defined.

(** ** Building the analyzer *)

Lemma new_analyzer_client openai api_key :
  client (new_analyzer openai api_key) = None ↔ unusable_key openai api_key.
Proof.
  unfold new_analyzer, unusable_key. destruct api_key as [k|]; [|by split; auto].
  destruct (nonempty k) eqn:Hn; cbn [negb orb].
  - apply nonempty_true in Hn.
    destruct (String.eqb_spec k "YOUR_OPENAI_API_KEY") as [->|Hp]; cbn.
    + split; auto.
    + split.
      * intros H. right. right. right. by exists k.
      * intros [?|[[= ?]|[[= ?]|(k' & [= <-] & ?)]]]; congruence.
  - apply negb_false_iff, String.eqb_eq in Hn as ->. split; auto.
Qed.

(** An analyzer built without a usable key is inert: the construction does
    not raise, and every operation returns without sending a request, with
    [None] when it misses the cache. *)
Theorem analyzer_without_usable_key_is_inert :
  ∀ openai api_key lower strip op (w : world (string * Z)),
    unusable_key openai api_key →
    let self := new_analyzer openai api_key in
    requests (run_operation lower strip self op w).2 = requests w
    ∧ (cache w !! operation_key op = None →
       (run_operation lower strip self op w).1 = Ok VNone).
Proof.
  intros openai api_key lower strip op w Hkey self.
  assert (Hc : client self = None) by (by apply new_analyzer_client).
  destruct (run_operation_spec lower strip self op w) as (v & -> & Hv).
  cbn [fst snd]. unfold after_body. rewrite Hc. split.
  - by destruct (cache w !! operation_key op).
  - intros Hmiss. by rewrite (Hv Hmiss Hc).
Qed.

Lemma analyzer_without_usable_key_is_inert_witness :
  unusable_key no_openai (Some "YOUR_OPENAI_API_KEY")
  ∧ requests (run_operation Str.ascii_lower Str.ascii_strip
                (new_analyzer no_openai (Some "YOUR_OPENAI_API_KEY"))
                (AnalyzeSentiment "news") empty_world).2 = [].
Proof.
  assert (H : unusable_key no_openai (Some "YOUR_OPENAI_API_KEY"))
    by (right; right; by left).
  split; [exact H|].
  apply (analyzer_without_usable_key_is_inert no_openai _ Str.ascii_lower
           Str.ascii_strip (AnalyzeSentiment "news") empty_world H).
Defined.

(** ** The analysis loop of the endpoint *)

Lemma run_operation_requests_le lower strip self op (w : world (string * Z)) :
  (length (requests (run_operation lower strip self op w).2)
   ≤ length (requests w) + 1)%nat.
Proof.
  destruct (run_operation_spec lower strip self op w) as (v & -> & _).
  cbn [snd]. destruct (cache w !! operation_key op); [lia|].
  unfold after_body. destruct (client self); cbn [store send requests];
    rewrite ?length_app; simpl; lia.
Qed.

Lemma run_operation_returns lower strip self op (w : world (string * Z)) :
  ∃ v, (run_operation lower strip self op w).1 = Ok v.
Proof.
  destruct (run_operation_spec lower strip self op w) as (v & -> & _). by exists v.
Qed.

Lemma analyze_article_requests lower strip analyzer article (w : world (string * Z)) :
  (length (requests (analyze_article lower strip analyzer article w).2)
   ≤ length (requests w) + 4)%nat.
Proof.
  unfold analyze_article.
  destruct (truthy (text_content article)); [|cbn; lia].
  destruct (text_content article) as [|text| | | |]; try (cbn; lia).
  pose proof (run_operation_requests_le lower strip analyzer
                (GenerateSummary text 100) w) as H1.
  cbn [run_operation] in H1.
  destruct (generate_summary strip analyzer text 100 w) as [[summary|e] w1];
    cbn [snd] in *; [|lia].
  pose proof (run_operation_requests_le lower strip analyzer
                (ExtractKeywords text 5) w1) as H2.
  cbn [run_operation] in H2.
  destruct (extract_keywords strip analyzer text 5 w1) as [[kws|e] w2];
    cbn [snd] in *; [|lia].
  pose proof (run_operation_requests_le lower strip analyzer
                (AnalyzeSentiment text) w2) as H3.
  cbn [run_operation] in H3.
  destruct (analyze_sentiment lower strip analyzer text w2) as [[sentiment|e] w3];
    cbn [snd] in *; [|lia].
  pose proof (run_operation_requests_le lower strip analyzer
                (CategorizeArticle text default_categories) w3) as H4.
  cbn [run_operation] in H4.
  destruct (categorize_article lower strip analyzer text default_categories w3)
    as [[category|e] w4]; cbn [snd] in *; [|lia].
  destruct (sliceable _); cbn [snd]; lia.
Qed.

(** The analysis of the fetched articles sends at most four requests per
    article to the provider, whatever the articles are and also when the loop
    ends in an exception. *)
Theorem analysis_sends_at_most_four_requests_per_article :
  ∀ lower strip analyzer items analyzed (w : world (string * Z)),
    (length (requests (analyze_loop lower strip analyzer items analyzed w).2)
     ≤ length (requests w) + 4 * length items)%nat.
Proof.
  intros lower strip analyzer items.
  induction items as [|item rest IH]; intros analyzed w; [cbn; lia|].
  cbn [analyze_loop length].
  destruct item as [| | | | |article]; try (cbn [snd]; lia).
  pose proof (analyze_article_requests lower strip analyzer article w) as Ha.
  destruct (analyze_article lower strip analyzer article w) as [[a|e] w'];
    cbn [snd] in *; [|lia].
  specialize (IH (analyzed ++ [a])%list w'). lia.
Qed.

Example analysis_requests_example :
  length (requests
    (analyze_loop Str.ascii_lower Str.ascii_strip (fixed_reply_analyzer "neutral")
       [VDict [("title", VStr "One")]; VDict [("title", VStr "Two")];
        VDict [("title", VStr "One")]; VDict [("url", VStr "no text")]]
       [] empty_world).2) = 8%nat.
Proof. vm_compute. reflexivity. Qed.

(** ** The recommendation endpoint *)

Lemma format_recommendation_list_length V articles out :
  format_recommendation_list V articles = Ok out → length out = length articles.
Proof.
  revert out. induction articles as [|a rest IH]; intros out; simpl.
  - by intros [= <-].
  - destruct (format_single_article V a); cbn [mbind result_bind]; [|discriminate].
    destruct (format_recommendation_list V rest) as [rs|];
      cbn [mbind result_bind]; [|discriminate].
    intros [= <-]. simpl. by rewrite (IH rs).
Qed.

Lemma recommend_items_length lower items preferences n out :
  0 ≤ n →
  recommend_items lower items preferences n = Ok out →
  (length out ≤ Z.to_nat n)%nat.
Proof.
  intros Hn. unfold recommend_items.
  destruct (_ =? _)%nat.
  - unfold generate_recommendations, slice_to.
    destruct (rank_articles _ _ _ _) as [[ranked|e] h']; [|discriminate].
    destruct (Z.ltb_spec n 0); [lia|].
    intros [= <-]. rewrite length_map, length_take. lia.
  - by destruct (rank_articles _ _ _ _) as [[ranked|e] h'].
Qed.

Lemma rank_and_format_length lower V uid items preferences u recs :
  rank_and_format lower V uid items preferences = RecommendationResponse u recs →
  u = uid ∧ (length recs ≤ 20)%nat.
Proof.
  unfold rank_and_format.
  destruct (recommend_items lower items preferences 20) as [ranked|e] eqn:Hr;
    [|discriminate].
  destruct (format_recommendation_list V ranked) as [formatted|e] eqn:Hf;
    [|discriminate].
  intros [= <- <-]. split; [done|].
  rewrite (format_recommendation_list_length V _ _ Hf).
  by apply (recommend_items_length lower items preferences 20 ranked).
Qed.

(** Whatever the state and the two boundaries do, a successful answer of
    the endpoint names the user asked for and carries at most 20
    recommendations. *)
Theorem get_recommendations_at_most_twenty :
  ∀ lower strip int_of_str requests_get openai V settings uid st u recs,
    (get_recommendations lower strip int_of_str requests_get openai V settings uid st).1
    = RecommendationResponse u recs →
    u = uid ∧ (length recs ≤ 20)%nat.
Proof.
  intros lower strip int_of_str requests_get openai V settings uid st u recs.
  unfold get_recommendations.
  destruct (user_preferences_db st !! uid) as [prefs|]; [|discriminate].
  destruct (match NEWSAPI_KEY settings with Some k => nonempty k | None => false end);
    [|discriminate].
  destruct (fetch_articles _ _ _) as [[fetched|[]] nw]; try discriminate.
  destruct (client (new_analyzer openai (OPENAI_API_KEY settings))) as [c|].
  - destruct fetched as [|s|z|q|l|d]; cbn [fst iterate];
      try discriminate; try (intros [= <- <-]; split; [done|cbn; lia]);
      match goal with
      | |- context [analyze_loop ?a ?b ?c ?d ?e ?f] =>
          destruct (analyze_loop a b c d e f) as [[analyzed|e'] lw]
      end; cbn [fst]; try discriminate; apply rank_and_format_length.
  - destruct fetched as [|s|z|q|l|d];
      try (intros [= <- <-]; split; [done|cbn; lia]);
      match goal with
      | |- context [if ?b then _ else _] => destruct b
      end; cbn [fst iterate]; try discriminate; apply rank_and_format_length.
Qed.

(** Without a usable OpenAI key the endpoint neither reads nor writes the
    enrichment cache and asks the provider nothing: the state of the
    enrichment cache and provider is left as it was, and the answer, the
    preference store and the state of the news cache and service come out the
    same whatever the enrichment cache holds. *)
Theorem get_recommendations_without_analyzer :
  ∀ lower strip int_of_str requests_get openai V settings uid st,
    unusable_key openai (OPENAI_API_KEY settings) →
    let get :=
      get_recommendations lower strip int_of_str requests_get openai V settings in
    llm (get uid st).2 = llm st
    ∧ ∀ lw, (get uid (with_llm st lw)).1 = (get uid st).1
            ∧ news (get uid (with_llm st lw)).2 = news (get uid st).2
            ∧ user_preferences_db (get uid (with_llm st lw)).2
              = user_preferences_db (get uid st).2
            ∧ llm (get uid (with_llm st lw)).2 = lw.
Proof.
  intros lower strip int_of_str requests_get openai V settings uid [db nw lw0] Hkey get.
  apply new_analyzer_client in Hkey.
  subst get. unfold with_llm, get_recommendations.
  cbn [user_preferences_db news llm]. rewrite Hkey.
  destruct (db !! uid) as [prefs|]; [|done].
  destruct (match NEWSAPI_KEY settings with Some k => nonempty k | None => false end);
    [|done].
  destruct (fetch_articles _ _ _) as [[fetched|[]] nw']; try done.
  destruct fetched as [|s|z|q|l|d]; try done;
    match goal with
    | |- context [if ?b then _ else _] => destruct b
    end; cbn [iterate]; done.
Qed.

Lemma get_recommendations_without_analyzer_witness :
  unusable_key no_openai (OPENAI_API_KEY example_settings)
  ∧ llm (get_recommendations Str.ascii_lower Str.ascii_strip decimal_int always_ok no_openai
           strict_validators example_settings "tech_user" example_state).2
    = llm example_state
  ∧ (get_recommendations Str.ascii_lower Str.ascii_strip decimal_int always_ok no_openai
       strict_validators example_settings "tech_user"
       (with_llm example_state (store "summary:0" (VStr "stale") empty_world))).1
    = (get_recommendations Str.ascii_lower Str.ascii_strip decimal_int always_ok no_openai
         strict_validators example_settings "tech_user" example_state).1.
Proof.
  assert (H : unusable_key no_openai (OPENAI_API_KEY example_settings)) by (by left).
  destruct (get_recommendations_without_analyzer Str.ascii_lower Str.ascii_strip
              decimal_int always_ok no_openai strict_validators example_settings
              "tech_user" example_state H) as (Hkept & Hany).
  split; [exact H|]. split; [exact Hkept|].
  by destruct (Hany (store "summary:0" (VStr "stale") empty_world)) as (Hsame & _).
Defined.

(** A failed fetch is answered like an empty result: when the user is known,
    the NewsAPI key is configured and the request for the user's query fails
    at the transport level, the endpoint sends that one request, asks the
    provider of the enrichment nothing, and answers with an empty list of
    recommendations; and since the failure is memoised, the next request of
    the user is answered with the empty list without contacting the boundary,
    whatever the boundary would answer then. *)
Theorem get_recommendations_after_failed_fetch :
  ∀ lower strip int_of_str requests_get requests_get' openai V settings uid st preferences k,
    user_preferences_db st !! uid = Some preferences →
    NEWSAPI_KEY settings = Some k → k ≠ EmptyString →
    cache (news st) !! make_cache_key (transform_for_fetching preferences) = None →
    (∀ params, transport_failure (requests_get (length (requests (news st))) params)) →
    let first :=
      get_recommendations lower strip int_of_str requests_get openai V settings uid st in
    first.1 = RecommendationResponse uid []
    ∧ llm first.2 = llm st
    ∧ length (requests (news first.2)) = S (length (requests (news st)))
    ∧ get_recommendations lower strip int_of_str requests_get' openai V settings uid first.2
      = (RecommendationResponse uid [], first.2).
Proof.
  intros lower strip int_of_str requests_get requests_get' openai V settings uid st p k
    Hdb Hkey Hk Hmiss Hfail first.
  pose proof (params_of_built_query int_of_str p) as Hp.
  set (params := (List.filter entry_truthy (optional_entries p) ++ base_entries p)%list)
    in Hp.
  assert (Hfetch :
    fetch_articles int_of_str requests_get (transform_for_fetching p) (news st)
    = (Ok VNone, store (make_cache_key (transform_for_fetching p)) VNone
                   (send params (news st)))).
  { rewrite (fetch_articles_miss int_of_str requests_get _ _ params Hp Hmiss).
    by rewrite (transport_failure_result _ (Hfail params)). }
  assert (Hfirst : first =
    (RecommendationResponse uid [],
     {| user_preferences_db := user_preferences_db st;
        news := store (make_cache_key (transform_for_fetching p)) VNone
                  (send params (news st));
        llm := llm st |})).
  { subst first. unfold get_recommendations. rewrite Hdb, Hkey.
    apply nonempty_true in Hk. rewrite Hk. by rewrite Hfetch. }
  rewrite Hfirst. cbn [fst snd llm news store send requests].
  split; [done|]. split; [done|]. split.
  - rewrite length_app. simpl. lia.
  - unfold get_recommendations. cbn [user_preferences_db news llm].
    rewrite Hdb, Hkey. apply nonempty_true in Hk. rewrite Hk.
    unfold fetch_articles, cached. cbn [cache store]. by rewrite lookup_insert_eq.
Qed.

Lemma get_recommendations_after_failed_fetch_witness :
  user_preferences_db example_state !! "tech_user" = Some example_preferences
  ∧ NEWSAPI_KEY example_settings = Some "news-key"
  ∧ cache (news example_state)
      !! make_cache_key (transform_for_fetching example_preferences) = None
  ∧ (get_recommendations Str.ascii_lower Str.ascii_strip decimal_int always_timeout no_openai
       strict_validators example_settings "tech_user" example_state).1
    = RecommendationResponse "tech_user" [].
Proof.
  split; [reflexivity|]. split; [reflexivity|]. split; [apply lookup_empty|].
  destruct (get_recommendations_after_failed_fetch Str.ascii_lower Str.ascii_strip
              decimal_int always_timeout always_ok no_openai strict_validators example_settings
              "tech_user" example_state example_preferences "news-key"
              eq_refl eq_refl ltac:(discriminate) (lookup_empty _)
              (fun params => or_intror (or_introl eq_refl))) as (H & _).
  exact H.
Defined.

Lemma get_recommendations_at_most_twenty_witness :
  (get_recommendations Str.ascii_lower Str.ascii_strip decimal_int always_ok no_openai
     strict_validators example_settings "tech_user" example_state).1
  = RecommendationResponse "tech_user"
      [ {| ArticleRecommendation.title := "Test Article 1";
           ArticleRecommendation.url := EmptyString;
           ArticleRecommendation.source := "N/A";
           ArticleRecommendation.summary := None;
           ArticleRecommendation.keywords := None;
           ArticleRecommendation.sentiment := None;
           ArticleRecommendation.category := None;
           ArticleRecommendation.relevance_score := Some 0%Q |} ]
  ∧ (1 ≤ 20)%nat.
Proof.
  assert (H : (get_recommendations Str.ascii_lower Str.ascii_strip decimal_int always_ok no_openai
                 strict_validators example_settings "tech_user" example_state).1
              = RecommendationResponse "tech_user"
                  [ {| ArticleRecommendation.title := "Test Article 1";
                       ArticleRecommendation.url := EmptyString;
                       ArticleRecommendation.source := "N/A";
                       ArticleRecommendation.summary := None;
                       ArticleRecommendation.keywords := None;
                       ArticleRecommendation.sentiment := None;
                       ArticleRecommendation.category := None;
                       ArticleRecommendation.relevance_score := Some 0%Q |} ])
    by (vm_compute; reflexivity).
  split; [exact H|].
  exact (proj2 (get_recommendations_at_most_twenty _ _ _ _ _ _ _ _ _ _ _ H)).
Defined.

(** ** An article with a null field *)

Lemma article_ok_set_other a k v :
  k ∉ ["title"; "description"; "content"; "source"] →
  article_ok (Dict.set a k v) = article_ok a.
Proof.
  intros Hk. unfold article_ok, text_ok.
  rewrite !dict_get_default_set_ne; [done|..];
    intros ->; apply Hk; apply (bool_decide_unpack _); vm_compute; reflexivity.
Qed.

Lemma analyze_article_keeps_article_ok lower strip analyzer article
    (w w' : world (string * Z)) analyzed :
  analyze_article lower strip analyzer article w = (Ok analyzed, w') →
  article_ok analyzed = article_ok article.
Proof.
  unfold analyze_article.
  destruct (truthy (text_content article)); [|by intros [= <- _]].
  destruct (text_content article) as [|text| | | |]; try discriminate.
  destruct (generate_summary _ _ _ _ _) as [[summary|e] w1]; [|discriminate].
  destruct (extract_keywords _ _ _ _ _) as [[kws|e] w2]; [|discriminate].
  destruct (analyze_sentiment _ _ _ _ _) as [[sentiment|e] w3]; [|discriminate].
  destruct (categorize_article _ _ _ _ _ _) as [[category|e] w4]; [|discriminate].
  destruct (sliceable _); [|discriminate].
  intros [= <- _].
  rewrite !article_ok_set_other; [done|..];
    intros H; repeat (apply elem_of_cons in H as [[=]|H]);
    by apply not_elem_of_nil in H.
Qed.

Lemma analyze_loop_keeps_article_ok lower strip analyzer items acc
    (w w' : world (string * Z)) out :
  analyze_loop lower strip analyzer items acc w = (Ok out, w') →
  ∃ out', out = (acc ++ out')%list
          ∧ Forall2 (fun item a' => ∃ a, item = VDict a ∧ article_ok a' = article_ok a)
              items out'.
Proof.
  revert acc w. induction items as [|item rest IH]; intros acc w; simpl.
  - intros [= <- _]. exists []. by rewrite app_nil_r.
  - destruct item as [| | | | |article]; try discriminate.
    destruct (analyze_article lower strip analyzer article w) as [[a|e] w1] eqn:Ha;
      [|discriminate].
    intros H. apply IH in H as (out' & -> & Hall).
    exists (a :: out'). split; [by rewrite <- app_assoc|].
    constructor; [|done]. exists article. split; [done|].
    by eapply analyze_article_keeps_article_ok.
Qed.

Lemma first_failure_split (ok : nat → bool) l :
  Exists (fun x => ok x = false) l →
  ∃ pre x post, l = (pre ++ x :: post)%list
                ∧ Forall (fun y => ok y = true) pre ∧ ok x = false.
Proof.
  induction l as [|y l IH]; [by inversion 1|].
  intros H. destruct (ok y) eqn:Hy.
  - apply Exists_cons in H as [H|H]; [congruence|].
    destruct (IH H) as (pre & x & post & -> & Hpre & Hx).
    exists (y :: pre), x, post. split; [done|]. split; [by constructor|done].
  - exists [], y, l. by repeat split.
Qed.

Lemma rank_articles_raises_on_failure lower preferences refs (h : heap) :
  Exists (fun x => article_ok (deref h x) = false) refs →
  ∃ h', rank_articles lower refs preferences h = (Raise AttributeError, h').
Proof.
  intros H.
  apply (first_failure_split (fun x => article_ok (deref h x))) in H
    as (pre & bad & post & -> & Hpre & Hbad).
  rewrite Forall_forall in Hpre.
  destruct (score_loop_ok lower preferences pre [] h Hpre) as (h' & Hloop & Hin & Hout).
  exists h'. unfold rank_articles.
  replace (is_nil (pre ++ bad :: post)) with false by (by destruct pre).
  rewrite (score_loop_app _ _ _ _ _ _ _ _ Hloop). cbn [score_loop].
  assert (Hnot : bad ∉ pre) by (intros Hb; rewrite (Hpre bad Hb) in Hbad; done).
  assert (Hsame : deref h' bad = deref h bad)
    by (unfold deref; by rewrite (Hout bad Hnot)).
  by rewrite Hsame, (score_article_raises lower _ preferences Hbad).
Qed.

Lemma dict_prefix_full items :
  length (dict_prefix items) = length items → items = map VDict (dict_prefix items).
Proof.
  induction items as [|item rest IH]; [done|].
  destruct item as [| | | | |d]; try discriminate.
  simpl. intros [= H]. by rewrite <- IH.
Qed.

Lemma recommend_items_raises lower items preferences n d :
  VDict d ∈ items → article_ok d = false →
  ∃ e, recommend_items lower items preferences n = Raise e.
Proof.
  intros Hin Hbad. unfold recommend_items.
  destruct (Nat.eqb_spec (length (dict_prefix items)) (length items)) as [Hlen|Hlen].
  - rewrite (dict_prefix_full items Hlen) in Hin.
    apply list_elem_of_fmap in Hin as (d' & [= <-] & Hd).
    apply list_elem_of_lookup in Hd as [i Hi].
    destruct (rank_articles_raises_on_failure lower preferences
                (seq 0 (length (dict_prefix items)))
                (map_seq 0 (dict_prefix items))) as [h' Hr].
    { apply Exists_exists. exists i. split.
      - apply list_elem_of_In, in_seq. apply lookup_lt_Some in Hi. lia.
      - unfold deref. rewrite lookup_map_seq_0, Hi. done. }
    unfold generate_recommendations. rewrite Hr. by eexists.
  - destruct (rank_articles _ _ _ _) as [[ranked|e] h']; by eexists.
Qed.

(** One fetched article with a null field is enough to lose the whole
    answer: when the fetch yields a list that contains an article whose
    title, description or content is present but not a string (NewsAPI sends
    [null] for a missing description), or whose source is not a dictionary
    with a string name, the endpoint answers with the generic error instead of
    recommendations, with or without the analyzer. *)
Theorem get_recommendations_fails_on_null_field :
  ∀ lower strip int_of_str requests_get openai V settings uid st preferences k items nw d,
    user_preferences_db st !! uid = Some preferences →
    NEWSAPI_KEY settings = Some k → k ≠ EmptyString →
    fetch_articles int_of_str requests_get (transform_for_fetching preferences) (news st)
    = (Ok (VList items), nw) →
    VDict d ∈ items → article_ok d = false →
    (get_recommendations lower strip int_of_str requests_get openai V settings uid st).1
    = UnexpectedError.
Proof.
  intros lower strip int_of_str requests_get openai V settings uid st p k items nw d
    Hdb Hkey Hk Hfetch Hin Hbad.
  unfold get_recommendations. rewrite Hdb, Hkey.
  apply nonempty_true in Hk. rewrite Hk, Hfetch.
  assert (Hitems : items ≠ []) by (intros ->; by apply not_elem_of_nil in Hin).
  destruct (client (new_analyzer openai (OPENAI_API_KEY settings))) as [c|].
  - cbn [iterate].
    destruct (analyze_loop _ _ _ _ _ _) as [[analyzed|e] lw] eqn:Hloop; [|done].
    cbn [fst]. apply analyze_loop_keeps_article_ok in Hloop as (out' & -> & Hall).
    rewrite app_nil_l. unfold rank_and_format.
    apply list_elem_of_lookup in Hin as [i Hi].
    destruct (Forall2_lookup_l _ _ _ _ _ Hall Hi) as (a' & Ha' & a & [= <-] & Hok).
    destruct (recommend_items_raises lower (map VDict out') p 20 a') as [e ->];
      [|congruence|done].
    apply list_elem_of_fmap. exists a'. split; [done|].
    by eapply list_elem_of_lookup_2.
  - replace (truthy (VList items)) with true by (by destruct items).
    cbn [iterate fst]. unfold rank_and_format.
    by destruct (recommend_items_raises lower items p 20 d Hin Hbad) as [e ->].
Qed.

Lemma get_recommendations_fails_on_null_field_witness :
  user_preferences_db example_state !! "tech_user" = Some example_preferences
  ∧ NEWSAPI_KEY example_settings = Some "news-key"
  ∧ (get_recommendations Str.ascii_lower Str.ascii_strip decimal_int always_null_description
       no_openai strict_validators example_settings "tech_user" example_state).1
    = UnexpectedError.
Proof.
  split; [reflexivity|]. split; [reflexivity|].
  eapply (get_recommendations_fails_on_null_field Str.ascii_lower Str.ascii_strip
            decimal_int always_null_description no_openai strict_validators example_settings
            "tech_user" example_state example_preferences "news-key").
  - reflexivity.
  - reflexivity.
  - discriminate.
  - vm_compute. reflexivity.
  - by left.
  - reflexivity.
Defined.

(** The endpoint reads the preference store only at the user asked for. *)
Lemma get_recommendations_reads_one_user :
  ∀ lower strip int_of_str requests_get openai V settings uid st st',
    user_preferences_db st' !! uid = user_preferences_db st !! uid →
    news st' = news st → llm st' = llm st →
    (get_recommendations lower strip int_of_str requests_get openai V settings uid st').1
    = (get_recommendations lower strip int_of_str requests_get openai V settings uid st).1.
Proof.
  intros lower strip int_of_str requests_get openai V settings uid [db nw lw] [db' nw' lw'].
  cbn [user_preferences_db news llm]. intros Hdb -> ->.
  unfold get_recommendations. cbn [user_preferences_db news llm]. rewrite Hdb.
  destruct (db !! uid) as [prefs|]; [|done].
  destruct (match NEWSAPI_KEY settings with Some k => nonempty k | None => false end);
    [|done].
  destruct (fetch_articles _ _ _) as [[fetched|[]] nw2]; try done.
  destruct fetched as [|s|z|q|l|d]; try done;
    destruct (client (new_analyzer openai (OPENAI_API_KEY settings))) as [c|];
    cbn [iterate]; try done;
    repeat match goal with
    | |- context [if ?b then _ else _] => destruct b
    | |- context [analyze_loop ?a ?b ?c ?d ?e ?f] =>
        destruct (analyze_loop a b c d e f) as [[analyzed|e'] lw2]
    end; done.
Qed.

(** The preference store is keyed by user: a user nobody stored preferences
    for is answered 404 and the state stays as it was; once preferences are
    stored for a user that user is never answered 404, a second submission
    replaces the first, and what every other user is answered is unchanged. *)
Theorem preferences_are_stored_per_user :
  ∀ lower strip int_of_str requests_get openai V settings p st,
    let st' := (receive_preferences p st).2 in
    let get := get_recommendations lower strip int_of_str requests_get openai V settings in
    (∀ uid, user_preferences_db st !! uid = None →
       get uid st
       = (HTTPException 404 ("Preferences not found for user " ++ uid), st))
    ∧ (∀ detail, (get (user_id p) st').1 ≠ HTTPException 404 detail)
    ∧ (∀ q, user_id q = user_id p →
         user_preferences_db (receive_preferences q st').2 !! user_id p = Some q)
    ∧ (∀ uid, uid ≠ user_id p → (get uid st').1 = (get uid st).1).
Proof.
  intros lower strip int_of_str requests_get openai V settings p st st' get.
  split; [|split; [|split]].
  - intros uid Hnone. unfold get, get_recommendations. by rewrite Hnone.
  - intros detail. unfold get, get_recommendations, st', receive_preferences.
    cbn [snd user_preferences_db news llm]. rewrite lookup_insert_eq.
    destruct (match NEWSAPI_KEY settings with Some k => nonempty k | None => false end);
      [|done].
    destruct (fetch_articles _ _ _) as [[fetched|[]] nw2]; try done.
    destruct fetched as [|s|z|q|l|d]; try done;
      destruct (client (new_analyzer openai (OPENAI_API_KEY settings))) as [c|];
      cbn [iterate]; try done;
      repeat match goal with
      | |- context [if ?b then _ else _] => destruct b
      | |- context [analyze_loop ?a ?b ?c ?d ?e ?f] =>
          destruct (analyze_loop a b c d e f) as [[analyzed|e'] lw2]
      end; cbn [fst]; try done;
      unfold rank_and_format;
      repeat match goal with
      | |- context [match ?x with Ok _ => _ | Raise _ => _ end] => destruct x
      end; done.
  - intros q Hq. unfold receive_preferences. cbn [snd user_preferences_db].
    rewrite Hq. by rewrite lookup_insert_eq.
  - intros uid Hne. apply get_recommendations_reads_one_user; [|done..].
    unfold st', receive_preferences. cbn [snd user_preferences_db].
    by rewrite lookup_insert_ne.
Qed.

Lemma preferences_are_stored_per_user_witness :
  user_preferences_db example_state !! "nobody" = None
  ∧ get_recommendations Str.ascii_lower Str.ascii_strip decimal_int always_null_description
      no_openai strict_validators example_settings "nobody" example_state
    = (HTTPException 404 "Preferences not found for user nobody", example_state)
  ∧ "nobody" ≠ user_id example_preferences
  ∧ (get_recommendations Str.ascii_lower Str.ascii_strip decimal_int always_null_description
       no_openai strict_validators example_settings "nobody"
       (receive_preferences example_preferences example_state).2).1
    = (get_recommendations Str.ascii_lower Str.ascii_strip decimal_int always_null_description
         no_openai strict_validators example_settings "nobody" example_state).1.
Proof.
  destruct (preferences_are_stored_per_user Str.ascii_lower Str.ascii_strip
              decimal_int always_null_description no_openai strict_validators example_settings
              example_preferences example_state) as (Hunknown & _ & _ & Hframe).
  split; [reflexivity|]. split; [by apply Hunknown|].
  split; [discriminate|]. by apply Hframe.
Defined.

Lemma score_article_raises_iff_witness :
  score_article Str.ascii_lower
    [("title", VStr "New AI Chip"); ("description", VNone)] example_preferences
  = Raise AttributeError.
Proof.
  apply (score_article_raises_iff Str.ascii_lower
           [("title", VStr "New AI Chip"); ("description", VNone)]
           example_preferences).
  left. exists "description", VNone.
  split; [cbn; tauto|]. split; [reflexivity|discriminate].
Defined.

Lemma transform_for_fetching_contents_witness :
  language french_reader ≠ EmptyString
  ∧ Dict.get (transform_for_fetching french_reader) "language" = Some (PStr "fr")
  ∧ language reader_without_language = EmptyString
  ∧ Dict.get (transform_for_fetching reader_without_language) "language"
    = Some (PStr "en")
  ∧ Dict.get (transform_for_fetching example_preferences) "q"
    = Some (PStr "technology OR ai OR gpu")
  ∧ Dict.get (transform_for_fetching example_preferences) "excludeDomains" = None.
Proof.
  destruct (transform_for_fetching_contents french_reader)
    as (_ & (fr & Hfr & _ & Huser & _) & _).
  destruct (transform_for_fetching_contents reader_without_language)
    as (_ & (en & Hen & _ & _ & Hdefault) & _).
  destruct (transform_for_fetching_contents example_preferences)
    as (_ & _ & _ & _ & Hq & _ & Hexcluded & _).
  split; [discriminate|].
  split; [by rewrite Hfr, Huser|].
  split; [reflexivity|].
  split; [by rewrite Hen, Hdefault|].
  split; [exact Hq|exact Hexcluded].
Defined.
